(** * gcp-read.py: the resource counting engine, embedded and verified

    The script counts billable resources of GCP projects.  Every probe
    drains a paginated listing, adds what it counted to the module-wide
    [totals] dictionary and appends a row to [totals_log]; failures go to
    [errors_log].  [get_gcp_resources] dispatches the probes of one project,
    [main] dispatches the projects.

    Conventions of the embedding:
    - Python [int] is [Z]; Python [float] (only the progress figures of
      [main]) is IEEE 754 binary64, every operation rounding to nearest
      with ties to even ([PyFloat]);
    - Python [str] is [string], the UTF-8 encoding of the text;
    - a dictionary is a [gmap] when it is only read and written by key and
      an association list when the code iterates over it;
    - the module globals [totals], [totals_log], [errors_log] are the fields
      of [state], threaded through a state-and-exception monad [prog];
    - a remote listing is a [listing]: whether building the client and the
      first request raises, and what [request.execute()] answers for the
      n-th page.  The [while request is not None] loops take fuel, since a
      remote side that always answers with a [nextPageToken] keeps them
      running for ever;
    - the thread pools are run by one admissible schedule: every submitted
      task runs to its end, in submission order, and an exception it raises
      is kept in its future.  Independence of the order is a theorem about
      the aggregation, not an assumption. *)

From Stdlib Require Import ZArith QArith String Ascii List Permutation Sorted Lia
  DecimalString SpecFloat.
From stdpp Require Import gmap strings list fin_maps.

Open Scope string_scope.
Open Scope Z_scope.
Open Scope list_scope.

(** ** Python strings *)

Module PyStr.

(** [str(n)] for an [int]. *)
Definition str (n : Z) : string := NilZero.string_of_int (Z.to_int n).

(** [s.replace(old, new)] for one-character [old] and [new]. *)
Fixpoint replace (old new : ascii) (s : string) : string :=
  match s with
  | EmptyString => EmptyString
  | String c s' => String (if Ascii.eqb c old then new else c) (replace old new s')
  end.

(** [s.split(sep)] for a one-character separator: never empty. *)
Fixpoint split (sep : ascii) (s : string) : list string :=
  match s with
  | EmptyString => [EmptyString]
  | String c s' =>
      if Ascii.eqb c sep then EmptyString :: split sep s'
      else match split sep s' with
           | w :: ws => String c w :: ws
           | [] => [String c EmptyString]
           end
  end.

(** [l[-k]] for [k >= 1]; [None] stands for [IndexError]. *)
Definition index_from_end {A} (k : nat) (l : list A) : option A :=
  if (k <=? length l)%nat then nth_error l (length l - k) else None.

Definition lower_ascii (c : ascii) : ascii :=
  let n := nat_of_ascii c in
  if ((65 <=? n) && (n <=? 90))%nat then ascii_of_nat (n + 32) else c.

(** [s.lower()], on the ASCII letters. *)
Fixpoint lower (s : string) : string :=
  match s with
  | EmptyString => EmptyString
  | String c s' => String (lower_ascii c) (lower s')
  end.

(** [sub in s] for strings. *)
Fixpoint contains (sub s : string) : bool :=
  String.prefix sub s ||
  match s with
  | EmptyString => false
  | String _ s' => contains sub s'
  end.

(** The characters for which [str.isspace] holds, each in UTF-8: U+0009
    to U+000D, U+001C to U+0020, U+0085, U+00A0, U+1680, U+2000 to U+200A,
    U+2028, U+2029, U+202F, U+205F and U+3000. *)
Definition whitespace : list (list ascii) :=
  map (map ascii_of_nat)
      [[9]; [10]; [11]; [12]; [13]; [28]; [29]; [30]; [31]; [32];
       [194; 133]; [194; 160]; [225; 154; 128];
       [226; 128; 128]; [226; 128; 129]; [226; 128; 130]; [226; 128; 131];
       [226; 128; 132]; [226; 128; 133]; [226; 128; 134]; [226; 128; 135];
       [226; 128; 136]; [226; 128; 137]; [226; 128; 138];
       [226; 128; 168]; [226; 128; 169]; [226; 128; 175];
       [226; 129; 159]; [227; 128; 128]]%nat.

(** [s] after the bytes [p], when it begins with them. *)
Fixpoint after_prefix (p s : list ascii) : option (list ascii) :=
  match p with
  | [] => Some s
  | a :: p' =>
      match s with
      | b :: s' => if Ascii.eqb a b then after_prefix p' s' else None
      | [] => None
      end
  end.

(** [s] after its first character, when that is one of [spaces]. *)
Fixpoint after_space (spaces : list (list ascii)) (s : list ascii) : option (list ascii) :=
  match spaces with
  | [] => None
  | w :: spaces' =>
      match after_prefix w s with
      | Some s' => Some s'
      | None => after_space spaces' s
      end
  end.

(** [s] after its leading characters of [spaces]; [fuel] bounds their
    number. *)
Fixpoint drop_spaces (spaces : list (list ascii)) (fuel : nat) (s : list ascii)
  : list ascii :=
  match fuel with
  | O => s
  | S fuel' =>
      match after_space spaces s with
      | Some s' => drop_spaces spaces fuel' s'
      | None => s
      end
  end.

(** [s.lstrip()]. *)
Definition lstrip (s : string) : string :=
  string_of_list_ascii (drop_spaces whitespace (String.length s) (list_ascii_of_string s)).

(** [s.rstrip()], on the reversed bytes: in UTF-8 the last bytes of a text
    form the encoding of a whitespace character only when its last
    character is that one. *)
Definition rstrip (s : string) : string :=
  string_of_list_ascii
    (List.rev (drop_spaces (map (@List.rev ascii) whitespace) (String.length s)
                           (List.rev (list_ascii_of_string s)))).

(** [s.strip()]. *)
Definition strip (s : string) : string := rstrip (lstrip s).

(** Truth value of a string: [if s:]. *)
Definition truthy (s : string) : bool :=
  match s with EmptyString => false | _ => true end.

(** [x in l] for a list of strings. *)
Definition mem (x : string) (l : list string) : bool :=
  existsb (String.eqb x) l.

(** Insertion into a sorted list, after the equal elements: with
    [sort_by] below this is a stable sort, as [list.sort] and [sorted]. *)
Fixpoint insert_by {A} (key : A -> string) (x : A) (l : list A) : list A :=
  match l with
  | [] => [x]
  | y :: l' => if String.leb (key y) (key x) then y :: insert_by key x l' else x :: l
  end.

Definition sort_by {A} (key : A -> string) (l : list A) : list A :=
  fold_left (fun acc x => insert_by key x acc) l [].

Definition sort (l : list string) : list string := sort_by (fun s => s) l.

End PyStr.

(** ** Python floats *)

Module PyFloat.

(** A [float] is an IEEE 754 binary64 number: a mantissa of 53 bits and
    the exponent bound 1024. *)
Definition float : Type := spec_float.
Definition prec : Z := 53.
Definition emax : Z := 1024.

(** [0.0]; an [int] 0 that stands where a [float] is expected compares
    and prints as [0.0]. *)
Definition zero : float := S754_zero false.

(** [float(n)] for an [int], the conversion [/] and [*] apply to an [int]
    operand beside a [float]: the nearest [float]. *)
Definition of_int (n : Z) : float := binary_normalize prec emax n 0 false.

(** [x / y] and [x * y] for two [float], and [x < y].  Python raises
    [ZeroDivisionError] for a divisor 0; the script divides behind a guard
    or by the length of a list that is not empty. *)
Definition div (x y : float) : float := SFdiv prec emax x y.
Definition mul (x y : float) : float := SFmul prec emax x y.
Definition ltb (x y : float) : bool := SFltb x y.

(** An [int] as mantissa, without rounding. *)
Definition unrounded (n : Z) : spec_float :=
  match n with
  | Z0 => S754_zero false
  | Zpos m => S754_finite false m 0
  | Zneg m => S754_finite true m 0
  end.

(** [a / b] for two [int]: the quotient of the integers, rounded once. *)
Definition int_div (a b : Z) : float := SFdiv prec emax (unrounded a) (unrounded b).

(** The number a finite [float] stands for. *)
Definition value (x : float) : Q :=
  match x with
  | S754_finite s m e => (inject_Z (cond_Zopp s (Zpos m)) * Qpower 2 e)%Q
  | _ => 0%Q
  end.

End PyFloat.

(** ** Program state and the monad of the script *)

(** A row of [totals_log]: [[resource_type, resource_count, project, region]]. *)
Record row := Row {
  resource_type : string;
  resource_count : Z;
  row_project : string;
  row_region : string
}.

(** What the script writes to the console, as far as it is modelled: the
    error lines of [error_print], the plain messages of the start-up checks
    and the progress lines of [main]. *)
Inductive console :=
| Line (text : string)
| ProgressLine (completed total : Z) (percentage rate remaining : PyFloat.float).

(** The module globals.  [invoked] and [requests] are ghost fields: the
    names of the dispatch and probe functions entered so far, and the number
    of [request.execute()] calls of the listings. *)
Record state := State {
  totals : gmap string Z;
  totals_log : list row;
  errors_log : list string;
  stdout : list console;
  invoked : list string;
  requests : nat
}.

(** How a piece of the script ends: it returns a value, it raises an
    [Exception], it leaves through [sys.exit] ([SystemExit] is not an
    [Exception], so no [except Exception] catches it), or it does not end
    within the fuel. *)
Inductive res (A : Type) :=
| Val (a : A)
| Exn (ex : string)
| Exit (status : Z)
| Hang.
Arguments Val {A} a.
Arguments Exn {A} ex.
Arguments Exit {A} status.
Arguments Hang {A}.

Definition prog (A : Type) : Type := state -> res A * state.

Definition ret {A} (a : A) : prog A := fun st => (Val a, st).

Definition bind {A B} (m : prog A) (k : A -> prog B) : prog B :=
  fun st =>
    match m st with
    | (Val a, st') => k a st'
    | (Exn ex, st') => (Exn ex, st')
    | (Exit c, st') => (Exit c, st')
    | (Hang, st') => (Hang, st')
    end.

Notation "'let*' x ':=' m 'in' k" := (bind m (fun x => k))
  (at level 10, x name, m at level 100, k at level 200).
Notation "m1 ;; m2" := (bind m1 (fun _ => m2))
  (at level 100, m2 at level 200, right associativity).

Definition raise {A} (ex : string) : prog A := fun st => (Exn ex, st).
Definition hang {A} : prog A := fun st => (Hang, st).

(** [sys.exit(arg)]: no argument is exit status 0. *)
Definition sys_exit {A} (arg : option Z) : prog A :=
  fun st => (Exit (default 0 arg), st).

(** [try: body / except Exception as ex: handler ex]. *)
Definition try_except {A} (body : prog A) (handler : string -> prog A) : prog A :=
  fun st =>
    match body st with
    | (Exn ex, st') => handler ex st'
    | r => r
    end.

Definition modify (f : state -> state) : prog unit := fun st => (Val tt, f st).

(** Ghost: a dispatch or probe function is entered. *)
Definition enter (f : string) : prog unit :=
  modify (fun st => State (totals st) (totals_log st) (errors_log st) (stdout st)
                          (invoked st ++ [f]) (requests st)).

Definition print (c : console) : prog unit :=
  modify (fun st => State (totals st) (totals_log st) (errors_log st) (stdout st ++ [c])
                          (invoked st) (requests st)).

(** ** Common library code *)

(** [totals[k]]; every key the script uses is in the initial dictionary. *)
Definition total (m : gmap string Z) (k : string) : Z := default 0 (m !! k).

(** [totals[k] += n]. *)
Definition add_total (m : gmap string Z) (kn : string * Z) : gmap string Z :=
  <[fst kn := total m (fst kn) + snd kn]> m.

(** [with totals_lock:] followed by the [+=] statements of one probe. *)
Definition totals_add (incs : list (string * Z)) : prog unit :=
  modify (fun st => State (fold_left add_total incs (totals st)) (totals_log st)
                          (errors_log st) (stdout st) (invoked st) (requests st)).

(** [progress_print]: the console line is left out, the row is appended
    under [totals_log_lock]. *)
Definition progress_print (resource_count : Z) (resource_type project region : string)
  : prog unit :=
  modify (fun st => State (totals st)
                          (totals_log st ++ [Row resource_type resource_count project region])
                          (errors_log st) (stdout st) (invoked st) (requests st)).

(** [error_print details project], called from the function [caller]
    (Python finds the name with [inspect.stack()]). *)
Definition error_print (caller : string) (details : string) (project : string) : prog unit :=
  let project := if PyStr.truthy project then "Project: " +:+ project +:+ " " else "" in
  let function := caller +:+ "()" in
  let details := PyStr.replace "013" " " (PyStr.replace "010" " " details) in
  let text := "ERROR: " +:+ project +:+ function +:+ " " +:+ details in
  modify (fun st => State (totals st) (totals_log st) (errors_log st ++ [text])
                          (stdout st ++ [Line text]) (invoked st) (requests st)).

(** The initial value of the module globals. *)
Definition totals0 : gmap string Z :=
  list_to_map
    [("Virtual Machines", 0); ("Container Hosts", 0); ("Serverless Functions", 0);
     ("Serverless Containers", 0); ("Data Buckets", 0); ("PaaS Databases", 0);
     ("Data Warehouses", 0); ("Non-OS Disks", 0); ("Registry Container Images", 0);
     ("Kubernetes Sensors", 0); ("Virtual Machine Sensors", 0);
     ("Serverless Container Sensors", 0)].

Definition state0 : state := State totals0 [] [] [] [] 0.

(** ** Command line arguments and configuration *)

Record Args := {
  all : bool;
  id : option string;
  input_projects : bool;
  input_excluded_folders : bool;
  data_mode : bool;
  images_mode : bool;
  max_image_tags : Z;
  max_workers : Z;
  debug_mode : bool;
  verbose_mode : bool
}.

Definition excluded_folders_file : string := "excluded-folders.txt".
Definition input_file : string := "projects.txt".

(** The [enabled] dictionary: which counts to execute and display. *)
Definition enabled_table (args : Args) : list (string * bool) :=
  [("Virtual Machines", true); ("Container Hosts", true); ("Serverless Functions", true);
   ("Serverless Containers", true); ("Data Buckets", true); ("PaaS Databases", true);
   ("Data Warehouses", true); ("Non-OS Disks", true);
   ("Registry Container Images", images_mode args);
   ("Kubernetes Sensors", true); ("Virtual Machine Sensors", true);
   ("Serverless Container Sensors", true)].

(** [d.get(key)] on a dictionary kept as an association list. *)
Fixpoint dict_get {V} (key : string) (d : list (string * V)) : option V :=
  match d with
  | [] => None
  | (k, v) :: d' => if String.eqb k key then Some v else dict_get key d'
  end.

(** [enabled[key]] for the keys of the table. *)
Definition enabled (args : Args) (key : string) : bool :=
  default false (dict_get key (enabled_table args)).

(** ** The remote side *)

(** A response dictionary of a [list] call: the key that holds the page's
    entries ([items], [services], [functions], ...) and [nextPageToken],
    either of which may be absent. *)
Record response (A : Type) := Response {
  entries : option (list A);
  nextPageToken : option string
}.
Arguments Response {A} entries nextPageToken.
Arguments entries {A} r.
Arguments nextPageToken {A} r.

(** What [request.execute()] does. *)
Inductive executed (A : Type) :=
| Returns (r : A)
| Raises (ex : string).
Arguments Returns {A} r.
Arguments Raises {A} ex.

(** What [googleapiclient.discovery.build(...)] followed by the first
    [...list(...)] does. *)
Inductive construction :=
| Constructed
| BuildRaises (ex : string)
| ListRaises (ex : string).

(** A paginated remote listing; a request is the index of its page, and
    [list_next] of a response that has a [nextPageToken] is the request of
    the next index. *)
Record listing (A : Type) := Listing {
  construct : construction;
  execute : nat -> executed (response A)
}.
Arguments Listing {A} construct execute.
Arguments construct {A} l.
Arguments execute {A} l request.

(** [response = request.execute()]. *)
Definition request_execute {A} (l : listing A) (request : nat) : prog (response A) :=
  modify (fun st => State (totals st) (totals_log st) (errors_log st) (stdout st)
                          (invoked st) (S (requests st))) ;;
  match execute l request with
  | Returns response => ret response
  | Raises ex => raise ex
  end.

(** The loop every listing function of the script repeats:
<<
    while request is not None:
        response = request.execute()
        <body>
        if 'nextPageToken' in response:
            request = ...list_next(previous_request=request, previous_response=response)
        else:
            request = None
>>
    [body] updates the local variables [vars] of the enclosing function.
    The loop is left either at a page without [nextPageToken] or by an
    exception of [execute] or of the body; the result is the value of the
    local variables at that point with the exception, if any: two callers
    catch it and go on with what they had collected. *)
Fixpoint while_request {A V} (fuel : nat) (l : listing A)
    (body : response A -> V -> prog V) (request : nat) (vars : V)
  : prog (V * option string) :=
  match fuel with
  | O => hang
  | S fuel' =>
      let* step :=
        try_except
          (let* response := request_execute l request in
           let* vars' := body response vars in
           ret (inl (response, vars')))
          (fun ex => ret (inr ex)) in
      match step with
      | inr ex => ret (vars, Some ex)
      | inl (response, vars') =>
          match nextPageToken response with
          | Some _ => while_request fuel' l body (S request) vars'
          | None => ret (vars', None)
          end
      end
  end.

(** A loop that stands outside every [try]: its exception leaves the
    enclosing function. *)
Definition uncaught {V} (loop : prog (V * option string)) : prog V :=
  let* r := loop in
  match snd r with
  | Some ex => raise ex
  | None => ret (fst r)
  end.

(** [if condition: <body>]. *)
Definition when (condition : bool) (body : prog unit) : prog unit :=
  if condition then body else ret tt.

(** [for x in xs: <body>] over local variables [vars]. *)
Fixpoint for_each {A V} (xs : list A) (body : A -> V -> prog V) (vars : V) : prog V :=
  match xs with
  | [] => ret vars
  | x :: xs' => let* vars' := body x vars in for_each xs' body vars'
  end.

(** [if key in response: for x in response[key]: ...]. *)
Definition entries_of {A} (response : response A) : list A :=
  default [] (entries response).

(** ** What the listings return *)

Record disk := Disk {
  boot : bool;
  source : string
}.

(** A compute instance: the optional keys [tags], [labels] and [disks]. *)
Record instance := Instance {
  inst_tags : option (list (string * string));
  inst_labels : option (list (string * string));
  inst_disks : option (list disk)
}.

(** [disks().get(...)]: the optional key [sourceImage]. *)
Record disk_detail := DiskDetail {
  sourceImage : option string
}.

(** [images().get(...)]: the optional keys [description] and [family]. *)
Record image_detail := ImageDetail {
  description : option string;
  family : option string
}.

(** A node pool of a GKE cluster; [pool_config] is [config] with its
    optional key [maxPodsPerNode]. *)
Record node_pool := NodePool {
  currentNodeCount : option Z;
  initialNodeCount : option Z;
  pool_config : option (option Z)
}.

(** A GKE cluster; [autopilot] is the optional key with its optional key
    [enabled]. *)
Record cluster := Cluster {
  autopilot : option (option bool);
  nodePools : option (list node_pool)
}.

(** One entry of [status.conditions] of a Cloud Run revision. *)
Record condition := Condition {
  cond_type : string;
  cond_status : string
}.

Record repository := Repository {
  format : string;
  repo_name : string
}.

(** A docker image: the optional key [tags]. *)
Record docker_image := DockerImage {
  image_tags : option (list string)
}.

(** Everything the script asks about one project. *)
Record project_apis := {
  serviceusage_services : listing string;
  compute_regions : listing string;
  compute_instances : listing (string * option (list instance));
  compute_disks_get : string -> string -> executed disk_detail;
  compute_images_get : string -> string -> executed image_detail;
  cloudfunctions_functions : listing string;
  run_revisions : listing (list condition);
  container_clusters : listing cluster;
  artifactregistry_repositories : string -> listing repository;
  artifactregistry_dockerImages : string -> string -> listing docker_image;
  storage_buckets : listing string;
  sqladmin_instances : listing string;
  spanner_instances : listing string;
  spanner_databases : string -> listing string;
  bigquery_datasets : listing string
}.

(** [....get(...).execute()] of a single resource. *)
Definition get_execute {A} (answer : executed A) : prog A :=
  modify (fun st => State (totals st) (totals_log st) (errors_log st) (stdout st)
                          (invoked st) (S (requests st))) ;;
  match answer with
  | Returns r => ret r
  | Raises ex => raise ex
  end.

(** ** Customized library code *)

Definition tag_in_tags (tag_key tag_value : string) (tags : list (string * string)) : bool :=
  match tags with
  | [] => false
  | _ => match dict_get tag_key tags with
         | Some v => String.eqb v tag_value
         | None => false
         end
  end.

Definition label_in_labels (label : string) (labels : list (string * string)) : bool :=
  match labels with
  | [] => false
  | _ => PyStr.mem label (map fst labels)
  end.

Section Project.

Variable fuel : nat.
Variable args : Args.
Variable api : project_apis.
Variable project_id project_name : string.

Definition get_gcp_enabled_services : prog (list string) :=
  let caller := "get_gcp_enabled_services" in
  let* gcp_enabled_services :=
    match construct (serviceusage_services api) with
    | BuildRaises ex =>
        error_print caller ex project_id ;;
        (* client.close() with [client] never assigned *)
        raise "cannot access local variable 'client' where it is not associated with a value"
    | ListRaises ex =>
        error_print caller ex project_id ;; ret []
    | Constructed =>
        let* r := while_request fuel (serviceusage_services api)
                    (fun response names => ret (names ++ entries_of response)) 0%nat [] in
        match snd r with
        | Some ex => error_print caller ex project_id ;; ret (fst r)
        | None => ret (fst r)
        end
    end in
  ret (PyStr.sort gcp_enabled_services).

Definition get_gcp_regions : prog (list string) :=
  let caller := "get_gcp_regions" in
  let* gcp_regions :=
    match construct (compute_regions api) with
    | BuildRaises ex | ListRaises ex =>
        error_print caller ex project_id ;; ret []
    | Constructed =>
        let* r := while_request fuel (compute_regions api)
                    (fun response names => ret (names ++ entries_of response)) 0%nat [] in
        match snd r with
        | Some ex => error_print caller ex project_id ;; ret (fst r)
        | None => ret (fst r)
        end
    end in
  ret (PyStr.sort gcp_regions).

(** [get_disk_image_details(client, project_id, disk)]: the dictionary of
    the image of a boot disk, empty when a lookup fails. *)
Definition get_disk_image_details (disk : disk) : prog image_detail :=
  let parts := PyStr.split "/" (source disk) in
  match PyStr.index_from_end 3 parts, PyStr.index_from_end 1 parts with
  | Some disk_zone, Some disk_name =>
      try_except
        (let* disk_detail := get_execute (compute_disks_get api disk_zone disk_name) in
         match sourceImage disk_detail with
         | None => raise "'sourceImage'"
         | Some image =>
             let parts := PyStr.split "/" image in
             match PyStr.index_from_end 1 parts, PyStr.index_from_end 4 parts with
             | Some image_name, Some image_project =>
                 get_execute (compute_images_get api image_project image_name)
             | _, _ => raise "list index out of range"
             end
         end)
        (fun ex =>
           error_print "get_disk_image_details" ex project_id ;;
           ret (ImageDetail None None))
  | _, _ => raise "list index out of range"
  end.

(** The four counters of [get_gce_instances_and_gke_instances]. *)
Record gce_counts := GceCounts {
  instances_count : Z;
  gke_instances_count : Z;
  non_os_disks_count : Z;
  linux_instances_count : Z
}.

(** [for label in instance['labels']: if label == 'goog-gke-node': ... break]:
    whether the loop reaches the label. *)
Fixpoint has_gke_label (labels : list (string * string)) : bool :=
  match labels with
  | [] => false
  | (label, _) :: labels' =>
      if String.eqb label "goog-gke-node" then true else has_gke_label labels'
  end.

(** The body of [for disk in instance['disks']]. *)
Definition count_disk (disk : disk) (c : gce_counts) : prog gce_counts :=
  if boot disk then
    let* disk_image_details := get_disk_image_details disk in
    let description := default "UNKNOWN" (description disk_image_details) in
    let family := default "UNKNOWN" (family disk_image_details) in
    if negb (PyStr.contains "win" (PyStr.lower description))
       && negb (PyStr.contains "win" (PyStr.lower family))
    then ret (GceCounts (instances_count c) (gke_instances_count c)
                        (non_os_disks_count c) (linux_instances_count c + 1))
    else ret c
  else
    ret (GceCounts (instances_count c) (gke_instances_count c)
                   (non_os_disks_count c + 1) (linux_instances_count c)).

(** The body of [for instance in zone_details['instances']]. *)
Definition count_instance (instance : instance) (c : gce_counts) : prog gce_counts :=
  if tag_in_tags "Vendor" "Databricks" (default [] (inst_tags instance)) then ret c
  else if label_in_labels "databricks" (default [] (inst_labels instance)) then ret c
  else
    let c := GceCounts (instances_count c + 1) (gke_instances_count c)
                       (non_os_disks_count c) (linux_instances_count c) in
    let is_gke :=
      match inst_labels instance with
      | Some labels => has_gke_label labels
      | None => false
      end in
    if is_gke then
      ret (GceCounts (instances_count c) (gke_instances_count c + 1)
                     (non_os_disks_count c) (linux_instances_count c))
    else
      (* Linux Sensor and Non-OS Disks are not applicable to GKE Instances. *)
      match inst_disks instance with
      | Some disks => for_each disks count_disk c
      | None => ret c
      end.

(** The body of [for item in response['items']]: one zone. *)
Definition count_zone (item : string * option (list instance)) (c : gce_counts)
  : prog gce_counts :=
  match snd item with
  | Some instances => for_each instances count_instance c
  | None => ret c
  end.

Definition get_gce_instances_and_gke_instances : prog unit :=
  let caller := "get_gce_instances_and_gke_instances" in
  enter caller ;;
  match construct (compute_instances api) with
  | BuildRaises ex | ListRaises ex => error_print caller ex project_id
  | Constructed =>
      let* c := uncaught (while_request fuel (compute_instances api)
                  (fun response c => for_each (entries_of response) count_zone c)
                  0%nat (GceCounts 0 0 0 0)) in
      when ((0 <? instances_count c) || verbose_mode args)
        (progress_print (instances_count c) "Virtual Machines [Compute]" project_name "" ;;
         totals_add [("Virtual Machines", instances_count c);
                     ("Non-OS Disks", non_os_disks_count c);
                     ("Virtual Machine Sensors", linux_instances_count c)]) ;;
      when ((0 <? gke_instances_count c) || verbose_mode args)
        (progress_print (gke_instances_count c) "Container Hosts [GKE]" project_name "" ;;
         totals_add [("Container Hosts", gke_instances_count c);
                     ("Kubernetes Sensors", gke_instances_count c)])
  end.

(** A probe that counts the entries of its listing: [len(response[key])]. *)
Definition count_entries {A} (response : response A) (n : Z) : prog Z :=
  ret (n + Z.of_nat (length (entries_of response))).

Definition get_gcp_cloud_functions : prog unit :=
  let caller := "get_gcp_cloud_functions" in
  enter caller ;;
  match construct (cloudfunctions_functions api) with
  | BuildRaises ex | ListRaises ex => error_print caller ex project_id
  | Constructed =>
      let* serverless_functions_count :=
        uncaught (while_request fuel (cloudfunctions_functions api) count_entries 0%nat 0) in
      when ((0 <? serverless_functions_count) || verbose_mode args)
        (progress_print serverless_functions_count "Serverless Functions [Cloud Functions]"
                        project_name "" ;;
         totals_add [("Serverless Functions", serverless_functions_count)])
  end.

(** [container['type'] == 'ContainerHealthy' and container['status'] == 'True']. *)
Definition container_healthy (container : condition) : bool :=
  String.eqb (cond_type container) "ContainerHealthy"
  && String.eqb (cond_status container) "True".

Definition get_gcp_cloudrun_revisions : prog unit :=
  let caller := "get_gcp_cloudrun_revisions" in
  enter caller ;;
  match construct (run_revisions api) with
  | BuildRaises ex | ListRaises ex => error_print caller ex project_id
  | Constructed =>
      let* serverless_containers_count :=
        uncaught (while_request fuel (run_revisions api)
          (fun response n =>
             ret (fold_left
                    (fun n item =>
                       fold_left (fun n container =>
                                    if container_healthy container then n + 1 else n)
                                 item n)
                    (entries_of response) n))
          0%nat 0) in
      when ((0 <? serverless_containers_count) || verbose_mode args)
        (progress_print serverless_containers_count
                        "Serverless Containers [Cloud Run Revisions]" project_name "" ;;
         totals_add [("Serverless Containers", serverless_containers_count)])
  end.

(** The body of [for node_pool in node_pools], on
    [(gke_nodes_count, gke_containers_count)]. *)
Definition count_node_pool (c : Z * Z) (node_pool : node_pool) : Z * Z :=
  let node_count :=
    default (default 0 (initialNodeCount node_pool)) (currentNodeCount node_pool) in
  let pods_per_node := default 0 (default None (pool_config node_pool)) in
  (fst c + node_count, snd c + node_count * pods_per_node).

(** The body of [for cluster in response['clusters']]. *)
Definition count_cluster (c : Z * Z) (cluster : cluster) : Z * Z :=
  match autopilot cluster with
  | Some (Some true) => fold_left count_node_pool (default [] (nodePools cluster)) c
  | _ => c
  end.

Definition get_gcp_gke_clusters : prog unit :=
  let caller := "get_gcp_gke_clusters" in
  enter caller ;;
  match construct (container_clusters api) with
  | BuildRaises ex | ListRaises ex => error_print caller ex project_id
  | Constructed =>
      let* c := uncaught (while_request fuel (container_clusters api)
                  (fun response c => ret (fold_left count_cluster (entries_of response) c))
                  0%nat (0, 0)) in
      let gke_nodes_count := fst c in
      let gke_containers_count := snd c in
      when ((0 <? gke_nodes_count) || verbose_mode args)
        (progress_print gke_nodes_count "Kubernetes Sensors [GKE Autopilot]" project_name "" ;;
         totals_add [("Kubernetes Sensors", gke_nodes_count)]) ;;
      when ((0 <? gke_containers_count) || verbose_mode args)
        (progress_print gke_containers_count "Serverless Containers [GKE Autopilot]"
                        project_name "" ;;
         totals_add [("Serverless Containers", gke_containers_count)])
  end.

(** [item['name'].split('/')[-1]]. *)
Definition last_segment (name : string) : string :=
  default "" (PyStr.index_from_end 1 (PyStr.split "/" name)).

(** The body of [for image in response['dockerImages']]. *)
Definition count_image (n : Z) (image : docker_image) : Z :=
  match image_tags image with
  | Some tags => n + Z.min (max_image_tags args) (Z.of_nat (length tags))
  | None => n + 1
  end.

(** The body of [for repository in repositories] of [get_gcp_gcr_images].
    [list_next] only builds the next request from the response at hand; it
    is taken not to raise, so the [except] around it is never entered. *)
Definition count_repository (region : string) (repository : string)
    (container_registry_images : Z) : prog Z :=
  let images := artifactregistry_dockerImages api region repository in
  match construct images with
  | BuildRaises ex | ListRaises ex =>
      error_print "get_gcp_gcr_images" ex project_id ;;
      ret container_registry_images
  | Constructed =>
      let* container_registry_images_in_repository :=
        uncaught (while_request fuel images
          (fun response n => ret (fold_left count_image (entries_of response) n))
          0%nat 0) in
      let container_registry_images_in_repository :=
        Z.min container_registry_images_in_repository 10000 in
      ret (container_registry_images + container_registry_images_in_repository)
  end.

(** The body of [for item in response['repositories']]. *)
Definition collect_repository (repositories : list string) (item : repository)
  : list string :=
  if String.eqb (format item) "DOCKER"
  then repositories ++ [last_segment (repo_name item)]
  else repositories.

Definition get_gcp_gcr_images (region : string) : prog unit :=
  let caller := "get_gcp_gcr_images" in
  enter caller ;;
  match construct (artifactregistry_repositories api region) with
  | BuildRaises ex | ListRaises ex => error_print caller ex project_id
  | Constructed =>
      let* repositories :=
        uncaught (while_request fuel (artifactregistry_repositories api region)
          (fun response repositories =>
             ret (fold_left collect_repository (entries_of response) repositories))
          0%nat []) in
      let* container_registry_images :=
        for_each repositories (count_repository region) 0 in
      when ((0 <? container_registry_images) || verbose_mode args)
        (progress_print container_registry_images "Registry Container Images [GAR]"
                        project_name region ;;
         totals_add [("Registry Container Images", container_registry_images)])
  end.

Definition get_gcp_buckets : prog unit :=
  let caller := "get_gcp_buckets" in
  enter caller ;;
  match construct (storage_buckets api) with
  | BuildRaises ex | ListRaises ex => error_print caller ex project_id
  | Constructed =>
      let* buckets_count :=
        uncaught (while_request fuel (storage_buckets api) count_entries 0%nat 0) in
      let buckets_count := Z.min buckets_count 10000 in
      when ((0 <? buckets_count) || verbose_mode args)
        (progress_print buckets_count "Data Buckets" project_name "" ;;
         totals_add [("Data Buckets", buckets_count)])
  end.

Definition get_gcp_cloudsql_instances : prog unit :=
  let caller := "get_gcp_cloudsql_instances" in
  enter caller ;;
  match construct (sqladmin_instances api) with
  | BuildRaises ex | ListRaises ex => error_print caller ex project_id
  | Constructed =>
      let* database_instances_count :=
        uncaught (while_request fuel (sqladmin_instances api) count_entries 0%nat 0) in
      when ((0 <? database_instances_count) || verbose_mode args)
        (progress_print database_instances_count "PaaS Databases [Cloud SQL]"
                        project_name "" ;;
         totals_add [("PaaS Databases", database_instances_count)])
  end.

(** [get_gcp_spanner_databases(client, instance_id)]. *)
Definition get_gcp_spanner_databases (instance_id : string) : prog Z :=
  let databases := spanner_databases api instance_id in
  match construct databases with
  | BuildRaises ex | ListRaises ex =>
      error_print "get_gcp_spanner_databases" ex instance_id ;; ret 0
  | Constructed => uncaught (while_request fuel databases count_entries 0%nat 0)
  end.

Definition get_gcp_spanner_instances : prog unit :=
  let caller := "get_gcp_spanner_instances" in
  enter caller ;;
  match construct (spanner_instances api) with
  | BuildRaises ex | ListRaises ex => error_print caller ex project_id
  | Constructed =>
      let* instances_databases_count :=
        uncaught (while_request fuel (spanner_instances api)
          (fun response n =>
             for_each (entries_of response)
               (fun instance n =>
                  let* database_count := get_gcp_spanner_databases instance in
                  ret (n + database_count))
               n)
          0%nat 0) in
      when ((0 <? instances_databases_count) || verbose_mode args)
        (progress_print instances_databases_count "PaaS Databases [Spanner]"
                        project_name "" ;;
         totals_add [("PaaS Databases", instances_databases_count)])
  end.

Definition get_gcp_bigquery_datasets : prog unit :=
  let caller := "get_gcp_bigquery_datasets" in
  enter caller ;;
  match construct (bigquery_datasets api) with
  | BuildRaises ex | ListRaises ex => error_print caller ex project_id
  | Constructed =>
      let* data_warehouses_count :=
        uncaught (while_request fuel (bigquery_datasets api) count_entries 0%nat 0) in
      when ((0 <? data_warehouses_count) || verbose_mode args)
        (progress_print data_warehouses_count "Data Warehouses [BigQuery]"
                        project_name "" ;;
         totals_add [("Data Warehouses", data_warehouses_count)])
  end.

(** *** The dispatch of one project *)

(** The probes [get_gcp_resources] can call or submit. *)
Inductive probe :=
| GceInstancesAndGkeInstances
| GkeClusters
| CloudFunctions
| CloudrunRevisions
| Buckets
| CloudsqlInstances
| SpannerInstances
| BigqueryDatasets
| GcrImages (region : string).

Definition run_probe (p : probe) : prog unit :=
  match p with
  | GceInstancesAndGkeInstances => get_gce_instances_and_gke_instances
  | GkeClusters => get_gcp_gke_clusters
  | CloudFunctions => get_gcp_cloud_functions
  | CloudrunRevisions => get_gcp_cloudrun_revisions
  | Buckets => get_gcp_buckets
  | CloudsqlInstances => get_gcp_cloudsql_instances
  | SpannerInstances => get_gcp_spanner_instances
  | BigqueryDatasets => get_gcp_bigquery_datasets
  | GcrImages region => get_gcp_gcr_images region
  end.

(** [if enabled[...]: if service in service_list: <probes>]. *)
Definition gate (on : bool) (service : string) (service_list : list string)
    (probes : list probe) : list probe :=
  if on && PyStr.mem service service_list then probes else [].

(** The probes the [if args.debug_mode:] branch calls, in order. *)
Definition debug_calls (service_list regions_list : list string) : list probe :=
  gate (enabled args "Virtual Machines" || enabled args "Container Hosts")
       "compute.googleapis.com" service_list [GceInstancesAndGkeInstances]
  ++ gate (enabled args "Container Hosts" || enabled args "Serverless Containers")
       "container.googleapis.com" service_list [GkeClusters]
  ++ gate (enabled args "Serverless Functions")
       "cloudfunctions.googleapis.com" service_list [CloudFunctions]
  ++ gate (enabled args "Serverless Containers")
       "run.googleapis.com" service_list [CloudrunRevisions]
  ++ gate (enabled args "Data Buckets")
       "storage.googleapis.com" service_list [Buckets]
  ++ gate (enabled args "PaaS Databases")
       "sqladmin.googleapis.com" service_list [CloudsqlInstances]
  ++ gate (enabled args "PaaS Databases")
       "spanner.googleapis.com" service_list [SpannerInstances]
  ++ gate (enabled args "Data Warehouses")
       "bigquery.googleapis.com" service_list [BigqueryDatasets]
  ++ gate (enabled args "Registry Container Images")
       "artifactregistry.googleapis.com" service_list (map GcrImages regions_list).

(** The probes the [else:] branch submits to its executor, in order. *)
Definition parallel_submits (service_list regions_list : list string) : list probe :=
  gate (enabled args "Virtual Machines" || enabled args "Container Hosts")
       "compute.googleapis.com" service_list [GceInstancesAndGkeInstances]
  ++ gate (enabled args "Container Hosts" || enabled args "Serverless Containers")
       "container.googleapis.com" service_list [GkeClusters]
  ++ gate (enabled args "Serverless Functions")
       "cloudfunctions.googleapis.com" service_list [CloudFunctions]
  ++ gate (enabled args "Serverless Containers")
       "run.googleapis.com" service_list [CloudrunRevisions]
  ++ gate (enabled args "Data Buckets")
       "storage-api.googleapis.com" service_list [Buckets]
  ++ gate (enabled args "PaaS Databases")
       "sqladmin.googleapis.com" service_list [CloudsqlInstances]
  ++ gate (enabled args "PaaS Databases")
       "spanner.googleapis.com" service_list [SpannerInstances]
  ++ gate (enabled args "Data Warehouses")
       "bigquery.googleapis.com" service_list [BigqueryDatasets]
  ++ gate (enabled args "Registry Container Images")
       "artifactregistry.googleapis.com" service_list (map GcrImages regions_list).

(** Debug mode: the probes are called one after the other; an exception of
    one of them leaves [get_gcp_resources]. *)
Fixpoint call_all (probes : list probe) : prog unit :=
  match probes with
  | [] => ret tt
  | p :: probes' => run_probe p ;; call_all probes'
  end.

(** [executor.submit(...)] of every probe and the end of the [with] block:
    each task runs to its end, its exception is kept in its future.  The
    result is the list of [future.exception()]. *)
Fixpoint submit_all (probes : list probe) : prog (list (option string)) :=
  match probes with
  | [] => ret []
  | p :: probes' =>
      let* exception := try_except (run_probe p ;; ret None) (fun ex => ret (Some ex)) in
      let* futures := submit_all probes' in
      ret (exception :: futures)
  end.

(** [for future in as_completed(futures): if future.exception(): exceptions += 1]. *)
Definition count_exceptions (futures : list (option string)) (exceptions : Z) : Z :=
  fold_left (fun exceptions future =>
               match future with
               | Some _ => exceptions + 1
               | None => exceptions
               end) futures exceptions.

(** [get_gcp_resources(project_id, project_name)].  The local counter
    [exceptions] is returned here to make it visible; the Python function
    drops it. *)
Definition get_gcp_resources : prog Z :=
  enter "get_gcp_resources" ;;
  let exceptions := 0 in
  let* service_list := get_gcp_enabled_services in
  let* regions_list :=
    if PyStr.mem "compute.googleapis.com" service_list then get_gcp_regions else ret [] in
  match service_list with
  | [] => ret exceptions
  | _ =>
      if debug_mode args then
        call_all (debug_calls service_list regions_list) ;;
        ret exceptions
      else
        let* futures := submit_all (parallel_submits service_list regions_list) in
        ret (count_exceptions futures exceptions)
  end.

End Project.

(** ** Main *)

(** A project of [cloudresourcemanager.projects().list()]; [parent] is
    [project['parent']['id']] when the key [parent] is there. *)
Record gcp_project := GcpProject {
  projectId : string;
  name : option string;
  lifecycleState : string;
  parent : option string
}.

(** Everything outside the process: the files of the working directory (the
    lines of a file, [None] when [os.path.isfile] is false), the line typed
    at the [input] prompt, the resource manager, the APIs of each project
    and the clock ([clock k] is [time.time() - start_time] when the k-th
    completed project is handled). *)
Record cloud := {
  files : string -> option (list string);
  stdin : string;
  resourcemanager_projects : listing gcp_project;
  resourcemanager_projects_get : string -> construction * executed (option string);
  apis : string -> project_apis;
  clock : nat -> PyFloat.float
}.

(** The checks that follow [parser.parse_args()] at module level. *)
Definition check_args (args : Args) : prog unit :=
  when ((max_image_tags args <? 1) || (1000 <? max_image_tags args))
    (print (Line ("ERROR: --max-image-tags " +:+ PyStr.str (max_image_tags args)
                  +:+ " out of range: [1 .. 1000]")) ;;
     sys_exit (Some 1)) ;;
  when ((max_workers args <? 1) || (1000 <? max_workers args))
    (print (Line ("ERROR: --max-workers " +:+ PyStr.str (max_workers args)
                  +:+ " out of range: [1 .. 1000]")) ;;
     sys_exit (Some 1)).

Section Main.

Variable fuel : nat.
Variable args : Args.
Variable world : cloud.

Definition get_excluded_folders_from_file : prog (list string) :=
  let caller := "get_excluded_folders_from_file" in
  match files world excluded_folders_file with
  | Some lines => ret (PyStr.sort lines)
  | None =>
      error_print caller (excluded_folders_file +:+ " does not exist.") "" ;;
      error_print caller ("Create a file named " +:+ excluded_folders_file
                          +:+ " and add each GCP Folder ID to exclude, one per line.") "" ;;
      error_print caller "Exiting..." "" ;;
      sys_exit None
  end.

(** The body of [for project in response['projects']]. *)
Definition collect_project (excluded_folders : list string)
    (gcp_projects : list (string * string)) (project : gcp_project)
  : list (string * string) :=
  if negb (String.eqb (lifecycleState project) "ACTIVE") then gcp_projects
  else if match parent project with
          | Some parent_folder => PyStr.mem parent_folder excluded_folders
          | None => false
          end
  then gcp_projects
  else gcp_projects ++ [(projectId project, default "UNNAMED" (name project))].

Definition get_gcp_projects (excluded_folders : list string)
  : prog (list (string * string)) :=
  let caller := "get_gcp_projects" in
  match construct (resourcemanager_projects world) with
  | BuildRaises ex | ListRaises ex =>
      error_print caller ex "" ;;
      error_print caller "Error getting GCP Projects." "" ;;
      ret []
  | Constructed =>
      let* gcp_projects :=
        uncaught (while_request fuel (resourcemanager_projects world)
          (fun response gcp_projects =>
             ret (fold_left (collect_project excluded_folders)
                            (entries_of response) gcp_projects))
          0%nat []) in
      ret (PyStr.sort_by fst gcp_projects)
  end.

(** The body of [for project_id in projects_ids] of
    [get_gcp_projects_from_file], on the collected projects and on whether
    the local variable [client] is bound: [client.close()] follows the
    [try] statement and raises when no [build] has succeeded yet. *)
Definition name_project (project_id : string) (vars : list (string * string) * bool)
  : prog (list (string * string) * bool) :=
  let caller := "get_gcp_projects_from_file" in
  let '(gcp_projects, client_bound) := vars in
  let* vars' :=
    match resourcemanager_projects_get world project_id with
    | (BuildRaises ex, _) =>
        error_print caller ex project_id ;; ret (gcp_projects, client_bound)
    | (ListRaises ex, _) =>
        error_print caller ex project_id ;; ret (gcp_projects, true)
    | (Constructed, answer) =>
        try_except
          (let* response := get_execute answer in
           ret (gcp_projects ++ [(project_id, default "UNNAMED" response)], true))
          (fun ex => error_print caller ex project_id ;; ret (gcp_projects, true))
    end in
  if snd vars' then ret vars'
  else raise "cannot access local variable 'client' where it is not associated with a value".

Definition get_gcp_projects_from_file : prog (list (string * string)) :=
  let caller := "get_gcp_projects_from_file" in
  match files world input_file with
  | Some lines =>
      let projects_ids :=
        List.filter (fun line => (0 <? String.length line)%nat) (map PyStr.strip lines) in
      let* vars := for_each projects_ids name_project ([], false) in
      ret (PyStr.sort_by fst (fst vars))
  | None =>
      error_print caller (input_file +:+ " does not exist.") "" ;;
      error_print caller ("Create a file named " +:+ input_file
                          +:+ " and add each GCP Project ID to scan, one per line.") "" ;;
      error_print caller "Exiting..." "" ;;
      sys_exit None
  end.

(** The three progress figures of [main], computed after
    [completed_count += 1]: [int / float] converts the [int], [int / int]
    rounds the quotient once, and the [int] 0 of the two [else] branches
    is shown as [0.0].  [len_projects] is the length of a list that holds
    the project of the future at hand. *)
Definition progress_line (completed_count len_projects : Z) (elapsed : PyFloat.float)
  : console :=
  let rate :=
    if PyFloat.ltb PyFloat.zero elapsed
    then PyFloat.div (PyFloat.of_int completed_count) elapsed
    else PyFloat.zero in
  let remaining :=
    if PyFloat.ltb PyFloat.zero rate
    then PyFloat.div (PyFloat.of_int (len_projects - completed_count)) rate
    else PyFloat.zero in
  let percentage :=
    PyFloat.mul (PyFloat.int_div completed_count len_projects) (PyFloat.of_int 100) in
  ProgressLine completed_count len_projects percentage rate remaining.

(** [executor.submit(get_gcp_resources, ...)] for every project and the
    end of the [with] block: the futures, each with its project and the
    exception of its task, if any. *)
Fixpoint submit_projects (projects : list (string * string))
  : prog (list (string * string * option string)) :=
  match projects with
  | [] => ret []
  | (project_id, project_name) :: projects' =>
      let* exception :=
        try_except
          (get_gcp_resources fuel args (apis world project_id) project_id project_name ;;
           ret None)
          (fun ex => ret (Some ex)) in
      let* project_futures := submit_projects projects' in
      ret ((project_id, project_name, exception) :: project_futures)
  end.

(** The body of [for future in as_completed(project_futures)], for the
    [handled]-th future (counting from 1). *)
Definition on_completed (len_projects : Z) (handled : nat)
    (future : string * string * option string) (completed_count : Z) : prog Z :=
  let '(project_id, project_name, exception) := future in
  match exception with
  | None =>
      let completed_count := completed_count + 1 in
      print (progress_line completed_count len_projects (clock world handled)) ;;
      ret completed_count
  | Some ex =>
      let completed_count := completed_count + 1 in
      error_print "main" ("Exception scanning " +:+ project_id +:+ ": " +:+ ex) "" ;;
      ret completed_count
  end.

Fixpoint as_completed_loop (len_projects : Z) (handled : nat)
    (project_futures : list (string * string * option string)) (completed_count : Z)
  : prog Z :=
  match project_futures with
  | [] => ret completed_count
  | future :: project_futures' =>
      let* completed_count := on_completed len_projects (S handled) future completed_count in
      as_completed_loop len_projects (S handled) project_futures' completed_count
  end.

(** The sequential loop of debug mode; [completed_count] is not touched. *)
Fixpoint scan_sequentially (projects : list (string * string)) : prog unit :=
  match projects with
  | [] => ret tt
  | (project_id, project_name) :: projects' =>
      get_gcp_resources fuel args (apis world project_id) project_id project_name ;;
      scan_sequentially projects'
  end.

(** The scan of [main], from [completed_count = 0] to the end of the
    [if args.debug_mode: ... else: ...] statement; the result is the final
    value of [completed_count]. *)
Definition scan (projects : list (string * string)) : prog Z :=
  let completed_count := 0 in
  if debug_mode args then
    scan_sequentially projects ;;
    ret completed_count
  else
    let* project_futures := submit_projects projects in
    as_completed_loop (Z.of_nat (length projects)) 0%nat project_futures completed_count.

(** [main()], up to the call of [output_results], which only writes the
    report. *)
Definition main : prog Z :=
  let* excluded_folders :=
    if input_excluded_folders args then get_excluded_folders_from_file else ret [] in
  let* projects :=
    if all args then get_gcp_projects excluded_folders
    else if input_projects args then get_gcp_projects_from_file
    else
      match id args with
      | Some (String c s) => ret [(String c s, String c s)]
      | _ => ret [(stdin world, stdin world)]
      end in
  scan projects.

(** The script: the module-level checks, then [main()]. *)
Definition script : prog Z := check_args args ;; main.

End Main.

(** The exit status of the process. *)
Definition exit_status {A} (r : res A) : option Z :=
  match r with
  | Val _ => Some 0
  | Exn _ => Some 1
  | Exit status => Some status
  | Hang => None
  end.

(** ** Vocabulary of the specifications *)

(** Total correctness: [m] started in [st] returns a value, and the value
    and the final state satisfy [Q]. *)
Definition wp {A} (m : prog A) (Q : A -> state -> Prop) (st : state) : Prop :=
  match m st with
  | (Val a, st') => Q a st'
  | _ => False
  end.

(** One more [execute()] has been issued. *)
Definition tick (st : state) : state :=
  State (totals st) (totals_log st) (errors_log st) (stdout st) (invoked st)
        (S (requests st)).

(** [n] more [execute()] have been issued. *)
Definition after_requests (n : nat) (st : state) : state :=
  State (totals st) (totals_log st) (errors_log st) (stdout st) (invoked st)
        (n + requests st).

(** [m] enters no dispatch or probe function. *)
Definition keeps_invoked {A} (m : prog A) : Prop :=
  forall st, invoked (snd (m st)) = invoked st.

(** [walks l request rs]: from the request [request] on, the listing [l]
    answers with the pages [rs]; all of them but the last carry a
    [nextPageToken], the last one does not. *)
Fixpoint walks {A} (l : listing A) (request : nat) (rs : list (response A)) : Prop :=
  match rs with
  | [] => False
  | r :: rs' =>
      execute l request = Returns r /\
      match rs' with
      | [] => nextPageToken r = None
      | _ :: _ => nextPageToken r <> None /\ walks l (S request) rs'
      end
  end.

(** The entries of all pages, in order. *)
Definition all_entries {A} (rs : list (response A)) : list A :=
  concat (map entries_of rs).

Definition sumZ (l : list Z) : Z := fold_right Z.add 0 l.

(** *** Aggregation *)

(** What a probe hands over when it has counted: the row for
    [progress_print] and the [+=] statements on [totals] that come with it. *)
Record emission := Emission {
  em_count : Z;
  em_type : string;
  em_project : string;
  em_region : string;
  em_incs : list (string * Z)
}.

(** [progress_print(...)] and the [with totals_lock:] block after it. *)
Definition record (e : emission) : prog unit :=
  progress_print (em_count e) (em_type e) (em_project e) (em_region e) ;;
  totals_add (em_incs e).

(** The emissions in the order in which they arrive. *)
Fixpoint record_all (es : list emission) : prog unit :=
  match es with
  | [] => ret tt
  | e :: es' => record e ;; record_all es'
  end.

(** The sum of [count] over the logged rows whose [resource_type] is [r]. *)
Definition log_sum (r : string) (rows : list row) : Z :=
  sumZ (map (fun x => if String.eqb (resource_type x) r then resource_count x else 0) rows).

(** The sum of the increments that a list of [+=] statements applies to
    the key [r]. *)
Definition incs_sum (r : string) (incs : list (string * Z)) : Z :=
  sumZ (map (fun kn => if String.eqb (fst kn) r then snd kn else 0) incs).

(** The same over the emissions. *)
Definition emitted_sum (r : string) (es : list emission) : Z :=
  sumZ (map (fun e => incs_sum r (em_incs e)) es).

(** The aggregation invariant as the specification words it: every total
    is the sum of the counts of the logged rows of that resource type. *)
Definition totals_match_log (st : state) : Prop :=
  forall r, total (totals st) r = log_sum r (totals_log st).

(** *** Registry images *)

(** What one image counts for: its tags up to [max_image_tags], or 1 when
    it has no [tags] key. *)
Definition image_contribution (max_tags : Z) (image : docker_image) : Z :=
  match image_tags image with
  | Some tags => Z.min max_tags (Z.of_nat (length tags))
  | None => 1
  end.

(** What one repository counts for: its images, capped at 10000. *)
Definition repository_contribution (max_tags : Z) (images : list docker_image) : Z :=
  Z.min (sumZ (map (image_contribution max_tags) images)) 10000.

(** The repositories of format DOCKER, by the last segment of their name. *)
Definition docker_repositories (items : list repository) : list string :=
  map (fun item => last_segment (repo_name item))
      (List.filter (fun item => String.eqb (format item) "DOCKER") items).

(** *** Compute instances *)

(** The instance carries the tag [key=value]: it has [tags], and they
    hold [value] under [key]. *)
Definition has_tag (key value : string) (i : instance) : bool :=
  match inst_tags i with
  | Some tags =>
      match dict_get key tags with
      | Some v => String.eqb v value
      | None => false
      end
  | None => false
  end.

(** The instance carries the label [label]: it has [labels], and [label]
    is one of their keys. *)
Definition has_label (label : string) (i : instance) : bool :=
  match inst_labels i with
  | Some labels => PyStr.mem label (map fst labels)
  | None => false
  end.

(** The instance is a Databricks one: it carries the tag
    [Vendor=Databricks] or the label [databricks]. *)
Definition is_databricks (i : instance) : bool :=
  has_tag "Vendor" "Databricks" i || has_label "databricks" i.

(** The instance has the label [goog-gke-node]. *)
Definition is_gke_node (i : instance) : bool :=
  match inst_labels i with
  | Some labels => PyStr.mem "goog-gke-node" (map fst labels)
  | None => false
  end.


Definition count_if {A} (f : A -> bool) (l : list A) : Z :=
  Z.of_nat (length (List.filter f l)).



(** *** Dispatch *)

Definition probe_name (p : probe) : string :=
  match p with
  | GceInstancesAndGkeInstances => "get_gce_instances_and_gke_instances"
  | GkeClusters => "get_gcp_gke_clusters"
  | CloudFunctions => "get_gcp_cloud_functions"
  | CloudrunRevisions => "get_gcp_cloudrun_revisions"
  | Buckets => "get_gcp_buckets"
  | CloudsqlInstances => "get_gcp_cloudsql_instances"
  | SpannerInstances => "get_gcp_spanner_instances"
  | BigqueryDatasets => "get_gcp_bigquery_datasets"
  | GcrImages _ => "get_gcp_gcr_images"
  end.

(** What building the client and the first request of a probe does. *)
Definition probe_construct (api : project_apis) (p : probe) : construction :=
  match p with
  | GceInstancesAndGkeInstances => construct (compute_instances api)
  | GkeClusters => construct (container_clusters api)
  | CloudFunctions => construct (cloudfunctions_functions api)
  | CloudrunRevisions => construct (run_revisions api)
  | Buckets => construct (storage_buckets api)
  | CloudsqlInstances => construct (sqladmin_instances api)
  | SpannerInstances => construct (spanner_instances api)
  | BigqueryDatasets => construct (bigquery_datasets api)
  | GcrImages region => construct (artifactregistry_repositories api region)
  end.

(** The exception of a failed construction. *)
Definition construct_error (c : construction) : option string :=
  match c with
  | Constructed => None
  | BuildRaises ex | ListRaises ex => Some ex
  end.

(** The prelude of [get_gcp_resources]: the enabled services and, with the
    compute service among them, the regions. *)
Definition services_and_regions (fuel : nat) (api : project_apis) (project_id : string)
  : prog (list string * list string) :=
  enter "get_gcp_resources" ;;
  let* service_list := get_gcp_enabled_services fuel api project_id in
  let* regions_list :=
    if PyStr.mem "compute.googleapis.com" service_list
    then get_gcp_regions fuel api project_id else ret [] in
  ret (service_list, regions_list).

(** The first invoked probe of a debug-mode dispatch fails: it raises, or
    it records an error. *)
Definition first_probe_fails (fuel : nat) (args : Args) (api : project_apis)
    (project_id project_name : string) (st : state) : Prop :=
  exists service_list regions_list st1 p rest r st2,
    services_and_regions fuel api project_id st = (Val (service_list, regions_list), st1) /\
    debug_calls args service_list regions_list = p :: rest /\
    run_probe fuel args api project_id project_name p st1 = (r, st2) /\
    ((exists ex, r = Exn ex) \/ errors_log st2 <> errors_log st1).

(** Debug mode as the specification words it: when the first invoked probe
    fails, [get_gcp_resources] raises and has entered that probe only. *)
Definition debug_fails_fast (fuel : nat) (args : Args) (api : project_apis)
    (project_id project_name : string) (st : state) : Prop :=
  first_probe_fails fuel args api project_id project_name st ->
  exists ex st',
    get_gcp_resources fuel args api project_id project_name st = (Exn ex, st') /\
    length (invoked st') = S (S (length (invoked st))).

(** Progress as the specification words it: when the scan returns, every
    account task has incremented [completed_count] once. *)
Definition counts_every_task (fuel : nat) (args : Args) (world : cloud)
    (projects : list (string * string)) (st : state) : Prop :=
  forall completed_count st',
    scan fuel args world projects st = (Val completed_count, st') ->
    completed_count = Z.of_nat (length projects).

(** The figures of a progress line. *)
Definition percentage_of (c : console) : PyFloat.float :=
  match c with ProgressLine _ _ percentage _ _ => percentage | Line _ => PyFloat.zero end.
Definition rate_of (c : console) : PyFloat.float :=
  match c with ProgressLine _ _ _ rate _ => rate | Line _ => PyFloat.zero end.
Definition remaining_of (c : console) : PyFloat.float :=
  match c with ProgressLine _ _ _ _ remaining => remaining | Line _ => PyFloat.zero end.

(** The percentage as the specification words it: the number [100*k/n]. *)
Definition percentage_as_specified (k n : Z) (e : PyFloat.float) : Prop :=
  (PyFloat.value (percentage_of (progress_line k n e)) == 100 * inject_Z k / inject_Z n)%Q.

(** *** Listings that fail *)

(** [fails_after l request rs ex]: from the request [request] on, the
    listing [l] answers with the pages [rs], each with a [nextPageToken],
    and then [execute()] raises [ex]. *)
Fixpoint fails_after {A} (l : listing A) (request : nat) (rs : list (response A))
    (ex : string) : Prop :=
  match rs with
  | [] => execute l request = Raises ex
  | r :: rs' =>
      execute l request = Returns r /\ nextPageToken r <> None /\
      fails_after l (S request) rs' ex
  end.

(** The state after a function [f] was entered and issued [n] requests
    without touching anything else. *)
Definition entered (f : string) (n : nat) (st : state) : state :=
  State (totals st) (totals_log st) (errors_log st) (stdout st) (invoked st ++ [f])
        (n + requests st).

(** The state after a function [f] was entered, issued [n] requests and,
    when [emit] holds, logged the row of [count] under [label] and added
    [count] to [totals[key]]. *)
Definition counted (f : string) (n : nat) (emit : bool) (count : Z)
    (label key project region : string) (st : state) : state :=
  State (if emit then add_total (totals st) (key, count) else totals st)
        (if emit then totals_log st ++ [Row label count project region] else totals_log st)
        (errors_log st) (stdout st) (invoked st ++ [f]) (n + requests st).

(** The four probes that count the entries of one listing, with their
    listing. *)
Definition counting_listing (api : project_apis) (p : probe) : option (listing string) :=
  match p with
  | CloudFunctions => Some (cloudfunctions_functions api)
  | Buckets => Some (storage_buckets api)
  | CloudsqlInstances => Some (sqladmin_instances api)
  | BigqueryDatasets => Some (bigquery_datasets api)
  | _ => None
  end.

(** The number of healthy containers of the revisions of a page list. *)
Definition healthy_containers (rs : list (response (list condition))) : Z :=
  count_if container_healthy (concat (all_entries rs)).

(** The node pools of the autopilot clusters. *)
Definition autopilot_pools (clusters : list cluster) : list node_pool :=
  concat (map (fun c => match autopilot c with
                        | Some (Some true) => default [] (nodePools c)
                        | _ => []
                        end) clusters).

(** The nodes of a pool: [currentNodeCount], else [initialNodeCount],
    else 0. *)
Definition pool_nodes (np : node_pool) : Z :=
  match currentNodeCount np with
  | Some n => n
  | None => default 0 (initialNodeCount np)
  end.

(** The pods of a pool: its nodes times [config.maxPodsPerNode], the
    latter 0 when absent. *)
Definition pool_pods (np : node_pool) : Z :=
  pool_nodes np * match pool_config np with
                  | Some (Some pods) => pods
                  | _ => 0
                  end.

(** The state after an emission outside the first one of a probe: when
    [emit] holds, the row of [count] is logged under [label] and [count] is
    added to [totals[key]]. *)
Definition emitted (emit : bool) (count : Z) (label key project region : string)
    (st : state) : state :=
  State (if emit then add_total (totals st) (key, count) else totals st)
        (if emit then totals_log st ++ [Row label count project region] else totals_log st)
        (errors_log st) (stdout st) (invoked st) (requests st).

(** *** Spanner *)

(** The databases of a Spanner instance, given the pages of its database
    listing, or [None] when that listing cannot be requested. *)
Definition databases_in (pages : option (list (response string))) : Z :=
  match pages with
  | Some pages => Z.of_nat (length (all_entries pages))
  | None => 0
  end.

(** 1 for an instance whose database listing cannot be requested. *)
Definition unlistable (pages : option (list (response string))) : nat :=
  match pages with
  | Some _ => 0
  | None => 1
  end.

(** *** Error lines *)

(** The line that [error_print details project], called from [caller],
    prints and logs. *)
Definition error_text (caller details project : string) : string :=
  "ERROR: "
  +:+ (if PyStr.truthy project then "Project: " +:+ project +:+ " " else "")
  +:+ (caller +:+ "()") +:+ " "
  +:+ PyStr.replace "013" " " (PyStr.replace "010" " " details).

(** The state after one more error line. *)
Definition with_error (text : string) (st : state) : state :=
  State (totals st) (totals_log st) (errors_log st ++ [text]) (stdout st ++ [Line text])
        (invoked st) (requests st).


(** The error line of [main] for the future of a project that raised. *)
Definition scan_errors (project_futures : list (string * string * option string))
  : list string :=
  concat (map (fun future =>
                 match future with
                 | (project_id, _, Some ex) =>
                     [error_text "main" ("Exception scanning " +:+ project_id +:+ ": " +:+ ex) ""]
                 | (_, _, None) => []
                 end) project_futures).

(** *** Dispatches *)

(** How often [get_gcp_resources] has been entered. *)
Definition dispatched (st : state) : nat :=
  length (List.filter (String.eqb "get_gcp_resources") (invoked st)).

(** [m] enters no [get_gcp_resources]. *)
Definition keeps_dispatched {A} (m : prog A) : Prop :=
  forall st, dispatched (snd (m st)) = dispatched st.

(** *** Projects *)

(** A listed project is kept: it is [ACTIVE] and its parent, if it has
    one, is not an excluded folder. *)
Definition kept (excluded_folders : list string) (project : gcp_project) : bool :=
  String.eqb (lifecycleState project) "ACTIVE"
  && negb (match parent project with
           | Some parent_folder => PyStr.mem parent_folder excluded_folders
           | None => false
           end).

(** The pair [[projectId, name]] of a project, [UNNAMED] without [name]. *)
Definition project_row (project : gcp_project) : string * string :=
  (projectId project, default "UNNAMED" (name project)).

(** The order of [sorted(..., key=lambda p: p[0])]. *)
Definition by_id (a b : string * string) : Prop := String.leb (fst a) (fst b) = true.

(** The project ids of [projects.txt]: its stripped lines that are not
    empty. *)
Definition listed_ids (lines : list string) : list string :=
  List.filter (fun line => (0 <? String.length line)%nat) (map PyStr.strip lines).

(** What [build(...).projects().get(projectId=project_id).execute()]
    gives: the [name] of the project, if it has one, or the exception. *)
Definition looked_up (world : cloud) (project_id : string) : option string + string :=
  match resourcemanager_projects_get world project_id with
  | (Constructed, Returns response) => inl response
  | (Constructed, Raises ex) => inr ex
  | (ListRaises ex, _) => inr ex
  | (BuildRaises ex, _) => inr ex
  end.

(** The client of the resource manager can be built for [project_id]. *)
Definition builds (world : cloud) (project_id : string) : bool :=
  match fst (resourcemanager_projects_get world project_id) with
  | BuildRaises _ => false
  | _ => true
  end.

(** The pairs of id and name of the ids that can be looked up. *)
Definition resolved (world : cloud) (projects_ids : list string) : list (string * string) :=
  concat (map (fun project_id =>
                 match looked_up world project_id with
                 | inl response => [(project_id, default "UNNAMED" response)]
                 | inr _ => []
                 end) projects_ids).

(** The error lines for the ids that cannot be looked up. *)
Definition lookup_errors (world : cloud) (projects_ids : list string) : list string :=
  concat (map (fun project_id =>
                 match looked_up world project_id with
                 | inl _ => []
                 | inr ex => [error_text "get_gcp_projects_from_file" ex project_id]
                 end) projects_ids).

(** The state after the lookup of [project_id]. *)
Definition after_lookup (world : cloud) (st : state) (project_id : string) : state :=
  match resourcemanager_projects_get world project_id with
  | (Constructed, Returns _) => tick st
  | (Constructed, Raises ex) =>
      with_error (error_text "get_gcp_projects_from_file" ex project_id) (tick st)
  | (ListRaises ex, _) | (BuildRaises ex, _) =>
      with_error (error_text "get_gcp_projects_from_file" ex project_id) st
  end.

(** *** Repositories that cannot be listed *)

(** What a repository counts for, given the pages of its image listing, or
    [None] when that listing cannot be requested. *)
Definition images_in (max_tags : Z) (pages : option (list (response docker_image))) : Z :=
  match pages with
  | Some pages => repository_contribution max_tags (all_entries pages)
  | None => 0
  end.

(** 1 for a repository whose image listing cannot be requested. *)
Definition unlistable_images (pages : option (list (response docker_image))) : nat :=
  match pages with
  | Some _ => 0
  | None => 1
  end.

(** *** Command lines *)

(** The command line [args] with [--data] given or not. *)
Definition with_data_mode (given : bool) (args : Args) : Args := {|
  all := all args;
  id := id args;
  input_projects := input_projects args;
  input_excluded_folders := input_excluded_folders args;
  data_mode := given;
  images_mode := images_mode args;
  max_image_tags := max_image_tags args;
  max_workers := max_workers args;
  debug_mode := debug_mode args;
  verbose_mode := verbose_mode args
|}.

(** ** Test doubles *)

Module Mock.

(** A page with the given entries, with or without [nextPageToken]. *)
Definition page {A} (items : list A) (more : bool) : executed (response A) :=
  Returns (Response (Some items) (if more then Some "token" else None)).

(** A listing that answers with the given pages and then with empty
    responses. *)
Definition pages {A} (ps : list (executed (response A))) : listing A :=
  Listing Constructed (fun request => nth request ps (Returns (Response None None))).

Definition nothing {A} : listing A := pages [].

(** A listing whose client cannot be built. *)
Definition unbuildable {A} (ex : string) : listing A :=
  Listing (BuildRaises ex) (fun _ => Returns (Response None None)).

(** A project with the given enabled services and nothing else. *)
Definition project (services : list string) : project_apis := {|
  serviceusage_services := pages [page services false];
  compute_regions := nothing;
  compute_instances := nothing;
  compute_disks_get := fun _ _ => Raises "404";
  compute_images_get := fun _ _ => Raises "404";
  cloudfunctions_functions := nothing;
  run_revisions := nothing;
  container_clusters := nothing;
  artifactregistry_repositories := fun _ => nothing;
  artifactregistry_dockerImages := fun _ _ => nothing;
  storage_buckets := nothing;
  sqladmin_instances := nothing;
  spanner_instances := nothing;
  spanner_databases := fun _ => nothing;
  bigquery_datasets := nothing
|}.

(** The same project with another bucket listing. *)
Definition with_buckets (l : listing string) (api : project_apis) : project_apis := {|
  serviceusage_services := serviceusage_services api;
  compute_regions := compute_regions api;
  compute_instances := compute_instances api;
  compute_disks_get := compute_disks_get api;
  compute_images_get := compute_images_get api;
  cloudfunctions_functions := cloudfunctions_functions api;
  run_revisions := run_revisions api;
  container_clusters := container_clusters api;
  artifactregistry_repositories := artifactregistry_repositories api;
  artifactregistry_dockerImages := artifactregistry_dockerImages api;
  storage_buckets := l;
  sqladmin_instances := sqladmin_instances api;
  spanner_instances := spanner_instances api;
  spanner_databases := spanner_databases api;
  bigquery_datasets := bigquery_datasets api
|}.

(** The same project with another Cloud SQL listing. *)
Definition with_cloudsql (l : listing string) (api : project_apis) : project_apis := {|
  serviceusage_services := serviceusage_services api;
  compute_regions := compute_regions api;
  compute_instances := compute_instances api;
  compute_disks_get := compute_disks_get api;
  compute_images_get := compute_images_get api;
  cloudfunctions_functions := cloudfunctions_functions api;
  run_revisions := run_revisions api;
  container_clusters := container_clusters api;
  artifactregistry_repositories := artifactregistry_repositories api;
  artifactregistry_dockerImages := artifactregistry_dockerImages api;
  storage_buckets := storage_buckets api;
  sqladmin_instances := l;
  spanner_instances := spanner_instances api;
  spanner_databases := spanner_databases api;
  bigquery_datasets := bigquery_datasets api
|}.

(** The same project with another instance listing. *)
Definition with_instances (l : listing (string * option (list instance)))
    (api : project_apis) : project_apis := {|
  serviceusage_services := serviceusage_services api;
  compute_regions := compute_regions api;
  compute_instances := l;
  compute_disks_get := compute_disks_get api;
  compute_images_get := compute_images_get api;
  cloudfunctions_functions := cloudfunctions_functions api;
  run_revisions := run_revisions api;
  container_clusters := container_clusters api;
  artifactregistry_repositories := artifactregistry_repositories api;
  artifactregistry_dockerImages := artifactregistry_dockerImages api;
  storage_buckets := storage_buckets api;
  sqladmin_instances := sqladmin_instances api;
  spanner_instances := spanner_instances api;
  spanner_databases := spanner_databases api;
  bigquery_datasets := bigquery_datasets api
|}.

(** The same project with the given repositories in every region and the
    given images in every repository. *)
Definition with_registry (repos : listing repository) (images : string -> listing docker_image)
    (api : project_apis) : project_apis := {|
  serviceusage_services := serviceusage_services api;
  compute_regions := compute_regions api;
  compute_instances := compute_instances api;
  compute_disks_get := compute_disks_get api;
  compute_images_get := compute_images_get api;
  cloudfunctions_functions := cloudfunctions_functions api;
  run_revisions := run_revisions api;
  container_clusters := container_clusters api;
  artifactregistry_repositories := fun _ => repos;
  artifactregistry_dockerImages := fun _ => images;
  storage_buckets := storage_buckets api;
  sqladmin_instances := sqladmin_instances api;
  spanner_instances := spanner_instances api;
  spanner_databases := spanner_databases api;
  bigquery_datasets := bigquery_datasets api
|}.

(** The default command line with [--id p]. *)
Definition args : Args := {|
  all := false;
  id := Some "p";
  input_projects := false;
  input_excluded_folders := false;
  data_mode := false;
  images_mode := false;
  max_image_tags := 5;
  max_workers := 100;
  debug_mode := false;
  verbose_mode := false
|}.

(** The same with [--debug]. *)
Definition debug_args : Args := {|
  all := false;
  id := Some "p";
  input_projects := false;
  input_excluded_folders := false;
  data_mode := false;
  images_mode := false;
  max_image_tags := 5;
  max_workers := 100;
  debug_mode := true;
  verbose_mode := false
|}.

(** The command line [--projects]. *)
Definition projects_args : Args := {|
  all := false;
  id := None;
  input_projects := true;
  input_excluded_folders := false;
  data_mode := false;
  images_mode := false;
  max_image_tags := 5;
  max_workers := 100;
  debug_mode := false;
  verbose_mode := false
|}.

(** A world in which every project is [api], the working directory holds
    the given files only and the k-th completion is handled after [k]
    seconds. *)
Definition world (fs : string -> option (list string)) (api : project_apis) : cloud := {|
  files := fs;
  stdin := "typed";
  resourcemanager_projects := nothing;
  resourcemanager_projects_get := fun _ => (Constructed, Returns None);
  apis := fun _ => api;
  clock := fun handled => PyFloat.of_int (Z.of_nat handled)
|}.

Definition no_files : string -> option (list string) := fun _ => None.

(** A project for which the service usage client cannot be built. *)
Definition broken : project_apis := {|
  serviceusage_services := unbuildable "credentials";
  compute_regions := nothing;
  compute_instances := nothing;
  compute_disks_get := fun _ _ => Raises "404";
  compute_images_get := fun _ _ => Raises "404";
  cloudfunctions_functions := nothing;
  run_revisions := nothing;
  container_clusters := nothing;
  artifactregistry_repositories := fun _ => nothing;
  artifactregistry_dockerImages := fun _ _ => nothing;
  storage_buckets := nothing;
  sqladmin_instances := nothing;
  spanner_instances := nothing;
  spanner_databases := fun _ => nothing;
  bigquery_datasets := nothing
|}.

(** A project with three Cloud SQL instances and a bucket listing whose
    second page fails; both services are enabled under the names the
    parallel branch asks for. *)
Definition flaky_buckets : project_apis :=
  with_cloudsql (pages [page ["x"; "y"; "z"] false])
    (with_buckets (pages [page ["a"; "b"] true; Raises "transport error"])
       (project ["sqladmin.googleapis.com"; "storage-api.googleapis.com"])).

(** The same with the bucket service enabled under the name the debug
    branch asks for. *)
Definition flaky_buckets_debug : project_apis :=
  with_cloudsql (pages [page ["x"; "y"; "z"] false])
    (with_buckets (pages [page ["a"; "b"] true; Raises "transport error"])
       (project ["sqladmin.googleapis.com"; "storage.googleapis.com"])).

(** The same with a bucket client that cannot be built. *)
Definition unbuildable_buckets : project_apis :=
  with_cloudsql (pages [page ["x"; "y"; "z"] false])
    (with_buckets (unbuildable "credentials")
       (project ["sqladmin.googleapis.com"; "storage.googleapis.com"])).

(** A registry with a DOCKER and a MAVEN repository; every repository holds
    an image with seven tags, an image without [tags] and an image with an
    empty tag list. *)
Definition registry_repositories : list (response repository) :=
  [Response (Some [Repository "DOCKER" "projects/p/locations/us/repositories/app";
                   Repository "MAVEN" "projects/p/locations/us/repositories/jars"])
            None].
Definition registry_images : list (response docker_image) :=
  [Response (Some [DockerImage (Some ["1"; "2"; "3"; "4"; "5"; "6"; "7"]);
                   DockerImage None;
                   DockerImage (Some [])])
            None].
Definition registry : project_apis :=
  with_registry (pages (map Returns registry_repositories))
                (fun _ => pages (map Returns registry_images))
                (project ["artifactregistry.googleapis.com"]).



(** A project with 10001 buckets on one page. *)
Definition crowded_page : list (response string) :=
  [Response (Some (List.repeat "bucket" (100 * 100 + 1))) None].
Definition crowded : project_apis :=
  with_buckets (pages (map Returns crowded_page)) (project ["storage.googleapis.com"]).

(** A project with two Cloud Functions pages of 2 and 1 entries and no
    Cloud SQL instance and no BigQuery dataset on their single pages. *)
Definition functions_pages : list (response string) :=
  [Response (Some ["f"; "g"]) (Some "token"); Response (Some ["h"]) None].
Definition functions_project : project_apis := {|
  serviceusage_services := pages [page ["cloudfunctions.googleapis.com"] false];
  compute_regions := nothing;
  compute_instances := nothing;
  compute_disks_get := fun _ _ => Raises "404";
  compute_images_get := fun _ _ => Raises "404";
  cloudfunctions_functions := pages (map Returns functions_pages);
  run_revisions := nothing;
  container_clusters := nothing;
  artifactregistry_repositories := fun _ => nothing;
  artifactregistry_dockerImages := fun _ _ => nothing;
  storage_buckets := nothing;
  sqladmin_instances := nothing;
  spanner_instances := nothing;
  spanner_databases := fun _ => nothing;
  bigquery_datasets := nothing
|}.

(** Two Cloud Run revisions: one healthy and ready, one not healthy. *)
Definition revisions_pages : list (response (list condition)) :=
  [Response (Some [[Condition "Ready" "True"; Condition "ContainerHealthy" "True"];
                   [Condition "ContainerHealthy" "False"; Condition "Ready" "False"]])
            None].
Definition revisions_project : project_apis := {|
  serviceusage_services := pages [page ["run.googleapis.com"] false];
  compute_regions := nothing;
  compute_instances := nothing;
  compute_disks_get := fun _ _ => Raises "404";
  compute_images_get := fun _ _ => Raises "404";
  cloudfunctions_functions := nothing;
  run_revisions := pages (map Returns revisions_pages);
  container_clusters := nothing;
  artifactregistry_repositories := fun _ => nothing;
  artifactregistry_dockerImages := fun _ _ => nothing;
  storage_buckets := nothing;
  sqladmin_instances := nothing;
  spanner_instances := nothing;
  spanner_databases := fun _ => nothing;
  bigquery_datasets := nothing
|}.

(** An autopilot cluster with a pool of 3 nodes of 32 pods and a pool that
    only has an initial node count of 2 and no [config], a cluster with
    autopilot disabled and a cluster without the [autopilot] key. *)
Definition clusters_pages : list (response cluster) :=
  [Response
     (Some [Cluster (Some (Some true))
                    (Some [NodePool (Some 3) (Some 1) (Some (Some 32));
                           NodePool None (Some 2) None]);
            Cluster (Some (Some false)) (Some [NodePool (Some 5) None (Some (Some 8))]);
            Cluster None (Some [NodePool (Some 7) None (Some (Some 8))])])
     None].
Definition clusters_project : project_apis := {|
  serviceusage_services := pages [page ["container.googleapis.com"] false];
  compute_regions := nothing;
  compute_instances := nothing;
  compute_disks_get := fun _ _ => Raises "404";
  compute_images_get := fun _ _ => Raises "404";
  cloudfunctions_functions := nothing;
  run_revisions := nothing;
  container_clusters := pages (map Returns clusters_pages);
  artifactregistry_repositories := fun _ => nothing;
  artifactregistry_dockerImages := fun _ _ => nothing;
  storage_buckets := nothing;
  sqladmin_instances := nothing;
  spanner_instances := nothing;
  spanner_databases := fun _ => nothing;
  bigquery_datasets := nothing
|}.

(** Two Spanner instances: [i1] with two databases on two pages, [i2]
    whose database listing cannot be requested. *)
Definition spanner_pages : list (response string) := [Response (Some ["i1"; "i2"]) None].
Definition i1_databases : list (response string) :=
  [Response (Some ["d1"]) (Some "token"); Response (Some ["d2"]) None].
Definition spanner_project : project_apis := {|
  serviceusage_services := pages [page ["spanner.googleapis.com"] false];
  compute_regions := nothing;
  compute_instances := nothing;
  compute_disks_get := fun _ _ => Raises "404";
  compute_images_get := fun _ _ => Raises "404";
  cloudfunctions_functions := nothing;
  run_revisions := nothing;
  container_clusters := nothing;
  artifactregistry_repositories := fun _ => nothing;
  artifactregistry_dockerImages := fun _ _ => nothing;
  storage_buckets := nothing;
  sqladmin_instances := nothing;
  spanner_instances := pages (map Returns spanner_pages);
  spanner_databases := fun instance =>
    if String.eqb instance "i1" then pages (map Returns i1_databases)
    else Listing (ListRaises "permission denied") (fun _ => Returns (Response None None));
  bigquery_datasets := nothing
|}.
Definition spanner_databases_pages (instance : string) : option (list (response string)) :=
  if String.eqb instance "i1" then Some i1_databases else None.

(** A GKE node with a boot disk and a data disk. *)
Definition gke_node : instance :=
  Instance None (Some [("goog-gke-node", "")])
           (Some [Disk true "projects/p/zones/z/disks/boot"; Disk false "data"]).

(** A boot disk of the zone [z]. *)
Definition boot_disk : disk := Disk true "projects/p/zones/z/disks/boot".

(** The default command line with [--id p --images]. *)
Definition images_args : Args := {|
  all := false;
  id := Some "p";
  input_projects := false;
  input_excluded_folders := false;
  data_mode := false;
  images_mode := true;
  max_image_tags := 5;
  max_workers := 100;
  debug_mode := false;
  verbose_mode := false
|}.

(** A project whose enabled services cannot be requested. *)
Definition unlistable_services : project_apis := {|
  serviceusage_services :=
    Listing (ListRaises "bad parent") (fun _ => Returns (Response None None));
  compute_regions := nothing;
  compute_instances := nothing;
  compute_disks_get := fun _ _ => Raises "404";
  compute_images_get := fun _ _ => Raises "404";
  cloudfunctions_functions := nothing;
  run_revisions := nothing;
  container_clusters := nothing;
  artifactregistry_repositories := fun _ => nothing;
  artifactregistry_dockerImages := fun _ _ => nothing;
  storage_buckets := nothing;
  sqladmin_instances := nothing;
  spanner_instances := nothing;
  spanner_databases := fun _ => nothing;
  bigquery_datasets := nothing
|}.

(** A project whose service listing fails on its second page. *)
Definition services_first_page : list (response string) :=
  [Response (Some ["storage-api.googleapis.com"; "run.googleapis.com"]) (Some "token")].
Definition flaky_services : project_apis := {|
  serviceusage_services :=
    pages [page ["storage-api.googleapis.com"; "run.googleapis.com"] true; Raises "quota"];
  compute_regions := nothing;
  compute_instances := nothing;
  compute_disks_get := fun _ _ => Raises "404";
  compute_images_get := fun _ _ => Raises "404";
  cloudfunctions_functions := nothing;
  run_revisions := nothing;
  container_clusters := nothing;
  artifactregistry_repositories := fun _ => nothing;
  artifactregistry_dockerImages := fun _ _ => nothing;
  storage_buckets := nothing;
  sqladmin_instances := nothing;
  spanner_instances := nothing;
  spanner_databases := fun _ => nothing;
  bigquery_datasets := nothing
|}.

(** A resource manager with an active project [b], a deleted project, an
    active project [a] in the folder [f1] and an active project [c] without
    [name] in the folder [f2], over the files [fs]. *)
Definition listed_projects : list (response gcp_project) :=
  [Response (Some [GcpProject "b" (Some "B") "ACTIVE" None;
                   GcpProject "d" (Some "D") "DELETE_REQUESTED" None])
            (Some "token");
   Response (Some [GcpProject "c" None "ACTIVE" (Some "f2");
                   GcpProject "a" (Some "A") "ACTIVE" (Some "f1")])
            None].
Definition organisation (fs : string -> option (list string)) : cloud := {|
  files := fs;
  stdin := "typed";
  resourcemanager_projects := pages (map Returns listed_projects);
  resourcemanager_projects_get := fun _ => (Constructed, Returns None);
  apis := fun _ => project [];
  clock := fun handled => PyFloat.of_int (Z.of_nat handled)
|}.

(** A file [projects.txt] with the ids [b], [a] and [gone] and a blank
    line, and the same with other whitespace: [b] between a space and
    U+001F, a line of U+00A0, a space and U+2003, [a] between U+0085 and
    U+3000, and [gone] before a line feed.  The resource manager knows [a]
    by name, [b] without name and refuses [gone]. *)
Definition projects_file : string -> option (list string) :=
  fun path => if String.eqb path "projects.txt" then Some [" b "; "   "; "a"; "gone"]
              else None.
Definition spaced_lines : list string :=
  [String "032" ("b" +:+ String "031" "");
   String "194" (String "160" (" " +:+ String "226" (String "128" (String "131" ""))));
   String "194" (String "133" ("a" +:+ String "227" (String "128" (String "128" ""))));
   "gone" +:+ String "010" ""].
Definition spaced_projects_file : string -> option (list string) :=
  fun path => if String.eqb path "projects.txt" then Some spaced_lines else None.
Definition named_projects : cloud := {|
  files := spaced_projects_file;
  stdin := "typed";
  resourcemanager_projects := nothing;
  resourcemanager_projects_get := fun project_id =>
    if String.eqb project_id "a" then (Constructed, Returns (Some "A"))
    else if String.eqb project_id "b" then (Constructed, Returns None)
    else (Constructed, Raises "403");
  apis := fun _ => project [];
  clock := fun handled => PyFloat.of_int (Z.of_nat handled)
|}.

(** The same file where no client can be built. *)
Definition no_client : cloud := {|
  files := projects_file;
  stdin := "typed";
  resourcemanager_projects := nothing;
  resourcemanager_projects_get := fun _ => (BuildRaises "credentials", Returns None);
  apis := fun _ => project [];
  clock := fun handled => PyFloat.of_int (Z.of_nat handled)
|}.

(** The command line [--all --exclude]. *)
Definition all_args : Args := {|
  all := true;
  id := None;
  input_projects := false;
  input_excluded_folders := true;
  data_mode := false;
  images_mode := false;
  max_image_tags := 5;
  max_workers := 100;
  debug_mode := false;
  verbose_mode := false
|}.

(** The command line [--all]. *)
Definition every_project_args : Args := {|
  all := true;
  id := None;
  input_projects := false;
  input_excluded_folders := false;
  data_mode := false;
  images_mode := false;
  max_image_tags := 5;
  max_workers := 100;
  debug_mode := false;
  verbose_mode := false
|}.

(** A file [excluded-folders.txt] that names the folder [f1]. *)
Definition excluded_file : string -> option (list string) :=
  fun path => if String.eqb path "excluded-folders.txt" then Some ["f1"] else None.

(** A resource manager whose client cannot be built. *)
Definition no_resource_manager : cloud := {|
  files := no_files;
  stdin := "typed";
  resourcemanager_projects := unbuildable "credentials";
  resourcemanager_projects_get := fun _ => (Constructed, Returns None);
  apis := fun _ => project [];
  clock := fun handled => PyFloat.of_int (Z.of_nat handled)
|}.

(** A resource manager whose project listing fails on its second page. *)
Definition projects_first_page : list (response gcp_project) :=
  [Response (Some [GcpProject "b" (Some "B") "ACTIVE" None]) (Some "token")].
Definition flaky_resource_manager : cloud := {|
  files := no_files;
  stdin := "typed";
  resourcemanager_projects := pages (map Returns projects_first_page ++ [Raises "quota"]);
  resourcemanager_projects_get := fun _ => (Constructed, Returns None);
  apis := fun _ => project [];
  clock := fun handled => PyFloat.of_int (Z.of_nat handled)
|}.

(** A command line with [--max-workers 0]. *)
Definition no_workers_args : Args := {|
  all := false;
  id := Some "p";
  input_projects := false;
  input_excluded_folders := false;
  data_mode := false;
  images_mode := false;
  max_image_tags := 5;
  max_workers := 0;
  debug_mode := false;
  verbose_mode := false
|}.

(** A registry with the DOCKER repositories [app] and [locked]; the images
    of [locked] cannot be requested. *)
Definition two_repositories : list (response repository) :=
  [Response (Some [Repository "DOCKER" "projects/p/locations/us/repositories/locked";
                   Repository "DOCKER" "projects/p/locations/us/repositories/app"])
            None].
Definition locked_registry : project_apis :=
  with_registry (pages (map Returns two_repositories))
                (fun repository =>
                   if String.eqb repository "locked"
                   then Listing (ListRaises "403") (fun _ => Returns (Response None None))
                   else pages (map Returns registry_images))
                (project ["artifactregistry.googleapis.com"]).
Definition locked_images (repository : string) : option (list (response docker_image)) :=
  if String.eqb repository "locked" then None else Some registry_images.

(** A world in which the project [q] is broken and every other project has
    three Cloud SQL instances and a bucket listing that fails. *)
Definition busy_world : cloud := {|
  files := no_files;
  stdin := "typed";
  resourcemanager_projects := nothing;
  resourcemanager_projects_get := fun _ => (Constructed, Returns None);
  apis := fun project_id => if String.eqb project_id "q" then broken else flaky_buckets;
  clock := fun handled => PyFloat.of_int (Z.of_nat handled)
|}.

(** A world in which the project [q] is broken and every other project has
    no enabled service. *)
Definition mixed_world : cloud := {|
  files := no_files;
  stdin := "typed";
  resourcemanager_projects := nothing;
  resourcemanager_projects_get := fun _ => (Constructed, Returns None);
  apis := fun project_id => if String.eqb project_id "q" then broken else project [];
  clock := fun handled => PyFloat.of_int (Z.of_nat handled)
|}.

(** Three pages of 2, 2 and 1 entries; the last has no [nextPageToken]. *)
Definition three_pages : listing string :=
  pages [page ["a"; "b"] true; page ["c"; "d"] true; page ["e"] false].

(** The two emissions of [get_gce_instances_and_gke_instances]. *)
Definition vm_emission : emission :=
  Emission 2 "Virtual Machines [Compute]" "P" ""
    [("Virtual Machines", 2); ("Non-OS Disks", 3); ("Virtual Machine Sensors", 1)].
Definition gke_emission : emission :=
  Emission 4 "Container Hosts [GKE]" "P" ""
    [("Container Hosts", 4); ("Kubernetes Sensors", 4)].

(** A project with one virtual machine that has one data disk. *)
Definition vm_with_data_disk : project_apis :=
  with_instances
    (pages [page [("zones/z", Some [Instance None None (Some [Disk false "d"])])] false])
    (project ["compute.googleapis.com"]).

End Mock.

(** * Properties *)

(** ** The monad *)

Lemma wp_ret {A} (a : A) (Q : A -> state -> Prop) st :
  Q a st -> wp (ret a) Q st.
Proof. intros H. exact H. Qed.

Lemma wp_bind {A B} (m : prog A) (k : A -> prog B) (Q : B -> state -> Prop) st :
  wp m (fun a st' => wp (k a) Q st') st -> wp (bind m k) Q st.
Proof.
  unfold wp, bind. destruct (m st) as [[a | ex | c |] st']; intros H; try contradiction.
  exact H.
Qed.

Lemma wp_mono {A} (m : prog A) (Q Q' : A -> state -> Prop) st :
  wp m Q st -> (forall a st', Q a st' -> Q' a st') -> wp m Q' st.
Proof.
  unfold wp. destruct (m st) as [[a | ex | c |] st']; intros H HQ; try contradiction.
  apply HQ, H.
Qed.

Lemma wp_modify (f : state -> state) (Q : unit -> state -> Prop) st :
  Q tt (f st) -> wp (modify f) Q st.
Proof. intros H. exact H. Qed.

Lemma wp_elim {A} (m : prog A) (Q : A -> state -> Prop) st :
  wp m Q st -> exists a st', m st = (Val a, st') /\ Q a st'.
Proof.
  unfold wp. destruct (m st) as [[a | ex | c |] st']; intros H; try contradiction.
  exists a, st'. split; [reflexivity | exact H].
Qed.

Lemma wp_when (condition : bool) (body : prog unit) (Q : unit -> state -> Prop) st :
  (condition = true -> wp body Q st) ->
  (condition = false -> Q tt st) ->
  wp (when condition body) Q st.
Proof.
  destruct condition; simpl; intros Ht Hf; [apply Ht | apply Hf]; reflexivity.
Qed.

(** A [for] loop keeps an invariant [I] of the elements handled so far. *)
Lemma wp_for_each {A V} (body : A -> V -> prog V) (I : list A -> V -> state -> Prop)
    (xs : list A) :
  (forall pre x v st, In x xs -> I pre v st -> wp (body x v) (I (pre ++ [x])) st) ->
  forall pre v st, I pre v st -> wp (for_each xs body v) (I (pre ++ xs)) st.
Proof.
  induction xs as [| x xs IH]; intros Hbody pre v st HI.
  - simpl. rewrite app_nil_r. exact HI.
  - simpl. apply wp_bind.
    eapply wp_mono; [apply Hbody; [left; reflexivity | exact HI] |].
    intros v' st' HI'. cbv beta.
    replace (pre ++ x :: xs) with ((pre ++ [x]) ++ xs) by (rewrite <- app_assoc; reflexivity).
    apply IH; [| exact HI'].
    intros pre0 x0 v0 st0 Hin. apply Hbody. right. exact Hin.
Qed.

(** A listing loop over the pages [rs] keeps an invariant [I] of the pages
    handled so far, leaves without an exception and has issued one request
    for each page. *)
Lemma wp_while_request {A V} (l : listing A) (body : response A -> V -> prog V)
    (I : list (response A) -> V -> state -> Prop) (rs : list (response A)) :
  (forall pre r v st, In r rs -> I pre v st -> wp (body r v) (I (pre ++ [r])) (tick st)) ->
  forall fuel request pre v st,
    walks l request rs -> (length rs <= fuel)%nat -> I pre v st ->
    wp (while_request fuel l body request v)
       (fun r st' => snd r = None /\ I (pre ++ rs) (fst r) st') st.
Proof.
  induction rs as [| r rs IH]; intros Hbody fuel request pre v st Hwalk Hfuel HI.
  - destruct Hwalk.
  - destruct fuel as [| fuel]; [simpl in Hfuel; lia |].
    destruct Hwalk as [Hexec Hrest].
    assert (Hb : wp (body r v) (I (pre ++ [r])) (tick st))
      by (apply Hbody; [left; reflexivity | exact HI]).
    apply wp_elim in Hb. destruct Hb as (v' & st' & Eb & HI').
    destruct rs as [| r' rs].
    + unfold wp. simpl. unfold bind, try_except, request_execute, bind, modify.
      rewrite Hexec. simpl. fold (tick st). rewrite Eb. simpl. rewrite Hrest.
      simpl. split; [reflexivity | exact HI'].
    + destruct Hrest as [Htoken Hwalk'].
      assert (Hnext : wp (while_request fuel l body (S request) v')
                (fun r0 st0 => snd r0 = None /\ I ((pre ++ [r]) ++ r' :: rs) (fst r0) st0) st').
      { apply IH; [| exact Hwalk' | simpl in Hfuel |- *; lia | exact HI'].
        intros pre0 r0 v0 st0 Hin. apply Hbody. right. exact Hin. }
      rewrite <- app_assoc in Hnext. simpl in Hnext.
      unfold wp in Hnext |- *. simpl.
      unfold bind at 1. unfold try_except, request_execute, bind at 1 2, modify.
      rewrite Hexec. simpl. fold (tick st). unfold bind at 1. rewrite Eb. simpl.
      destruct (nextPageToken r) as [t |]; [| congruence].
      exact Hnext.
Qed.

(** ** The paginated walk *)

Lemma after_requests_0 st : after_requests 0 st = st.
Proof. destruct st. reflexivity. Qed.

Lemma tick_after_requests n st : tick (after_requests n st) = after_requests (S n) st.
Proof. reflexivity. Qed.

(** With a body that only computes, the loop folds the body over the pages
    and issues one request for each of them. *)
Lemma while_request_pure {A V} (l : listing A) (f : response A -> V -> V)
    (rs : list (response A)) fuel request vars st :
  walks l request rs -> (length rs <= fuel)%nat ->
  while_request fuel l (fun response vars => ret (f response vars)) request vars st
  = (Val (fold_left (fun vars response => f response vars) rs vars, None),
     after_requests (length rs) st).
Proof.
  intros Hwalk Hfuel.
  pose (I := fun (pre : list (response A)) (v : V) (st' : state) =>
               v = fold_left (fun vars response => f response vars) pre vars
               /\ st' = after_requests (length pre) st).
  assert (H : wp (while_request fuel l (fun response vars => ret (f response vars))
                                request vars)
                 (fun r st' => snd r = None /\ I ([] ++ rs) (fst r) st') st).
  { apply wp_while_request; [| exact Hwalk | exact Hfuel |].
    - intros pre r v st0 _ [Hv Hst]. apply wp_ret. split.
      + rewrite fold_left_app. simpl. rewrite Hv. reflexivity.
      + rewrite Hst, tick_after_requests, length_app. simpl.
        f_equal. lia.
    - split; [reflexivity | symmetry; apply after_requests_0]. }
  apply wp_elim in H. destruct H as ([v o] & st' & E & Ho & Hv & Hst).
  simpl in *. subst. exact E.
Qed.

(** The three pages of sizes 2, 2 and 1. *)
Lemma walks_2_2_1 {A} (l : listing A) (a b c d e : A) (t0 t1 : string) :
  execute l 0 = Returns (Response (Some [a; b]) (Some t0)) ->
  execute l 1 = Returns (Response (Some [c; d]) (Some t1)) ->
  execute l 2 = Returns (Response (Some [e]) None) ->
  walks l 0 [Response (Some [a; b]) (Some t0); Response (Some [c; d]) (Some t1);
             Response (Some [e]) None].
Proof.
  intros H0 H1 H2. simpl. repeat split; try assumption; discriminate.
Qed.

(** C6. A listing of three pages with 2, 2 and 1 entries, of which only the
    first two carry a [nextPageToken], makes the loop collect exactly 5
    entries with exactly 3 requests, both in the loop of
    [get_gcp_enabled_services] (which collects the entries) and in the loop
    of [get_gcp_buckets] (which counts them).  In general, when the listing
    answers with pages [rs] of which only the last has no [nextPageToken],
    the loop handles these pages in order, issues one request per page and
    then stops without an exception. *)
Theorem paginated_walk_requests_and_items :
  (forall A V (l : listing A) (f : response A -> V -> V) (rs : list (response A))
          (fuel : nat) (vars : V) (st : state),
      walks l 0 rs -> (length rs <= fuel)%nat ->
      while_request fuel l (fun response vars => ret (f response vars)) 0 vars st
      = (Val (fold_left (fun vars response => f response vars) rs vars, None),
         after_requests (length rs) st))
  /\
  (forall (l : listing string) (a b c d e t0 t1 : string) (fuel : nat) (st : state),
      execute l 0 = Returns (Response (Some [a; b]) (Some t0)) ->
      execute l 1 = Returns (Response (Some [c; d]) (Some t1)) ->
      execute l 2 = Returns (Response (Some [e]) None) ->
      (3 <= fuel)%nat ->
      while_request fuel l (fun response names => ret (names ++ entries_of response)) 0 [] st
      = (Val ([a; b; c; d; e], None), after_requests 3 st)
      /\ while_request fuel l count_entries 0 0 st
         = (Val (5, None), after_requests 3 st)
      /\ requests (after_requests 3 st) = (3 + requests st)%nat).
Proof.
  split.
  - intros. apply while_request_pure; assumption.
  - intros l a b c d e t0 t1 fuel st H0 H1 H2 Hfuel.
    pose proof (walks_2_2_1 l a b c d e t0 t1 H0 H1 H2) as Hwalk.
    split; [| split].
    + rewrite (while_request_pure l (fun response names => names ++ entries_of response)
                 _ fuel 0 [] st Hwalk Hfuel).
      reflexivity.
    + unfold count_entries.
      rewrite (while_request_pure l
                 (fun response n => n + Z.of_nat (length (entries_of response)))
                 _ fuel 0 0 st Hwalk Hfuel).
      reflexivity.
    + reflexivity.
Qed.

Lemma paginated_walk_requests_and_items_witness :
  (execute Mock.three_pages 0 = Returns (Response (Some ["a"; "b"]) (Some "token")) /\
   execute Mock.three_pages 1 = Returns (Response (Some ["c"; "d"]) (Some "token")) /\
   execute Mock.three_pages 2 = Returns (Response (Some ["e"]) None) /\
   (3 <= 3)%nat) /\
  while_request 3 Mock.three_pages
    (fun response names => ret (names ++ entries_of response)) 0 [] state0
  = (Val (["a"; "b"; "c"; "d"; "e"], None), after_requests 3 state0)
  /\ while_request 3 Mock.three_pages count_entries 0 0 state0
     = (Val (5, None), after_requests 3 state0)
  /\ requests (after_requests 3 state0) = (3 + requests state0)%nat.
Proof.
  split; [repeat split; lia |].
  apply (proj2 paginated_walk_requests_and_items Mock.three_pages
           "a" "b" "c" "d" "e" "token" "token" 3%nat state0);
    [reflexivity | reflexivity | reflexivity | lia].
Defined.

(** ** Aggregation *)

Lemma total_add_total (m : gmap string Z) (k r : string) (n : Z) :
  total (add_total m (k, n)) r = total m r + (if String.eqb k r then n else 0).
Proof.
  unfold add_total, total. simpl.
  destruct (String.eqb_spec k r) as [-> | Hne].
  - rewrite lookup_insert_eq. reflexivity.
  - rewrite lookup_insert_ne by exact Hne. lia.
Qed.

Lemma total_fold_add_total (incs : list (string * Z)) (m : gmap string Z) (r : string) :
  total (fold_left add_total incs m) r = total m r + incs_sum r incs.
Proof.
  revert m. induction incs as [| [k n] incs IH]; intros m.
  - unfold incs_sum. simpl. lia.
  - simpl. rewrite IH, total_add_total. unfold incs_sum. simpl. lia.
Qed.

Lemma record_total (e : emission) (st : state) (r : string) :
  fst (record e st) = Val tt /\
  total (totals (snd (record e st))) r = total (totals st) r + incs_sum r (em_incs e).
Proof.
  split; [reflexivity |]. simpl. apply total_fold_add_total.
Qed.

Lemma record_all_total (es : list emission) (st : state) (r : string) :
  fst (record_all es st) = Val tt /\
  total (totals (snd (record_all es st))) r = total (totals st) r + emitted_sum r es.
Proof.
  revert st. induction es as [| e es IH]; intros st.
  - split; [reflexivity |]. unfold emitted_sum. simpl. lia.
  - destruct (IH (snd (record e st))) as [Hv Ht].
    change (record_all (e :: es) st) with (record_all es (snd (record e st))).
    split; [exact Hv |].
    rewrite Ht. rewrite (proj2 (record_total e st r)).
    unfold emitted_sum. simpl. lia.
Qed.

Lemma emitted_sum_permutation (r : string) (es es' : list emission) :
  Permutation es es' -> emitted_sum r es = emitted_sum r es'.
Proof.
  unfold emitted_sum.
  induction 1 as [| e es es' _ IH | e e' es | es es' es'' _ IH1 _ IH2]; simpl in *; lia.
Qed.

(** C1, as amended.  The rows that [progress_print] logs carry a label such
    as [Virtual Machines [Compute]] and one row comes with [+=] statements
    on several keys of [totals], so a total is not the sum of the logged
    counts of that resource type.  What holds: after any sequence of
    emissions every total is its initial value plus the sum of the
    increments that the emissions' [+=] statements apply to that key, and
    this value is the same for every arrival order of the emissions. *)
Theorem totals_sum_of_increments_any_order :
  forall (es es' : list emission) (st : state) (r : string),
    Permutation es es' ->
    fst (record_all es st) = Val tt /\
    fst (record_all es' st) = Val tt /\
    total (totals (snd (record_all es st))) r = total (totals st) r + emitted_sum r es /\
    total (totals (snd (record_all es' st))) r
    = total (totals (snd (record_all es st))) r.
Proof.
  intros es es' st r Hperm.
  destruct (record_all_total es st r) as [Hv Ht].
  destruct (record_all_total es' st r) as [Hv' Ht'].
  repeat split; try assumption.
  rewrite Ht, Ht'. f_equal. symmetry. apply emitted_sum_permutation, Hperm.
Qed.

Lemma totals_sum_of_increments_any_order_witness :
  Permutation [Mock.vm_emission; Mock.gke_emission] [Mock.gke_emission; Mock.vm_emission] /\
  total (totals (snd (record_all [Mock.vm_emission; Mock.gke_emission] state0)))
        "Kubernetes Sensors" = 0 + 4 /\
  total (totals (snd (record_all [Mock.gke_emission; Mock.vm_emission] state0)))
        "Kubernetes Sensors"
  = total (totals (snd (record_all [Mock.vm_emission; Mock.gke_emission] state0)))
          "Kubernetes Sensors".
Proof.
  assert (Hperm : Permutation [Mock.vm_emission; Mock.gke_emission]
                              [Mock.gke_emission; Mock.vm_emission])
    by apply perm_swap.
  split; [exact Hperm |].
  destruct (totals_sum_of_increments_any_order _ _ state0 "Kubernetes Sensors" Hperm)
    as (_ & _ & Ht & Hp).
  split; [exact Ht | exact Hp].
Defined.

(** C1 as the specification words it fails on the emission of one virtual
    machine with one data disk: [totals['Virtual Machines']] is 1, and no
    logged row has the resource type [Virtual Machines]. *)
Lemma totals_differ_from_logged_counts :
  total (totals (snd (get_gce_instances_and_gke_instances 1 Mock.args
                        Mock.vm_with_data_disk "p" "P" state0))) "Virtual Machines" = 1 /\
  log_sum "Virtual Machines"
    (totals_log (snd (get_gce_instances_and_gke_instances 1 Mock.args
                        Mock.vm_with_data_disk "p" "P" state0))) = 0 /\
  ~ totals_match_log
      (snd (get_gce_instances_and_gke_instances 1 Mock.args Mock.vm_with_data_disk
              "p" "P" state0)).
Proof.
  split; [vm_compute; reflexivity |]. split; [vm_compute; reflexivity |].
  intros H. specialize (H "Virtual Machines"). vm_compute in H. discriminate H.
Qed.

(** ** Progress *)

Lemma bind_val_inv {A B} (m : prog A) (k : A -> prog B) st b st' :
  bind m k st = (Val b, st') ->
  exists a st1, m st = (Val a, st1) /\ k a st1 = (Val b, st').
Proof.
  unfold bind. destruct (m st) as [[a | ex | c |] st1]; intros H; try discriminate H.
  exists a, st1. split; [reflexivity | exact H].
Qed.

Lemma rate_of_progress_line_pos k n e :
  PyFloat.ltb PyFloat.zero e = true ->
  rate_of (progress_line k n e) = PyFloat.div (PyFloat.of_int k) e.
Proof. intros He. cbn [rate_of progress_line]. rewrite He. reflexivity. Qed.

Lemma rate_of_progress_line_nonpos k n e :
  PyFloat.ltb PyFloat.zero e = false -> rate_of (progress_line k n e) = PyFloat.zero.
Proof. intros He. cbn [rate_of progress_line]. rewrite He. reflexivity. Qed.

Lemma remaining_of_progress_line_pos k n e :
  PyFloat.ltb PyFloat.zero (rate_of (progress_line k n e)) = true ->
  remaining_of (progress_line k n e)
  = PyFloat.div (PyFloat.of_int (n - k)) (rate_of (progress_line k n e)).
Proof. cbn [rate_of remaining_of progress_line]. intros Hr. rewrite Hr. reflexivity. Qed.

Lemma remaining_of_progress_line_nonpos k n e :
  PyFloat.ltb PyFloat.zero (rate_of (progress_line k n e)) = false ->
  remaining_of (progress_line k n e) = PyFloat.zero.
Proof. cbn [rate_of remaining_of progress_line]. intros Hr. rewrite Hr. reflexivity. Qed.

(** A number divided by itself is [1.0], without rounding. *)
Lemma int_div_same n :
  0 < n -> PyFloat.int_div n n = S754_finite false 4503599627370496 (-52).
Proof.
  intros Hn. destruct n as [| m | m]; try lia.
  unfold PyFloat.int_div, PyFloat.unrounded, SFdiv, SFdiv_core_binary.
  replace (Zdigits2 (Z.pos m) + 0 - (Zdigits2 (Z.pos m) + 0)) with 0 by lia.
  change (IntDef.Z.min (fexp PyFloat.prec PyFloat.emax 0) (0 - 0)) with (-53).
  change (0 - 0 - -53) with 53.
  cbv iota.
  assert (E : Z.div_eucl (Z.shiftl (Z.pos m) 53) (Z.pos m) = (9007199254740992, 0)).
  { rewrite Z.shiftl_mul_pow2 by lia. rewrite (Z.mul_comm (Z.pos m)).
    pose proof (Z.div_mul (2 ^ 53) (Z.pos m) ltac:(lia)) as Hq.
    pose proof (Z.mod_mul (2 ^ 53) (Z.pos m) ltac:(lia)) as Hr.
    unfold Z.div, Z.modulo in Hq, Hr.
    destruct (Z.div_eucl (2 ^ 53 * Z.pos m) (Z.pos m)) as [q r].
    subst q r. reflexivity. }
  rewrite E.
  assert (L : new_location (Z.pos m) 0 = loc_Exact).
  { unfold new_location. destruct (Z.even (Z.pos m)); reflexivity. }
  rewrite L. vm_compute. reflexivity.
Qed.

Lemma int_div_zero n : 0 < n -> PyFloat.int_div 0 n = PyFloat.zero.
Proof. intros Hn. destruct n; try lia. reflexivity. Qed.

Lemma percentage_of_progress_line_none n e :
  0 < n -> percentage_of (progress_line 0 n e) = PyFloat.zero.
Proof.
  intros Hn. cbn [percentage_of progress_line]. rewrite (int_div_zero n Hn).
  vm_compute. reflexivity.
Qed.

Lemma percentage_of_progress_line_all n e :
  0 < n -> percentage_of (progress_line n n e) = PyFloat.of_int 100.
Proof.
  intros Hn. cbn [percentage_of progress_line]. rewrite (int_div_same n Hn).
  vm_compute. reflexivity.
Qed.

(** Nothing done yet in a positive time is the rate [0.0]. *)
Lemma zero_rate e :
  PyFloat.ltb PyFloat.zero e = true -> PyFloat.div (PyFloat.of_int 0) e = PyFloat.zero.
Proof.
  destruct e as [s | s | | s m x]; try discriminate; destruct s; try discriminate;
    reflexivity.
Qed.

Lemma remaining_of_progress_line_zero k n e :
  k = 0 \/ PyFloat.ltb PyFloat.zero e = false ->
  remaining_of (progress_line k n e) = PyFloat.zero.
Proof.
  intros H. apply remaining_of_progress_line_nonpos.
  destruct (PyFloat.ltb PyFloat.zero e) eqn:He.
  - destruct H as [-> | H]; [| discriminate H].
    rewrite (rate_of_progress_line_pos 0 n e He), (zero_rate e He). reflexivity.
  - rewrite (rate_of_progress_line_nonpos k n e He). reflexivity.
Qed.

(** Handling one future always returns, with [completed_count] one higher. *)
Lemma on_completed_increments world n handled future c st :
  exists st', on_completed world n handled future c st = (Val (c + 1), st').
Proof.
  destruct future as [[project_id project_name] [ex |]]; simpl; eexists; reflexivity.
Qed.

(** A future whose task returned prints the progress line of the new count. *)
Lemma on_completed_success world n handled project_id project_name c st :
  on_completed world n handled (project_id, project_name, None) c st
  = (Val (c + 1),
     State (totals st) (totals_log st) (errors_log st)
           (stdout st ++ [progress_line (c + 1) n (clock world handled)])
           (invoked st) (requests st)).
Proof. reflexivity. Qed.

Lemma as_completed_loop_counts world n futures :
  forall handled c st,
    exists st', as_completed_loop world n handled futures c st
                = (Val (c + Z.of_nat (length futures)), st').
Proof.
  induction futures as [| future futures IH]; intros handled c st.
  - exists st. simpl. unfold ret. do 2 f_equal. lia.
  - destruct (on_completed_increments world n (S handled) future c st) as [st1 E1].
    destruct (IH (S handled) (c + 1) st1) as [st2 E2].
    exists st2. simpl. unfold bind. rewrite E1, E2. do 2 f_equal. lia.
Qed.

Lemma as_completed_loop_app world n pre post :
  forall handled c st,
    as_completed_loop world n handled (pre ++ post) c st
    = bind (as_completed_loop world n handled pre c)
           (as_completed_loop world n (handled + length pre) post) st.
Proof.
  induction pre as [| future pre IH]; intros handled c st.
  - simpl. rewrite Nat.add_0_r. reflexivity.
  - destruct (on_completed_increments world n (S handled) future c st) as [st1 E1].
    simpl. unfold bind. rewrite E1. rewrite IH. unfold bind.
    replace (S handled + length pre)%nat with (handled + S (length pre))%nat by lia.
    reflexivity.
Qed.

(** C7, as amended.  When [completed_count] has reached [k] of [n]
    projects and the elapsed time is the float [e], the progress line
    shows the percentage [(k/n)*100] as binary64 computes it, quotient
    first and both steps rounded, which is 0.0 for [k = 0] and 100.0 for
    [k = n]; the rate [k/e] when [e > 0] and 0 otherwise; and the
    remaining time [(n - k)/rate] when [rate > 0] and 0 otherwise, so 0
    whenever [k = 0] or [e > 0] does not hold.  The loop
    over the completed futures has incremented [completed_count] once per
    future, and a future whose task returned prints the line of the count
    reached with it. *)
Theorem progress_line_figures :
  forall (k n : Z) (e : PyFloat.float),
    0 < n ->
    percentage_of (progress_line k n e)
    = PyFloat.mul (PyFloat.int_div k n) (PyFloat.of_int 100) /\
    (k = 0 -> percentage_of (progress_line k n e) = PyFloat.zero) /\
    (k = n -> percentage_of (progress_line k n e) = PyFloat.of_int 100) /\
    (PyFloat.ltb PyFloat.zero e = true ->
     rate_of (progress_line k n e) = PyFloat.div (PyFloat.of_int k) e) /\
    (PyFloat.ltb PyFloat.zero e = false -> rate_of (progress_line k n e) = PyFloat.zero) /\
    (PyFloat.ltb PyFloat.zero (rate_of (progress_line k n e)) = true ->
     remaining_of (progress_line k n e)
     = PyFloat.div (PyFloat.of_int (n - k)) (rate_of (progress_line k n e))) /\
    (PyFloat.ltb PyFloat.zero (rate_of (progress_line k n e)) = false ->
     remaining_of (progress_line k n e) = PyFloat.zero) /\
    (k = 0 \/ PyFloat.ltb PyFloat.zero e = false ->
     remaining_of (progress_line k n e) = PyFloat.zero) /\
    (forall world futures project_id project_name st,
        Z.of_nat (length futures) + 1 = k ->
        clock world (length futures + 1) = e ->
        exists st',
          as_completed_loop world n 0 (futures ++ [(project_id, project_name, None)]) 0 st
          = (Val k, st') /\
          last (stdout st') = Some (progress_line k n e)).
Proof.
  intros k n e Hn.
  split; [reflexivity |].
  split; [intros ->; apply percentage_of_progress_line_none, Hn |].
  split; [intros ->; apply percentage_of_progress_line_all, Hn |].
  split; [apply rate_of_progress_line_pos |].
  split; [apply rate_of_progress_line_nonpos |].
  split; [apply remaining_of_progress_line_pos |].
  split; [apply remaining_of_progress_line_nonpos |].
  split; [apply remaining_of_progress_line_zero |].
  intros world futures project_id project_name st Hk He.
  destruct (as_completed_loop_counts world n futures 0%nat 0 st) as [st1 E1].
  rewrite as_completed_loop_app. unfold bind at 1. rewrite E1.
  cbn [as_completed_loop]. unfold bind at 1.
  rewrite on_completed_success.
  replace (S (0 + length futures)) with (length futures + 1)%nat by lia.
  rewrite He. replace (0 + Z.of_nat (length futures) + 1) with k by lia.
  eexists. split; [reflexivity |].
  cbn [stdout]. apply last_snoc.
Qed.

Lemma progress_line_figures_witness :
  0 < 4 /\
  percentage_of (progress_line 1 4 (PyFloat.of_int 2)) = PyFloat.of_int 25 /\
  (PyFloat.value (rate_of (progress_line 1 4 (PyFloat.of_int 2))) == 1 # 2)%Q /\
  remaining_of (progress_line 1 4 (PyFloat.of_int 2)) = PyFloat.of_int 6 /\
  remaining_of (progress_line 0 4 (PyFloat.of_int 2)) = PyFloat.zero /\
  remaining_of (progress_line 1 4 PyFloat.zero) = PyFloat.zero /\
  percentage_of (progress_line 4 4 (PyFloat.of_int 2)) = PyFloat.of_int 100.
Proof.
  assert (Hn : 0 < 4) by lia.
  destruct (progress_line_figures 1 4 (PyFloat.of_int 2) Hn)
    as (Hpercentage & _ & _ & Hrate & _ & Hremaining & _).
  split; [exact Hn |].
  split; [rewrite Hpercentage; vm_compute; reflexivity |].
  split; [rewrite Hrate by reflexivity; vm_compute; reflexivity |].
  split; [rewrite Hremaining by reflexivity; vm_compute; reflexivity |].
  split; [apply (progress_line_figures 0 4 (PyFloat.of_int 2) Hn); left; reflexivity |].
  split; [apply (progress_line_figures 1 4 PyFloat.zero Hn); right; reflexivity |].
  apply (progress_line_figures 4 4 (PyFloat.of_int 2) Hn). reflexivity.
Defined.

(** C7 as the specification words it fails: the percentage is not the
    number [100*k/n].  At 7 of 25 projects the quotient [0.28] is rounded,
    and its product with 100 is the float next above 28, while [100*7/25]
    is 28; at 23 of 80 the percentage is the float next below 28.75, which
    one decimal shows as 28.7 where 28.75 shows as 28.8. *)
Lemma percentage_rounds_twice :
  percentage_of (progress_line 7 25 (PyFloat.of_int 2))
  = S754_finite false 7881299347898369 (-48) /\
  PyFloat.int_div (100 * 7) 25 = S754_finite false 7881299347898368 (-48) /\
  PyFloat.of_int 28 = S754_finite false 7881299347898368 (-48) /\
  ~ percentage_as_specified 7 25 (PyFloat.of_int 2) /\
  percentage_of (progress_line 23 80 (PyFloat.of_int 2))
  = S754_finite false 8092405580431359 (-48) /\
  PyFloat.int_div (100 * 23) 80 = S754_finite false 8092405580431360 (-48) /\
  ~ percentage_as_specified 23 80 (PyFloat.of_int 2).
Proof.
  split; [vm_compute; reflexivity |]. split; [vm_compute; reflexivity |].
  split; [vm_compute; reflexivity |].
  split; [unfold percentage_as_specified; vm_compute; intros H; discriminate H |].
  split; [vm_compute; reflexivity |]. split; [vm_compute; reflexivity |].
  unfold percentage_as_specified. vm_compute. intros H. discriminate H.
Qed.

Lemma submit_projects_length fuel args world projects :
  forall st futures st1,
    submit_projects fuel args world projects st = (Val futures, st1) ->
    length futures = length projects.
Proof.
  induction projects as [| [project_id project_name] projects IH];
    intros st futures st1 H.
  - inversion H. reflexivity.
  - simpl in H.
    apply bind_val_inv in H. destruct H as (exception & st2 & _ & H).
    apply bind_val_inv in H. destruct H as (futures' & st3 & Hrest & H).
    inversion H. subst. simpl. f_equal. eapply IH. exact Hrest.
Qed.

(** C8, as amended.  In the parallel mode every future of an account task,
    whether the task returned or raised, increments [completed_count]
    exactly once when it is handled: after the futures [pre] the count is
    the length of [pre], which never exceeds the number of projects, and at
    the end it is the number of projects.  In debug mode the sequential
    loop does not touch [completed_count], which stays 0. *)
Theorem completed_count_per_mode :
  forall (fuel : nat) (args : Args) (world : cloud) (projects : list (string * string))
         (st : state),
    (forall n handled future c st0,
        exists st', on_completed world n handled future c st0 = (Val (c + 1), st')) /\
    (debug_mode args = false ->
     forall futures st1,
       submit_projects fuel args world projects st = (Val futures, st1) ->
       (forall pre post,
           futures = pre ++ post ->
           exists st2,
             as_completed_loop world (Z.of_nat (length projects)) 0 pre 0 st1
             = (Val (Z.of_nat (length pre)), st2) /\
             0 <= Z.of_nat (length pre) <= Z.of_nat (length projects)) /\
       exists st',
         scan fuel args world projects st = (Val (Z.of_nat (length projects)), st')) /\
    (debug_mode args = true ->
     forall completed_count st',
       scan fuel args world projects st = (Val completed_count, st') ->
       completed_count = 0).
Proof.
  intros fuel args world projects st.
  split; [intros; apply on_completed_increments |].
  split.
  - intros Hmode futures st1 Hsubmit.
    pose proof (submit_projects_length _ _ _ _ _ _ _ Hsubmit) as Hlen.
    split.
    + intros pre post ->.
      destruct (as_completed_loop_counts world (Z.of_nat (length projects)) pre 0%nat 0 st1)
        as [st2 E].
      exists st2. split; [exact E |].
      rewrite length_app in Hlen. lia.
    + destruct (as_completed_loop_counts world (Z.of_nat (length projects)) futures
                  0%nat 0 st1) as [st2 E].
      exists st2. unfold scan. rewrite Hmode. unfold bind. rewrite Hsubmit, E.
      rewrite Hlen. reflexivity.
  - intros Hmode completed_count st' H.
    unfold scan in H. rewrite Hmode in H.
    apply bind_val_inv in H. destruct H as (u & st1 & _ & H).
    inversion H. reflexivity.
Qed.

Lemma completed_count_per_mode_witness :
  debug_mode Mock.args = false /\
  fst (submit_projects 2 Mock.args Mock.mixed_world [("p", "P"); ("q", "Q")] state0)
  = Val [("p", "P", None);
         ("q", "Q",
          Some "cannot access local variable 'client' where it is not associated with a value")]
  /\
  exists st',
    scan 2 Mock.args Mock.mixed_world [("p", "P"); ("q", "Q")] state0
    = (Val (Z.of_nat (length [("p", "P"); ("q", "Q")])), st').
Proof.
  split; [reflexivity |]. split; [vm_compute; reflexivity |].
  refine (proj2 (proj1 (proj2 (completed_count_per_mode 2 Mock.args Mock.mixed_world
                                 [("p", "P"); ("q", "Q")] state0))
                       eq_refl _ _ _)).
  vm_compute. reflexivity.
Defined.

(** C8 as the specification words it fails in debug mode: the scan of one
    project returns with [completed_count] still 0. *)
Lemma debug_scan_leaves_completed_count :
  fst (scan 2 Mock.debug_args (Mock.world Mock.no_files (Mock.project [])) [("p", "P")]
         state0) = Val 0 /\
  Z.of_nat (length [("p", "P")]) = 1 /\
  ~ counts_every_task 2 Mock.debug_args (Mock.world Mock.no_files (Mock.project []))
      [("p", "P")] state0.
Proof.
  split; [vm_compute; reflexivity |]. split; [reflexivity |].
  intros H.
  destruct (scan 2 Mock.debug_args (Mock.world Mock.no_files (Mock.project []))
              [("p", "P")] state0) as [r st'] eqn:E.
  assert (Hr : r = Val 0).
  { change r with (fst (r, st')). rewrite <- E. vm_compute. reflexivity. }
  subst r. specialize (H 0 st' E). discriminate H.
Qed.

(** ** Start-up *)

(** An out-of-range tunable ends the script in the module-level checks,
    with one message and exit status 1. *)
Lemma out_of_range_exits_1 fuel args world st :
  (max_image_tags args < 1 \/ 1000 < max_image_tags args \/
   max_workers args < 1 \/ 1000 < max_workers args) ->
  exists text,
    script fuel args world st
    = (Exit 1, State (totals st) (totals_log st) (errors_log st) (stdout st ++ [Line text])
                     (invoked st) (requests st)).
Proof.
  intros H. unfold script, check_args.
  destruct ((max_image_tags args <? 1) || (1000 <? max_image_tags args)) eqn:Etags.
  - eexists. reflexivity.
  - destruct ((max_workers args <? 1) || (1000 <? max_workers args)) eqn:Eworkers.
    + destruct st. eexists. reflexivity.
    + exfalso. apply orb_false_iff in Etags, Eworkers.
      destruct Etags as [E1 E2], Eworkers as [E3 E4].
      apply Z.ltb_ge in E1, E2, E3, E4. lia.
Qed.

(** With the tunables in range the checks pass and [main] runs. *)
Lemma in_range_runs_main fuel args world st :
  1 <= max_image_tags args <= 1000 -> 1 <= max_workers args <= 1000 ->
  script fuel args world st = main fuel args world st.
Proof.
  intros Htags Hworkers. unfold script, check_args.
  assert (E1 : (max_image_tags args <? 1) || (1000 <? max_image_tags args) = false)
    by (apply orb_false_iff; split; apply Z.ltb_ge; lia).
  assert (E2 : (max_workers args <? 1) || (1000 <? max_workers args) = false)
    by (apply orb_false_iff; split; apply Z.ltb_ge; lia).
  rewrite E1, E2. simpl. unfold bind, ret. destruct st. reflexivity.
Qed.

(** C4, where the code departs from it.  With [--projects] and no file
    [projects.txt] the script prints and logs three error lines and leaves
    through [sys.exit()] without an argument before any dispatch, which is
    exit status 0, not a non-zero one. *)
Theorem missing_projects_file_exit_status :
  fst (script 1 Mock.projects_args (Mock.world Mock.no_files (Mock.project [])) state0)
  = Exit 0 /\
  exit_status
    (fst (script 1 Mock.projects_args (Mock.world Mock.no_files (Mock.project [])) state0))
  = Some 0 /\
  errors_log
    (snd (script 1 Mock.projects_args (Mock.world Mock.no_files (Mock.project [])) state0))
  = ["ERROR: get_gcp_projects_from_file() projects.txt does not exist.";
     "ERROR: get_gcp_projects_from_file() Create a file named projects.txt and add each GCP Project ID to scan, one per line.";
     "ERROR: get_gcp_projects_from_file() Exiting..."] /\
  invoked
    (snd (script 1 Mock.projects_args (Mock.world Mock.no_files (Mock.project [])) state0))
  = [] /\
  requests
    (snd (script 1 Mock.projects_args (Mock.world Mock.no_files (Mock.project [])) state0))
  = 0%nat.
Proof.
  repeat split; vm_compute; reflexivity.
Qed.

(** ** The dispatch of one project *)

(** Apart from the bucket probe the two branches of [get_gcp_resources]
    select the same probes. *)
Lemma selection_agrees_but_for_buckets args service_list regions_list :
  PyStr.mem "storage.googleapis.com" service_list
  = PyStr.mem "storage-api.googleapis.com" service_list ->
  debug_calls args service_list regions_list
  = parallel_submits args service_list regions_list.
Proof.
  intros H. unfold debug_calls, parallel_submits, gate. rewrite H. reflexivity.
Qed.

(** C5, where the code departs from it.  The bucket probe is gated by
    [storage.googleapis.com] in the debug branch and by
    [storage-api.googleapis.com] in the parallel branch: a project with
    only the first enabled has its buckets counted in debug mode only, a
    project with only the second in parallel mode only. *)
Theorem bucket_probe_gated_by_two_services :
  debug_calls Mock.args ["storage.googleapis.com"] [] = [Buckets] /\
  parallel_submits Mock.args ["storage.googleapis.com"] [] = [] /\
  debug_calls Mock.args ["storage-api.googleapis.com"] [] = [] /\
  parallel_submits Mock.args ["storage-api.googleapis.com"] [] = [Buckets].
Proof.
  repeat split; reflexivity.
Qed.

(** C3, where the code departs from it.  In the parallel mode a bucket
    listing whose second page fails adds nothing to [totals] and the
    Cloud SQL probe of the same project still runs and counts its three
    instances, but no error is recorded: the exception stays in the future
    and is only counted in a local variable. *)
Theorem failed_page_leaves_no_error_record :
  fst (get_gcp_resources 3 Mock.args Mock.flaky_buckets "p" "P" state0) = Val 1 /\
  errors_log (snd (get_gcp_resources 3 Mock.args Mock.flaky_buckets "p" "P" state0)) = [] /\
  total (totals (snd (get_gcp_resources 3 Mock.args Mock.flaky_buckets "p" "P" state0)))
        "Data Buckets" = 0 /\
  total (totals (snd (get_gcp_resources 3 Mock.args Mock.flaky_buckets "p" "P" state0)))
        "PaaS Databases" = 3 /\
  invoked (snd (get_gcp_resources 3 Mock.args Mock.flaky_buckets "p" "P" state0))
  = ["get_gcp_resources"; "get_gcp_buckets"; "get_gcp_cloudsql_instances"].
Proof.
  repeat split; vm_compute; reflexivity.
Qed.

(** In general: with the tunables in range, [--projects] without [--all]
    and [--exclude], and no file [projects.txt], the script leaves with
    exit status 0 after three error lines and before any dispatch. *)
Lemma missing_projects_file_exits_0 fuel args world st :
  1 <= max_image_tags args <= 1000 -> 1 <= max_workers args <= 1000 ->
  input_excluded_folders args = false -> all args = false ->
  input_projects args = true -> files world input_file = None ->
  exists e1 e2 e3,
    script fuel args world st
    = (Exit 0, State (totals st) (totals_log st) (errors_log st ++ [e1; e2; e3])
                     (stdout st ++ [Line e1; Line e2; Line e3])
                     (invoked st) (requests st)).
Proof.
  intros Htags Hworkers Hexclude Hall Hprojects Hfile.
  rewrite in_range_runs_main by assumption.
  unfold main. rewrite Hexclude, Hall, Hprojects.
  unfold get_gcp_projects_from_file. rewrite Hfile.
  do 3 eexists. unfold bind, ret, error_print, modify, sys_exit. simpl.
  rewrite <- !app_assoc. simpl. reflexivity.
Qed.

(** With [--exclude] and no file [excluded-folders.txt] the script prints
    and logs three error lines and leaves through [sys.exit()] without an
    argument, which is exit status 0, before any project is listed or
    scanned. *)
Lemma missing_excluded_folders_file_exits_0 fuel args world st :
  1 <= max_image_tags args <= 1000 -> 1 <= max_workers args <= 1000 ->
  input_excluded_folders args = true -> files world excluded_folders_file = None ->
  exists e1 e2 e3,
    script fuel args world st
    = (Exit 0, State (totals st) (totals_log st) (errors_log st ++ [e1; e2; e3])
                     (stdout st ++ [Line e1; Line e2; Line e3])
                     (invoked st) (requests st)).
Proof.
  intros Htags Hworkers Hexclude Hfile.
  rewrite in_range_runs_main by assumption.
  unfold main. rewrite Hexclude.
  unfold get_excluded_folders_from_file. rewrite Hfile.
  do 3 eexists. unfold bind, ret, error_print, modify, sys_exit. simpl.
  rewrite <- !app_assoc. simpl. reflexivity.
Qed.

(** *** Which functions are entered *)

Lemma keeps_ret {A} (a : A) : keeps_invoked (ret a).
Proof. intros st. reflexivity. Qed.

Lemma keeps_raise {A} (ex : string) : keeps_invoked (@raise A ex).
Proof. intros st. reflexivity. Qed.

Lemma keeps_hang {A} : keeps_invoked (@hang A).
Proof. intros st. reflexivity. Qed.

Lemma keeps_bind {A B} (m : prog A) (k : A -> prog B) :
  keeps_invoked m -> (forall a, keeps_invoked (k a)) -> keeps_invoked (bind m k).
Proof.
  intros Hm Hk st. unfold bind. specialize (Hm st).
  destruct (m st) as [[a | ex | c |] st']; simpl in *; try exact Hm.
  rewrite (Hk a st'). exact Hm.
Qed.

Lemma keeps_try_except {A} (body : prog A) (handler : string -> prog A) :
  keeps_invoked body -> (forall ex, keeps_invoked (handler ex)) ->
  keeps_invoked (try_except body handler).
Proof.
  intros Hb Hh st. unfold try_except. specialize (Hb st).
  destruct (body st) as [[a | ex | c |] st']; simpl in *; try exact Hb.
  rewrite (Hh ex st'). exact Hb.
Qed.

Lemma keeps_error_print caller details project :
  keeps_invoked (error_print caller details project).
Proof. intros st. reflexivity. Qed.

Lemma keeps_progress_print n t p r : keeps_invoked (progress_print n t p r).
Proof. intros st. reflexivity. Qed.

Lemma keeps_totals_add incs : keeps_invoked (totals_add incs).
Proof. intros st. reflexivity. Qed.

Lemma keeps_request_execute {A} (l : listing A) request :
  keeps_invoked (request_execute l request).
Proof.
  intros st. unfold request_execute, bind, modify.
  destruct (execute l request); reflexivity.
Qed.

Lemma keeps_get_execute {A} (answer : executed A) : keeps_invoked (get_execute answer).
Proof.
  intros st. unfold get_execute, bind, modify. destruct answer; reflexivity.
Qed.

Lemma keeps_when condition body :
  keeps_invoked body -> keeps_invoked (when condition body).
Proof. intros H. destruct condition; simpl; [exact H | apply keeps_ret]. Qed.

Lemma keeps_for_each {A V} (xs : list A) (body : A -> V -> prog V) :
  (forall x v, keeps_invoked (body x v)) -> forall v, keeps_invoked (for_each xs body v).
Proof.
  intros Hbody. induction xs as [| x xs IH]; intros v; simpl.
  - apply keeps_ret.
  - apply keeps_bind; [apply Hbody | exact IH].
Qed.

Lemma keeps_while_request {A V} fuel (l : listing A) (body : response A -> V -> prog V) :
  (forall r v, keeps_invoked (body r v)) ->
  forall request v, keeps_invoked (while_request fuel l body request v).
Proof.
  intros Hbody. induction fuel as [| fuel IH]; intros request v; simpl.
  - apply keeps_hang.
  - apply keeps_bind.
    + apply keeps_try_except.
      * apply keeps_bind; [apply keeps_request_execute |].
        intros r. apply keeps_bind; [apply Hbody | intros v'; apply keeps_ret].
      * intros ex. apply keeps_ret.
    + intros [[r v'] | ex]; [| apply keeps_ret].
      destruct (nextPageToken r); [apply IH | apply keeps_ret].
Qed.

Lemma keeps_uncaught {V} (loop : prog (V * option string)) :
  keeps_invoked loop -> keeps_invoked (uncaught loop).
Proof.
  intros H. apply keeps_bind; [exact H |].
  intros [v [ex |]]; simpl; [apply keeps_raise | apply keeps_ret].
Qed.

(** One step of the proof that a piece of the script enters no function. *)
Ltac keeps_step :=
  first
    [ apply keeps_ret | apply keeps_raise | apply keeps_hang
    | apply keeps_error_print | apply keeps_progress_print | apply keeps_totals_add
    | apply keeps_request_execute | apply keeps_get_execute
    | apply keeps_uncaught | apply keeps_when
    | apply keeps_while_request; intros
    | apply keeps_for_each; intros
    | apply keeps_try_except; [| intros]
    | apply keeps_bind; [| intros]
    | match goal with
      | |- keeps_invoked (match ?x with _ => _ end) => destruct x
      end ].

Ltac keeps := repeat keeps_step.

Lemma keeps_get_disk_image_details api project_id d :
  keeps_invoked (get_disk_image_details api project_id d).
Proof. unfold get_disk_image_details. keeps. Qed.

Lemma keeps_count_disk api project_id d c :
  keeps_invoked (count_disk api project_id d c).
Proof.
  unfold count_disk. destruct (boot d); [| apply keeps_ret].
  apply keeps_bind; [apply keeps_get_disk_image_details | intros; keeps].
Qed.

Lemma keeps_count_instance api project_id i c :
  keeps_invoked (count_instance api project_id i c).
Proof.
  unfold count_instance. keeps. apply keeps_count_disk.
Qed.

Lemma keeps_count_zone api project_id item c :
  keeps_invoked (count_zone api project_id item c).
Proof.
  unfold count_zone. keeps. apply keeps_count_instance.
Qed.

Lemma keeps_count_repository fuel args api project_id region repository n :
  keeps_invoked (count_repository fuel args api project_id region repository n).
Proof. unfold count_repository. keeps. Qed.

Lemma keeps_get_gcp_spanner_databases fuel api instance_id :
  keeps_invoked (get_gcp_spanner_databases fuel api instance_id).
Proof. unfold get_gcp_spanner_databases, count_entries. keeps. Qed.

Lemma keeps_get_gcp_enabled_services fuel api project_id :
  keeps_invoked (get_gcp_enabled_services fuel api project_id).
Proof. unfold get_gcp_enabled_services. keeps. Qed.

Lemma keeps_get_gcp_regions fuel api project_id :
  keeps_invoked (get_gcp_regions fuel api project_id).
Proof. unfold get_gcp_regions. keeps. Qed.

Lemma enter_then {A} (f : string) (m : prog A) st :
  keeps_invoked m -> invoked (snd ((enter f ;; m) st)) = invoked st ++ [f].
Proof.
  intros H. unfold bind, enter, modify. rewrite H. reflexivity.
Qed.

(** A probe enters itself and nothing else. *)
Lemma run_probe_invoked fuel args api project_id project_name p st :
  invoked (snd (run_probe fuel args api project_id project_name p st))
  = invoked st ++ [probe_name p].
Proof.
  destruct p; simpl; apply enter_then.
  - keeps. apply keeps_count_zone.
  - keeps.
  - unfold count_entries. keeps.
  - keeps.
  - unfold count_entries. keeps.
  - unfold count_entries. keeps.
  - keeps. apply keeps_get_gcp_spanner_databases.
  - unfold count_entries. keeps.
  - keeps. apply keeps_count_repository.
Qed.

Lemma services_and_regions_invoked fuel api project_id st r st1 :
  services_and_regions fuel api project_id st = (r, st1) ->
  invoked st1 = invoked st ++ ["get_gcp_resources"].
Proof.
  intros H. change st1 with (snd (r, st1)). rewrite <- H.
  unfold services_and_regions. apply enter_then.
  apply keeps_bind; [apply keeps_get_gcp_enabled_services |].
  intros service_list. apply keeps_bind; [| intros; apply keeps_ret].
  destruct (PyStr.mem "compute.googleapis.com" service_list);
    [apply keeps_get_gcp_regions | apply keeps_ret].
Qed.

(** After its prelude [get_gcp_resources] goes on with the dispatch. *)
Lemma get_gcp_resources_after_prelude fuel args api project_id project_name st
    service_list regions_list st1 :
  services_and_regions fuel api project_id st = (Val (service_list, regions_list), st1) ->
  get_gcp_resources fuel args api project_id project_name st
  = match service_list with
    | [] => ret 0
    | _ =>
        if debug_mode args then
          call_all fuel args api project_id project_name
                   (debug_calls args service_list regions_list) ;;
          ret 0
        else
          let* futures :=
            submit_all fuel args api project_id project_name
                       (parallel_submits args service_list regions_list) in
          ret (count_exceptions futures 0)
    end st1.
Proof.
  unfold services_and_regions, get_gcp_resources, bind.
  destruct (enter "get_gcp_resources" st) as [[u | ex | c |] st0]; try discriminate.
  destruct (get_gcp_enabled_services fuel api project_id st0)
    as [[services | ex | c |] st2]; try discriminate.
  destruct ((if PyStr.mem "compute.googleapis.com" services
             then get_gcp_regions fuel api project_id else ret []) st2)
    as [[regions | ex | c |] st3]; try discriminate.
  unfold ret. intros H. inversion H. subst. reflexivity.
Qed.

Lemma debug_calls_no_service args regions_list : debug_calls args [] regions_list = [].
Proof.
  unfold debug_calls, gate. simpl. rewrite !andb_false_r. reflexivity.
Qed.

(** A probe whose client or first request cannot be built records the
    error and returns. *)
Lemma run_probe_construct_error fuel args api project_id project_name p ex st :
  construct_error (probe_construct api p) = Some ex ->
  run_probe fuel args api project_id project_name p st
  = (enter (probe_name p) ;; error_print (probe_name p) ex project_id) st.
Proof.
  intros H.
  destruct p; simpl in H |- *;
    [ unfold get_gce_instances_and_gke_instances;
      destruct (construct (compute_instances api))
    | unfold get_gcp_gke_clusters; destruct (construct (container_clusters api))
    | unfold get_gcp_cloud_functions; destruct (construct (cloudfunctions_functions api))
    | unfold get_gcp_cloudrun_revisions; destruct (construct (run_revisions api))
    | unfold get_gcp_buckets; destruct (construct (storage_buckets api))
    | unfold get_gcp_cloudsql_instances; destruct (construct (sqladmin_instances api))
    | unfold get_gcp_spanner_instances; destruct (construct (spanner_instances api))
    | unfold get_gcp_bigquery_datasets; destruct (construct (bigquery_datasets api))
    | unfold get_gcp_gcr_images;
      destruct (construct (artifactregistry_repositories api region)) ];
    simpl in H; try discriminate H; inversion H; subst; reflexivity.
Qed.

(** In debug mode the dispatch is the sequence of the selected calls. *)
Lemma debug_dispatch fuel args api project_id project_name st st1
    service_list regions_list p rest :
  debug_mode args = true ->
  services_and_regions fuel api project_id st = (Val (service_list, regions_list), st1) ->
  debug_calls args service_list regions_list = p :: rest ->
  get_gcp_resources fuel args api project_id project_name st
  = (call_all fuel args api project_id project_name (p :: rest) ;; ret 0) st1.
Proof.
  intros Hmode Hprelude Hcalls.
  rewrite (get_gcp_resources_after_prelude _ _ _ _ _ _ _ _ _ Hprelude).
  destruct service_list as [| service services].
  - rewrite debug_calls_no_service in Hcalls. discriminate Hcalls.
  - rewrite Hmode, Hcalls. reflexivity.
Qed.

(** In debug mode as in the parallel mode, a probe whose client or first
    request cannot be built catches the exception, records it with
    [error_print] and returns; [get_gcp_resources] goes on with the next
    probe. *)
Lemma debug_dispatch_construct_error fuel args api project_id project_name st st1
    service_list regions_list p rest ex :
  debug_mode args = true ->
  services_and_regions fuel api project_id st = (Val (service_list, regions_list), st1) ->
  debug_calls args service_list regions_list = p :: rest ->
  construct_error (probe_construct api p) = Some ex ->
  exists text st2,
    run_probe fuel args api project_id project_name p st1 = (Val tt, st2) /\
    errors_log st2 = errors_log st1 ++ [text] /\
    totals st2 = totals st1 /\
    get_gcp_resources fuel args api project_id project_name st
    = (call_all fuel args api project_id project_name rest ;; ret 0) st2.
Proof.
  intros Hmode Hprelude Hcalls Hex.
  pose proof (run_probe_construct_error fuel args _ project_id project_name p ex st1 Hex)
    as Hrun.
  eexists. eexists. split; [exact Hrun |].
  split; [reflexivity |]. split; [reflexivity |].
  rewrite (debug_dispatch _ _ _ _ _ _ _ _ _ _ _ Hmode Hprelude Hcalls).
  simpl. unfold bind at 1 2. rewrite Hrun. reflexivity.
Qed.

(** In debug mode, when the first invoked probe raises (a page request
    fails, or anything else the probe does not catch), [get_gcp_resources]
    raises the same exception to its caller and ends in the state the
    probe left: it has entered that probe and no other. *)
Theorem debug_dispatch_first_probe :
  forall (fuel : nat) (args : Args) (api : project_apis) (project_id project_name : string)
         (st st1 st2 : state) (service_list regions_list : list string) (p : probe)
         (rest : list probe) (ex : string),
    debug_mode args = true ->
    services_and_regions fuel api project_id st = (Val (service_list, regions_list), st1) ->
    debug_calls args service_list regions_list = p :: rest ->
    run_probe fuel args api project_id project_name p st1 = (Exn ex, st2) ->
    get_gcp_resources fuel args api project_id project_name st = (Exn ex, st2) /\
    invoked st2 = invoked st ++ ["get_gcp_resources"; probe_name p].
Proof.
  intros fuel args api project_id project_name st st1 st2 service_list regions_list p rest
         ex Hmode Hprelude Hcalls Hrun.
  split.
  - rewrite (debug_dispatch _ _ _ _ _ _ _ _ _ _ _ Hmode Hprelude Hcalls).
    simpl. unfold bind. rewrite Hrun. reflexivity.
  - pose proof (run_probe_invoked fuel args api project_id project_name p st1) as Hin.
    rewrite Hrun in Hin. simpl in Hin. rewrite Hin.
    rewrite (services_and_regions_invoked _ _ _ _ _ _ Hprelude).
    rewrite <- app_assoc. reflexivity.
Qed.

Lemma debug_dispatch_first_probe_witness :
  (debug_mode Mock.debug_args = true /\
   fst (services_and_regions 3 Mock.flaky_buckets_debug "p" state0)
   = Val (["sqladmin.googleapis.com"; "storage.googleapis.com"], []) /\
   debug_calls Mock.debug_args ["sqladmin.googleapis.com"; "storage.googleapis.com"] []
   = [Buckets; CloudsqlInstances] /\
   fst (run_probe 3 Mock.debug_args Mock.flaky_buckets_debug "p" "P" Buckets
          (snd (services_and_regions 3 Mock.flaky_buckets_debug "p" state0)))
   = Exn "transport error") /\
  fst (get_gcp_resources 3 Mock.debug_args Mock.flaky_buckets_debug "p" "P" state0)
  = Exn "transport error" /\
  invoked (snd (get_gcp_resources 3 Mock.debug_args Mock.flaky_buckets_debug "p" "P" state0))
  = ["get_gcp_resources"; "get_gcp_buckets"].
Proof.
  assert (H1 : services_and_regions 3 Mock.flaky_buckets_debug "p" state0
               = (Val (["sqladmin.googleapis.com"; "storage.googleapis.com"], []),
                  snd (services_and_regions 3 Mock.flaky_buckets_debug "p" state0)))
    by (apply injective_projections; [vm_compute; reflexivity | reflexivity]).
  assert (H2 : run_probe 3 Mock.debug_args Mock.flaky_buckets_debug "p" "P" Buckets
                 (snd (services_and_regions 3 Mock.flaky_buckets_debug "p" state0))
               = (Exn "transport error",
                  snd (run_probe 3 Mock.debug_args Mock.flaky_buckets_debug "p" "P" Buckets
                         (snd (services_and_regions 3 Mock.flaky_buckets_debug "p" state0)))))
    by (apply injective_projections; [vm_compute; reflexivity | reflexivity]).
  split.
  - split; [reflexivity |]. split; [vm_compute; reflexivity |].
    split; [reflexivity |]. vm_compute. reflexivity.
  - destruct (debug_dispatch_first_probe 3 Mock.debug_args Mock.flaky_buckets_debug
                "p" "P" state0 _ _ _ _ Buckets [CloudsqlInstances] _
                eq_refl H1 eq_refl H2) as [Hraise Hinvoked].
    split.
    + rewrite Hraise. reflexivity.
    + rewrite Hraise. exact Hinvoked.
Defined.

(** C2, where the code departs from it.  [--debug] is documented to exit
    upon the first error, but when the bucket client cannot be built the
    bucket probe, the first one invoked, catches the exception, records
    the error and returns: the Cloud SQL probe is invoked after it and
    [get_gcp_resources] returns instead of raising. *)
Lemma debug_construct_error_is_swallowed :
  fst (get_gcp_resources 3 Mock.debug_args Mock.unbuildable_buckets "p" "P" state0)
  = Val 0 /\
  errors_log (snd (get_gcp_resources 3 Mock.debug_args Mock.unbuildable_buckets
                     "p" "P" state0))
  = ["ERROR: Project: p get_gcp_buckets() credentials"] /\
  invoked (snd (get_gcp_resources 3 Mock.debug_args Mock.unbuildable_buckets
                  "p" "P" state0))
  = ["get_gcp_resources"; "get_gcp_buckets"; "get_gcp_cloudsql_instances"] /\
  first_probe_fails 3 Mock.debug_args Mock.unbuildable_buckets "p" "P" state0 /\
  ~ debug_fails_fast 3 Mock.debug_args Mock.unbuildable_buckets "p" "P" state0.
Proof.
  assert (Hfails : first_probe_fails 3 Mock.debug_args Mock.unbuildable_buckets
                     "p" "P" state0).
  { exists ["sqladmin.googleapis.com"; "storage.googleapis.com"], [],
           (snd (services_and_regions 3 Mock.unbuildable_buckets "p" state0)),
           Buckets, [CloudsqlInstances], (Val tt),
           (snd (run_probe 3 Mock.debug_args Mock.unbuildable_buckets "p" "P" Buckets
                   (snd (services_and_regions 3 Mock.unbuildable_buckets "p" state0)))).
    split; [apply injective_projections; [vm_compute; reflexivity | reflexivity] |].
    split; [vm_compute; reflexivity |].
    split; [apply injective_projections; [vm_compute; reflexivity | reflexivity] |].
    right. vm_compute. discriminate. }
  split; [vm_compute; reflexivity |]. split; [vm_compute; reflexivity |].
  split; [vm_compute; reflexivity |]. split; [exact Hfails |].
  intros H. destruct (H Hfails) as (ex & st' & E & _).
  assert (Hv : fst (get_gcp_resources 3 Mock.debug_args Mock.unbuildable_buckets
                      "p" "P" state0) = Val 0) by (vm_compute; reflexivity).
  rewrite E in Hv. discriminate Hv.
Qed.

(** ** The probes *)

Lemma wp_uncaught {V} (loop : prog (V * option string)) (Q : V -> state -> Prop) st :
  wp loop (fun r st' => snd r = None /\ Q (fst r) st') st -> wp (uncaught loop) Q st.
Proof.
  intros H. apply wp_bind. eapply wp_mono; [exact H |].
  intros [v o] st' [Ho HQ]. simpl in *. subst o. exact HQ.
Qed.

Lemma all_entries_snoc {A} (pre : list (response A)) (r : response A) :
  all_entries (pre ++ [r]) = all_entries pre ++ entries_of r.
Proof.
  unfold all_entries. rewrite map_app, concat_app. simpl. rewrite app_nil_r. reflexivity.
Qed.

Lemma sumZ_app (l l' : list Z) : sumZ (l ++ l') = sumZ l + sumZ l'.
Proof. induction l as [| x l IH]; simpl; [reflexivity | rewrite IH; lia]. Qed.

(** *** Registry images *)

Lemma docker_repositories_app (items items' : list repository) :
  docker_repositories (items ++ items')
  = docker_repositories items ++ docker_repositories items'.
Proof. unfold docker_repositories. rewrite List.filter_app, map_app. reflexivity. Qed.

Lemma fold_collect_repository (items : list repository) (repositories : list string) :
  fold_left collect_repository items repositories
  = repositories ++ docker_repositories items.
Proof.
  revert repositories. induction items as [| item items IH]; intros repositories.
  - simpl. rewrite app_nil_r. reflexivity.
  - simpl. rewrite IH. unfold collect_repository, docker_repositories. simpl.
    destruct (String.eqb (format item) "DOCKER"); simpl.
    + rewrite <- app_assoc. reflexivity.
    + reflexivity.
Qed.

Lemma fold_count_image args (images : list docker_image) (n : Z) :
  fold_left (count_image args) images n
  = n + sumZ (map (image_contribution (max_image_tags args)) images).
Proof.
  revert n. induction images as [| image images IH]; intros n.
  - simpl. lia.
  - simpl. rewrite IH. unfold count_image, image_contribution.
    destruct (image_tags image); lia.
Qed.

Lemma image_contribution_nonneg max_tags image :
  0 <= max_tags -> 0 <= image_contribution max_tags image.
Proof. intros H. unfold image_contribution. destruct (image_tags image); lia. Qed.

Lemma repository_contribution_nonneg max_tags images :
  0 <= max_tags -> 0 <= repository_contribution max_tags images.
Proof.
  intros H. unfold repository_contribution.
  assert (0 <= sumZ (map (image_contribution max_tags) images)).
  { induction images as [| image images IH]; simpl; [lia |].
    pose proof (image_contribution_nonneg max_tags image H). lia. }
  lia.
Qed.

(** One repository: its images are counted page by page, the count is
    capped and added. *)
Lemma wp_count_repository fuel args api project_id region repository n
    (pages : list (response docker_image)) (T : gmap string Z) st :
  construct (artifactregistry_dockerImages api region repository) = Constructed ->
  walks (artifactregistry_dockerImages api region repository) 0 pages ->
  (length pages <= fuel)%nat ->
  totals st = T ->
  wp (count_repository fuel args api project_id region repository n)
     (fun n' st' =>
        n' = n + repository_contribution (max_image_tags args) (all_entries pages)
        /\ totals st' = T) st.
Proof.
  intros Hconstruct Hwalk Hfuel HT. unfold count_repository. rewrite Hconstruct.
  apply wp_bind. apply wp_uncaught.
  eapply wp_mono.
  - apply (wp_while_request _ _
             (fun pre v st' =>
                v = sumZ (map (image_contribution (max_image_tags args)) (all_entries pre))
                /\ totals st' = T) pages) with (pre := []);
      [| exact Hwalk | exact Hfuel | split; [reflexivity | exact HT]].
    intros pre r v st0 _ [Hv Hst]. apply wp_ret. split; [| exact Hst].
    rewrite fold_count_image, Hv, all_entries_snoc, map_app, sumZ_app. reflexivity.
  - intros [v o] st' [Ho [Hv Hst]]. simpl in *. split; [exact Ho |].
    apply wp_ret. split; [| exact Hst].
    unfold repository_contribution. rewrite Hv. reflexivity.
Qed.

(** C9.  With [max_image_tags] in the range the start-up checks enforce,
    a repository listing with the pages [rs] and, for each repository of
    format DOCKER, an image listing with the pages [images repository]:
    [get_gcp_gcr_images] returns and has added to
    [totals['Registry Container Images']] the sum, over the DOCKER
    repositories only, of the repository's count capped at 10000, where an
    image with a [tags] key counts for [min(max_image_tags, len(tags))] and
    an image without for 1.  No other total changes. *)
Theorem registry_images_counted :
  forall (fuel : nat) (args : Args) (api : project_apis)
         (project_id project_name region : string) (st : state)
         (rs : list (response repository))
         (images : string -> list (response docker_image)),
    1 <= max_image_tags args <= 1000 ->
    construct (artifactregistry_repositories api region) = Constructed ->
    walks (artifactregistry_repositories api region) 0 rs ->
    (length rs <= fuel)%nat ->
    (forall repository,
        In repository (docker_repositories (all_entries rs)) ->
        construct (artifactregistry_dockerImages api region repository) = Constructed /\
        walks (artifactregistry_dockerImages api region repository) 0 (images repository) /\
        (length (images repository) <= fuel)%nat) ->
    exists st',
      get_gcp_gcr_images fuel args api project_id project_name region st = (Val tt, st') /\
      total (totals st') "Registry Container Images"
      = total (totals st) "Registry Container Images"
        + sumZ (map (fun repository =>
                       repository_contribution (max_image_tags args)
                                               (all_entries (images repository)))
                    (docker_repositories (all_entries rs))) /\
      (forall r, r <> "Registry Container Images" ->
                 total (totals st') r = total (totals st) r).
Proof.
  intros fuel args api project_id project_name region st rs images
         Htags Hconstruct Hwalk Hfuel Himages.
  set (contribution := fun repository =>
         repository_contribution (max_image_tags args) (all_entries (images repository))).
  assert (H : wp (get_gcp_gcr_images fuel args api project_id project_name region)
                 (fun _ st' =>
                    total (totals st') "Registry Container Images"
                    = total (totals st) "Registry Container Images"
                      + sumZ (map contribution (docker_repositories (all_entries rs)))
                    /\ forall r, r <> "Registry Container Images" ->
                                 total (totals st') r = total (totals st) r) st).
  { unfold get_gcp_gcr_images. apply wp_bind. apply wp_modify.
    rewrite Hconstruct. apply wp_bind. apply wp_uncaught.
    eapply wp_mono.
    - apply (wp_while_request _ _
               (fun pre v st' =>
                  v = docker_repositories (all_entries pre) /\ totals st' = totals st) rs)
        with (pre := []); [| exact Hwalk | exact Hfuel | split; reflexivity].
      intros pre r v st0 _ [Hv Hst]. apply wp_ret. split; [| exact Hst].
      rewrite fold_collect_repository, Hv, all_entries_snoc, docker_repositories_app.
      reflexivity.
    - intros [repositories o] st1 [Ho [Hv Hst1]]. simpl in *. split; [exact Ho |].
      subst repositories. apply wp_bind.
      eapply wp_mono.
      + apply (wp_for_each _
                 (fun pre v st' => v = sumZ (map contribution pre) /\ totals st' = totals st)
                 (docker_repositories (all_entries rs))) with (pre := []);
          [| split; [reflexivity | exact Hst1]].
        intros pre repository v st0 Hin [Hv Hst0].
        destruct (Himages repository Hin) as (Hc & Hw & Hf).
        eapply wp_mono;
          [apply (wp_count_repository fuel args api project_id region repository v
                    (images repository) (totals st) st0 Hc Hw Hf Hst0) |].
        intros v' st' [Hv' Hst']. split; [| exact Hst'].
        rewrite map_app, sumZ_app, Hv', Hv. simpl. unfold contribution. lia.
      + intros n st2 [Hn Hst2]. simpl in Hn. cbv beta.
        assert (Hnonneg : 0 <= n).
        { subst n. clear - Htags.
          induction (docker_repositories (all_entries rs)) as [| x l IH].
          - simpl. lia.
          - simpl. unfold contribution at 1.
            assert (0 <= max_image_tags args) as H0 by lia.
            pose proof (repository_contribution_nonneg (max_image_tags args)
                          (all_entries (images x)) H0). lia. }
        apply wp_when.
        * intros _. split.
          -- simpl. rewrite total_add_total, Hst2, <- Hn. simpl. reflexivity.
          -- intros r Hr. simpl. rewrite total_add_total, Hst2.
             destruct (String.eqb_spec "Registry Container Images" r) as [E | _];
               [congruence | lia].
        * intros Hcond. apply orb_false_iff in Hcond. destruct Hcond as [Hpos _].
          apply Z.ltb_ge in Hpos. split.
          -- rewrite Hst2, <- Hn. lia.
          -- intros r _. rewrite Hst2. reflexivity. }
  apply wp_elim in H. destruct H as ([] & st' & E & Ht & Hframe).
  exists st'. split; [exact E |]. split; [exact Ht | exact Hframe].
Qed.

Lemma registry_images_counted_witness :
  (1 <= max_image_tags Mock.args <= 1000 /\
   construct (artifactregistry_repositories Mock.registry "us") = Constructed /\
   walks (artifactregistry_repositories Mock.registry "us") 0 Mock.registry_repositories /\
   (length Mock.registry_repositories <= 1)%nat /\
   docker_repositories (all_entries Mock.registry_repositories) = ["app"] /\
   walks (artifactregistry_dockerImages Mock.registry "us" "app") 0 Mock.registry_images) /\
  exists st',
    get_gcp_gcr_images 1 Mock.args Mock.registry "p" "P" "us" state0 = (Val tt, st') /\
    total (totals st') "Registry Container Images" = 0 + 6.
Proof.
  split.
  - split; [simpl; lia |]. split; [reflexivity |]. split; [simpl; auto |].
    split; [simpl; lia |]. split; [reflexivity | simpl; auto].
  - destruct (registry_images_counted 1 Mock.args Mock.registry "p" "P" "us" state0
                Mock.registry_repositories (fun _ => Mock.registry_images))
      as (st' & E & Ht & _).
    + simpl. lia.
    + reflexivity.
    + simpl. auto.
    + simpl. lia.
    + intros repository _. split; [reflexivity |]. split; [simpl; auto | simpl; lia].
    + exists st'. split; [exact E | exact Ht].
Defined.

(** *** Compute instances *)

Lemma has_gke_label_mem (labels : list (string * string)) :
  has_gke_label labels = PyStr.mem "goog-gke-node" (map fst labels).
Proof.
  induction labels as [| [label value] labels IH]; [reflexivity |].
  cbn [has_gke_label map fst]. unfold PyStr.mem in *. cbn [existsb].
  rewrite IH, (String.eqb_sym label "goog-gke-node").
  destruct (String.eqb "goog-gke-node" label); reflexivity.
Qed.




(** The two tests of [count_instance] together decide [is_databricks]. *)
Lemma skip_tests_decide_databricks (i : instance) :
  tag_in_tags "Vendor" "Databricks" (default [] (inst_tags i))
  || label_in_labels "databricks" (default [] (inst_labels i))
  = is_databricks i.
Proof.
  unfold is_databricks, has_tag, has_label, tag_in_tags, label_in_labels.
  destruct (inst_tags i) as [[| tag tags] |], (inst_labels i) as [[| label labels] |];
    reflexivity.
Qed.


(** Decides the comparisons of string literals in the goal. *)
Ltac eval_eqb :=
  repeat match goal with
         | |- context [String.eqb ?a ?b] =>
             let v := eval vm_compute in (String.eqb a b) in
             change (String.eqb a b) with v
         end;
  cbv iota.

Lemma count_if_app {A} (f : A -> bool) (l l' : list A) :
  count_if f (l ++ l') = count_if f l + count_if f l'.
Proof. unfold count_if. rewrite List.filter_app, length_app. lia. Qed.

Lemma count_if_one {A} (f : A -> bool) (x : A) :
  count_if f [x] = if f x then 1 else 0.
Proof. unfold count_if. simpl. destruct (f x); reflexivity. Qed.

Lemma count_if_nonneg {A} (f : A -> bool) (l : list A) : 0 <= count_if f l.
Proof. unfold count_if. lia. Qed.








(** * Further properties of the code *)

(** ** Listings that fail on a page *)

Lemma after_requests_tick n st : after_requests n (tick st) = after_requests (S n) st.
Proof. unfold after_requests, tick. simpl. f_equal. lia. Qed.

(** With a body that only computes, a loop whose listing fails after the
    pages [rs] ends with the variables as they were after these pages and
    with the exception, after one request more than pages. *)
Lemma while_request_pure_fails {A V} (l : listing A) (f : response A -> V -> V)
    (rs : list (response A)) (ex : string) :
  forall fuel request vars st,
    fails_after l request rs ex -> (length rs < fuel)%nat ->
    while_request fuel l (fun response vars => ret (f response vars)) request vars st
    = (Val (fold_left (fun vars response => f response vars) rs vars, Some ex),
       after_requests (S (length rs)) st).
Proof.
  induction rs as [| r rs IH]; intros fuel request vars st Hfail Hfuel;
    (destruct fuel as [| fuel]; [simpl in Hfuel; lia |]).
  - simpl in Hfail. simpl. unfold bind, try_except, request_execute, bind, modify.
    rewrite Hfail. reflexivity.
  - destruct Hfail as (Hexec & Htoken & Hrest).
    simpl. unfold bind at 1. unfold try_except, request_execute, bind at 1 2, modify.
    rewrite Hexec. simpl. fold (tick st).
    destruct (nextPageToken r) as [t |]; [| congruence].
    rewrite (IH fuel (S request) (f r vars) (tick st) Hrest) by (simpl in Hfuel; lia).
    rewrite after_requests_tick. reflexivity.
Qed.

Lemma fold_count_entries {A} (rs : list (response A)) (n : Z) :
  fold_left (fun n response => n + Z.of_nat (length (entries_of response))) rs n
  = n + Z.of_nat (length (all_entries rs)).
Proof.
  revert n. induction rs as [| r rs IH]; intros n.
  - simpl. lia.
  - simpl. rewrite IH. unfold all_entries. simpl. rewrite length_app. lia.
Qed.

(** The counting loop over the pages [rs]. *)
Lemma count_loop_done {A} (l : listing A) (rs : list (response A)) fuel st :
  walks l 0 rs -> (length rs <= fuel)%nat ->
  uncaught (while_request fuel l count_entries 0 0) st
  = (Val (Z.of_nat (length (all_entries rs))), after_requests (length rs) st).
Proof.
  intros Hwalk Hfuel. unfold uncaught, bind, count_entries.
  rewrite (while_request_pure l (fun response n => n + Z.of_nat (length (entries_of response)))
             rs fuel 0 0 st Hwalk Hfuel).
  simpl. rewrite fold_count_entries. reflexivity.
Qed.

(** The counting loop over a listing that fails after the pages [rs]. *)
Lemma count_loop_fails {A} (l : listing A) (rs : list (response A)) ex fuel st :
  fails_after l 0 rs ex -> (length rs < fuel)%nat ->
  uncaught (while_request fuel l count_entries 0 0) st
  = (Exn ex, after_requests (S (length rs)) st).
Proof.
  intros Hfail Hfuel. unfold uncaught, bind, count_entries.
  rewrite (while_request_pure_fails l
             (fun response n => n + Z.of_nat (length (entries_of response)))
             rs ex fuel 0%nat 0 st Hfail Hfuel).
  reflexivity.
Qed.

(** One of the four probes that count entries, run on a listing that fails
    after the pages [rs]. *)
Lemma counting_probe_fails fuel args api project_id project_name p l rs ex st :
  counting_listing api p = Some l ->
  construct l = Constructed ->
  fails_after l 0 rs ex -> (length rs < fuel)%nat ->
  run_probe fuel args api project_id project_name p st
  = (Exn ex, entered (probe_name p) (S (length rs)) st).
Proof.
  intros Hl Hconstruct Hfail Hfuel.
  destruct p; simpl in Hl; try discriminate Hl; inversion Hl; subst l; clear Hl;
    cbn [run_probe probe_name];
    [ unfold get_gcp_cloud_functions | unfold get_gcp_buckets
    | unfold get_gcp_cloudsql_instances | unfold get_gcp_bigquery_datasets ];
    rewrite Hconstruct; unfold bind at 1; unfold enter, modify; unfold bind at 1;
    rewrite (count_loop_fails _ rs ex fuel _ Hfail Hfuel); reflexivity.
Qed.

(** A probe that counts the entries of its listing and whose listing fails
    on some page, after the pages [rs], raises the exception of that page.
    It has issued one request per page and the failing one, and leaves
    [totals], [totals_log] and [errors_log] as they were: what the pages
    before the failure held is dropped and the failure is not recorded by
    the probe. *)
Theorem counting_probe_page_failure :
  forall (fuel : nat) (args : Args) (api : project_apis) (project_id project_name : string)
         (p : probe) (l : listing string) (rs : list (response string)) (ex : string)
         (st : state),
    counting_listing api p = Some l ->
    construct l = Constructed ->
    fails_after l 0 rs ex ->
    (length rs < fuel)%nat ->
    exists st',
      run_probe fuel args api project_id project_name p st = (Exn ex, st') /\
      totals st' = totals st /\
      totals_log st' = totals_log st /\
      errors_log st' = errors_log st /\
      requests st' = (S (length rs) + requests st)%nat.
Proof.
  intros fuel args api project_id project_name p l rs ex st Hl Hconstruct Hfail Hfuel.
  exists (entered (probe_name p) (S (length rs)) st).
  split; [eapply counting_probe_fails; eassumption |].
  repeat split.
Qed.

Lemma counting_probe_page_failure_witness :
  (counting_listing Mock.flaky_buckets Buckets = Some (storage_buckets Mock.flaky_buckets) /\
   construct (storage_buckets Mock.flaky_buckets) = Constructed /\
   fails_after (storage_buckets Mock.flaky_buckets) 0
     [Response (Some ["a"; "b"]) (Some "token")] "transport error" /\
   (1 < 3)%nat) /\
  exists st',
    run_probe 3 Mock.args Mock.flaky_buckets "p" "P" Buckets state0
    = (Exn "transport error", st') /\
    totals st' = totals state0 /\
    totals_log st' = [] /\
    errors_log st' = [] /\
    requests st' = 2%nat.
Proof.
  assert (Hfail : fails_after (storage_buckets Mock.flaky_buckets) 0
                    [Response (Some ["a"; "b"]) (Some "token")] "transport error")
    by (simpl; repeat split; discriminate).
  split; [split; [reflexivity | split; [reflexivity | split; [exact Hfail | lia]]] |].
  apply (counting_probe_page_failure 3 Mock.args Mock.flaky_buckets "p" "P" Buckets
           (storage_buckets Mock.flaky_buckets)
           [Response (Some ["a"; "b"]) (Some "token")] "transport error" state0
           eq_refl eq_refl Hfail).
  simpl. lia.
Defined.

(** ** Probes that count the entries of one listing *)

Lemma counted_fields f n emit count label key project region st :
  (emit = false -> count = 0) ->
  total (totals (counted f n emit count label key project region st)) key
  = total (totals st) key + count /\
  (forall r, r <> key ->
             total (totals (counted f n emit count label key project region st)) r
             = total (totals st) r) /\
  totals_log (counted f n emit count label key project region st)
  = totals_log st ++ (if emit then [Row label count project region] else []) /\
  errors_log (counted f n emit count label key project region st) = errors_log st /\
  requests (counted f n emit count label key project region st) = (n + requests st)%nat.
Proof.
  intros Hzero. unfold counted. destruct emit; simpl.
  - split; [| split; [| repeat split]].
    + rewrite total_add_total, String.eqb_refl. reflexivity.
    + intros r Hr. rewrite total_add_total.
      destruct (String.eqb_spec key r) as [E | _]; [congruence | lia].
  - rewrite (Hzero eq_refl), app_nil_r. repeat split. lia.
Qed.

Lemma get_gcp_buckets_done fuel args api project_id project_name rs st :
  construct (storage_buckets api) = Constructed ->
  walks (storage_buckets api) 0 rs -> (length rs <= fuel)%nat ->
  get_gcp_buckets fuel args api project_id project_name st
  = (Val tt,
     counted "get_gcp_buckets" (length rs)
       ((0 <? Z.min (Z.of_nat (length (all_entries rs))) 10000) || verbose_mode args)
       (Z.min (Z.of_nat (length (all_entries rs))) 10000)
       "Data Buckets" "Data Buckets" project_name "" st).
Proof.
  intros Hconstruct Hwalk Hfuel. unfold get_gcp_buckets. rewrite Hconstruct.
  unfold bind at 1. unfold enter, modify. unfold bind at 1.
  rewrite (count_loop_done _ rs fuel _ Hwalk Hfuel).
  destruct ((0 <? Z.min (Z.of_nat (length (all_entries rs))) 10000) || verbose_mode args);
    reflexivity.
Qed.

Lemma get_gcp_cloud_functions_done fuel args api project_id project_name rs st :
  construct (cloudfunctions_functions api) = Constructed ->
  walks (cloudfunctions_functions api) 0 rs -> (length rs <= fuel)%nat ->
  get_gcp_cloud_functions fuel args api project_id project_name st
  = (Val tt,
     counted "get_gcp_cloud_functions" (length rs)
       ((0 <? Z.of_nat (length (all_entries rs))) || verbose_mode args)
       (Z.of_nat (length (all_entries rs)))
       "Serverless Functions [Cloud Functions]" "Serverless Functions" project_name "" st).
Proof.
  intros Hconstruct Hwalk Hfuel. unfold get_gcp_cloud_functions. rewrite Hconstruct.
  unfold bind at 1. unfold enter, modify. unfold bind at 1.
  rewrite (count_loop_done _ rs fuel _ Hwalk Hfuel).
  destruct ((0 <? Z.of_nat (length (all_entries rs))) || verbose_mode args); reflexivity.
Qed.

Lemma get_gcp_cloudsql_instances_done fuel args api project_id project_name rs st :
  construct (sqladmin_instances api) = Constructed ->
  walks (sqladmin_instances api) 0 rs -> (length rs <= fuel)%nat ->
  get_gcp_cloudsql_instances fuel args api project_id project_name st
  = (Val tt,
     counted "get_gcp_cloudsql_instances" (length rs)
       ((0 <? Z.of_nat (length (all_entries rs))) || verbose_mode args)
       (Z.of_nat (length (all_entries rs)))
       "PaaS Databases [Cloud SQL]" "PaaS Databases" project_name "" st).
Proof.
  intros Hconstruct Hwalk Hfuel. unfold get_gcp_cloudsql_instances. rewrite Hconstruct.
  unfold bind at 1. unfold enter, modify. unfold bind at 1.
  rewrite (count_loop_done _ rs fuel _ Hwalk Hfuel).
  destruct ((0 <? Z.of_nat (length (all_entries rs))) || verbose_mode args); reflexivity.
Qed.

Lemma get_gcp_bigquery_datasets_done fuel args api project_id project_name rs st :
  construct (bigquery_datasets api) = Constructed ->
  walks (bigquery_datasets api) 0 rs -> (length rs <= fuel)%nat ->
  get_gcp_bigquery_datasets fuel args api project_id project_name st
  = (Val tt,
     counted "get_gcp_bigquery_datasets" (length rs)
       ((0 <? Z.of_nat (length (all_entries rs))) || verbose_mode args)
       (Z.of_nat (length (all_entries rs)))
       "Data Warehouses [BigQuery]" "Data Warehouses" project_name "" st).
Proof.
  intros Hconstruct Hwalk Hfuel. unfold get_gcp_bigquery_datasets. rewrite Hconstruct.
  unfold bind at 1. unfold enter, modify. unfold bind at 1.
  rewrite (count_loop_done _ rs fuel _ Hwalk Hfuel).
  destruct ((0 <? Z.of_nat (length (all_entries rs))) || verbose_mode args); reflexivity.
Qed.

Lemma emit_false_zero (n : Z) (verbose : bool) :
  0 <= n -> (0 <? n) || verbose = false -> n = 0.
Proof.
  intros Hn H. apply orb_false_iff in H. destruct H as [H _].
  apply Z.ltb_ge in H. lia.
Qed.

(** [get_gcp_buckets] on a listing with the pages [rs] returns after one
    request per page and adds the number of all buckets, capped at 10000,
    to [totals['Data Buckets']] and to no other total.  It logs one row
    with that count when the count is positive or the script is verbose,
    and no row otherwise; it records no error. *)
Theorem buckets_counted_and_capped :
  forall (fuel : nat) (args : Args) (api : project_apis) (project_id project_name : string)
         (rs : list (response string)) (st : state),
    construct (storage_buckets api) = Constructed ->
    walks (storage_buckets api) 0 rs ->
    (length rs <= fuel)%nat ->
    exists st',
      get_gcp_buckets fuel args api project_id project_name st = (Val tt, st') /\
      total (totals st') "Data Buckets"
      = total (totals st) "Data Buckets"
        + Z.min (Z.of_nat (length (all_entries rs))) 10000 /\
      total (totals st') "Data Buckets" <= total (totals st) "Data Buckets" + 10000 /\
      (forall r, r <> "Data Buckets" -> total (totals st') r = total (totals st) r) /\
      totals_log st'
      = totals_log st
        ++ (if (0 <? Z.of_nat (length (all_entries rs))) || verbose_mode args
            then [Row "Data Buckets" (Z.min (Z.of_nat (length (all_entries rs))) 10000)
                      project_name ""]
            else []) /\
      errors_log st' = errors_log st /\
      requests st' = (length rs + requests st)%nat.
Proof.
  intros fuel args api project_id project_name rs st Hconstruct Hwalk Hfuel.
  eexists. split; [apply get_gcp_buckets_done; eassumption |].
  set (n := Z.of_nat (length (all_entries rs))).
  assert (Hemit : (0 <? Z.min n 10000) = (0 <? n)).
  { destruct (Z.ltb_spec 0 n); destruct (Z.ltb_spec 0 (Z.min n 10000)); lia. }
  destruct (counted_fields "get_gcp_buckets" (length rs)
              ((0 <? Z.min n 10000) || verbose_mode args) (Z.min n 10000)
              "Data Buckets" "Data Buckets" project_name "" st)
    as (Ht & Hframe & Hlog & Herr & Hreq).
  { apply emit_false_zero. subst n. lia. }
  split; [exact Ht |]. split; [rewrite Ht; lia |]. split; [exact Hframe |].
  split; [rewrite Hlog, Hemit; reflexivity |]. split; [exact Herr | exact Hreq].
Qed.

Lemma buckets_counted_and_capped_witness :
  (construct (storage_buckets Mock.crowded) = Constructed /\
   walks (storage_buckets Mock.crowded) 0 Mock.crowded_page /\
   (length Mock.crowded_page <= 1)%nat) /\
  exists st',
    get_gcp_buckets 1 Mock.args Mock.crowded "p" "P" state0 = (Val tt, st') /\
    total (totals st') "Data Buckets" = 10000.
Proof.
  assert (Hwalk : walks (storage_buckets Mock.crowded) 0 Mock.crowded_page)
    by (split; reflexivity).
  split; [split; [reflexivity | split; [exact Hwalk | simpl; lia]] |].
  destruct (buckets_counted_and_capped 1 Mock.args Mock.crowded "p" "P"
              Mock.crowded_page state0 eq_refl Hwalk) as (st' & E & Ht & _).
  - simpl. lia.
  - exists st'. split; [exact E |]. rewrite Ht. vm_compute. reflexivity.
Defined.

(** The probes of Cloud Functions, Cloud SQL and BigQuery, each on a
    listing with the pages [rs], return after one request per page and add
    the number of all listed entries to [totals['Serverless Functions']],
    [totals['PaaS Databases']] and [totals['Data Warehouses']] and to no
    other total.  Each logs one row with that count when the count is
    positive or the script is verbose, and no row otherwise. *)
Theorem entries_counted :
  forall (fuel : nat) (args : Args) (api : project_apis) (project_id project_name : string)
         (rs : list (response string)) (st : state),
    (length rs <= fuel)%nat ->
    (construct (cloudfunctions_functions api) = Constructed ->
     walks (cloudfunctions_functions api) 0 rs ->
     exists st',
       get_gcp_cloud_functions fuel args api project_id project_name st = (Val tt, st') /\
       total (totals st') "Serverless Functions"
       = total (totals st) "Serverless Functions" + Z.of_nat (length (all_entries rs)) /\
       (forall r, r <> "Serverless Functions" ->
                  total (totals st') r = total (totals st) r) /\
       totals_log st'
       = totals_log st
         ++ (if (0 <? Z.of_nat (length (all_entries rs))) || verbose_mode args
             then [Row "Serverless Functions [Cloud Functions]"
                       (Z.of_nat (length (all_entries rs))) project_name ""]
             else [])) /\
    (construct (sqladmin_instances api) = Constructed ->
     walks (sqladmin_instances api) 0 rs ->
     exists st',
       get_gcp_cloudsql_instances fuel args api project_id project_name st = (Val tt, st') /\
       total (totals st') "PaaS Databases"
       = total (totals st) "PaaS Databases" + Z.of_nat (length (all_entries rs)) /\
       (forall r, r <> "PaaS Databases" -> total (totals st') r = total (totals st) r) /\
       totals_log st'
       = totals_log st
         ++ (if (0 <? Z.of_nat (length (all_entries rs))) || verbose_mode args
             then [Row "PaaS Databases [Cloud SQL]"
                       (Z.of_nat (length (all_entries rs))) project_name ""]
             else [])) /\
    (construct (bigquery_datasets api) = Constructed ->
     walks (bigquery_datasets api) 0 rs ->
     exists st',
       get_gcp_bigquery_datasets fuel args api project_id project_name st = (Val tt, st') /\
       total (totals st') "Data Warehouses"
       = total (totals st) "Data Warehouses" + Z.of_nat (length (all_entries rs)) /\
       (forall r, r <> "Data Warehouses" -> total (totals st') r = total (totals st) r) /\
       totals_log st'
       = totals_log st
         ++ (if (0 <? Z.of_nat (length (all_entries rs))) || verbose_mode args
             then [Row "Data Warehouses [BigQuery]"
                       (Z.of_nat (length (all_entries rs))) project_name ""]
             else [])).
Proof.
  intros fuel args api project_id project_name rs st Hfuel.
  assert (Hzero : (0 <? Z.of_nat (length (all_entries rs))) || verbose_mode args = false ->
                  Z.of_nat (length (all_entries rs)) = 0)
    by (apply emit_false_zero; lia).
  split; [| split]; intros Hconstruct Hwalk; eexists.
  - split; [apply get_gcp_cloud_functions_done; eassumption |].
    destruct (counted_fields "get_gcp_cloud_functions" (length rs) _ _
                "Serverless Functions [Cloud Functions]" "Serverless Functions"
                project_name "" st Hzero) as (Ht & Hframe & Hlog & _).
    split; [exact Ht |]. split; [exact Hframe | exact Hlog].
  - split; [apply get_gcp_cloudsql_instances_done; eassumption |].
    destruct (counted_fields "get_gcp_cloudsql_instances" (length rs) _ _
                "PaaS Databases [Cloud SQL]" "PaaS Databases"
                project_name "" st Hzero) as (Ht & Hframe & Hlog & _).
    split; [exact Ht |]. split; [exact Hframe | exact Hlog].
  - split; [apply get_gcp_bigquery_datasets_done; eassumption |].
    destruct (counted_fields "get_gcp_bigquery_datasets" (length rs) _ _
                "Data Warehouses [BigQuery]" "Data Warehouses"
                project_name "" st Hzero) as (Ht & Hframe & Hlog & _).
    split; [exact Ht |]. split; [exact Hframe | exact Hlog].
Qed.

Lemma entries_counted_witness :
  ((length Mock.functions_pages <= 2)%nat /\
   construct (cloudfunctions_functions Mock.functions_project) = Constructed /\
   walks (cloudfunctions_functions Mock.functions_project) 0 Mock.functions_pages) /\
  exists st',
    get_gcp_cloud_functions 2 Mock.args Mock.functions_project "p" "P" state0
    = (Val tt, st') /\
    total (totals st') "Serverless Functions" = 3 /\
    totals_log st' = [Row "Serverless Functions [Cloud Functions]" 3 "P" ""].
Proof.
  assert (Hwalk : walks (cloudfunctions_functions Mock.functions_project) 0
                    Mock.functions_pages)
    by (simpl; repeat split; discriminate).
  split; [split; [simpl; lia | split; [reflexivity | exact Hwalk]] |].
  destruct (proj1 (entries_counted 2 Mock.args Mock.functions_project "p" "P"
                     Mock.functions_pages state0 ltac:(simpl; lia))
                  eq_refl Hwalk) as (st' & E & Ht & _ & Hlog).
  exists st'. split; [exact E |]. split; [exact Ht | exact Hlog].
Defined.

(** ** Cloud Run revisions and GKE clusters *)

Lemma emitted_fields emit count label key project region st :
  (emit = false -> count = 0) ->
  total (totals (emitted emit count label key project region st)) key
  = total (totals st) key + count /\
  (forall r, r <> key ->
             total (totals (emitted emit count label key project region st)) r
             = total (totals st) r) /\
  totals_log (emitted emit count label key project region st)
  = totals_log st ++ (if emit then [Row label count project region] else []).
Proof.
  intros Hzero. unfold emitted. destruct emit; simpl.
  - split; [| split; [| reflexivity]].
    + rewrite total_add_total, String.eqb_refl. reflexivity.
    + intros r Hr. rewrite total_add_total.
      destruct (String.eqb_spec key r) as [E | _]; [congruence | lia].
  - rewrite (Hzero eq_refl), app_nil_r. repeat split. lia.
Qed.

Lemma fold_healthy (item : list condition) (n : Z) :
  fold_left (fun n container => if container_healthy container then n + 1 else n) item n
  = n + count_if container_healthy item.
Proof.
  revert n. induction item as [| c item IH]; intros n.
  - unfold count_if. simpl. lia.
  - simpl. rewrite IH. change (c :: item) with ([c] ++ item).
    rewrite count_if_app, count_if_one.
    destruct (container_healthy c); lia.
Qed.

Lemma fold_revisions (items : list (list condition)) (n : Z) :
  fold_left (fun n item =>
               fold_left (fun n container => if container_healthy container then n + 1 else n)
                         item n) items n
  = n + count_if container_healthy (concat items).
Proof.
  revert n. induction items as [| item items IH]; intros n.
  - unfold count_if. simpl. lia.
  - simpl. rewrite IH, fold_healthy, count_if_app. lia.
Qed.

Lemma fold_revision_pages (rs : list (response (list condition))) (n : Z) :
  fold_left (fun n response =>
               fold_left (fun n item =>
                            fold_left (fun n container =>
                                         if container_healthy container then n + 1 else n)
                                      item n) (entries_of response) n) rs n
  = n + healthy_containers rs.
Proof.
  unfold healthy_containers. revert n. induction rs as [| r rs IH]; intros n.
  - unfold count_if. simpl. lia.
  - simpl. rewrite IH, fold_revisions. unfold all_entries. simpl.
    rewrite concat_app, count_if_app. lia.
Qed.

(** [get_gcp_cloudrun_revisions] on a listing with the pages [rs] returns
    after one request per page and adds to [totals['Serverless Containers']],
    and to no other total, the number of conditions of type
    [ContainerHealthy] with status [True] over all listed revisions; a
    revision without such a condition counts for nothing. *)
Theorem cloudrun_healthy_containers_counted :
  forall (fuel : nat) (args : Args) (api : project_apis) (project_id project_name : string)
         (rs : list (response (list condition))) (st : state),
    construct (run_revisions api) = Constructed ->
    walks (run_revisions api) 0 rs ->
    (length rs <= fuel)%nat ->
    exists st',
      get_gcp_cloudrun_revisions fuel args api project_id project_name st = (Val tt, st') /\
      total (totals st') "Serverless Containers"
      = total (totals st) "Serverless Containers" + healthy_containers rs /\
      (forall r, r <> "Serverless Containers" ->
                 total (totals st') r = total (totals st) r) /\
      totals_log st'
      = totals_log st
        ++ (if (0 <? healthy_containers rs) || verbose_mode args
            then [Row "Serverless Containers [Cloud Run Revisions]"
                      (healthy_containers rs) project_name ""]
            else []) /\
      errors_log st' = errors_log st.
Proof.
  intros fuel args api project_id project_name rs st Hconstruct Hwalk Hfuel.
  exists (counted "get_gcp_cloudrun_revisions" (length rs)
            ((0 <? healthy_containers rs) || verbose_mode args) (healthy_containers rs)
            "Serverless Containers [Cloud Run Revisions]" "Serverless Containers"
            project_name "" st).
  split.
  - unfold get_gcp_cloudrun_revisions. rewrite Hconstruct.
    unfold bind at 1. unfold enter, modify. unfold bind at 1. unfold uncaught, bind at 1.
    rewrite (while_request_pure (run_revisions api)
               (fun response n =>
                  fold_left (fun n item =>
                               fold_left (fun n container =>
                                            if container_healthy container then n + 1 else n)
                                         item n) (entries_of response) n)
               rs fuel 0 0 _ Hwalk Hfuel).
    cbn [snd fst]. rewrite fold_revision_pages, Z.add_0_l. unfold ret.
    destruct ((0 <? healthy_containers rs) || verbose_mode args); reflexivity.
  - destruct (counted_fields "get_gcp_cloudrun_revisions" (length rs)
                ((0 <? healthy_containers rs) || verbose_mode args) (healthy_containers rs)
                "Serverless Containers [Cloud Run Revisions]" "Serverless Containers"
                project_name "" st) as (Ht & Hframe & Hlog & Herr & _).
    { apply emit_false_zero. apply count_if_nonneg. }
    split; [exact Ht |]. split; [exact Hframe |]. split; [exact Hlog | exact Herr].
Qed.

Lemma cloudrun_healthy_containers_counted_witness :
  (construct (run_revisions Mock.revisions_project) = Constructed /\
   walks (run_revisions Mock.revisions_project) 0 Mock.revisions_pages /\
   (length Mock.revisions_pages <= 1)%nat) /\
  exists st',
    get_gcp_cloudrun_revisions 1 Mock.args Mock.revisions_project "p" "P" state0
    = (Val tt, st') /\
    total (totals st') "Serverless Containers" = 0 + 1.
Proof.
  assert (Hwalk : walks (run_revisions Mock.revisions_project) 0 Mock.revisions_pages)
    by (split; reflexivity).
  split; [split; [reflexivity | split; [exact Hwalk | simpl; lia]] |].
  destruct (cloudrun_healthy_containers_counted 1 Mock.args Mock.revisions_project "p" "P"
              Mock.revisions_pages state0 eq_refl Hwalk) as (st' & E & Ht & _).
  - simpl. lia.
  - exists st'. split; [exact E | exact Ht].
Defined.

Lemma count_node_pool_spec (c : Z * Z) (np : node_pool) :
  count_node_pool c np = (fst c + pool_nodes np, snd c + pool_pods np).
Proof.
  unfold count_node_pool, pool_pods, pool_nodes.
  destruct (currentNodeCount np), (initialNodeCount np), (pool_config np) as [[pods |] |];
    reflexivity.
Qed.

Lemma fold_count_node_pool (pools : list node_pool) (c : Z * Z) :
  fold_left count_node_pool pools c
  = (fst c + sumZ (map pool_nodes pools), snd c + sumZ (map pool_pods pools)).
Proof.
  revert c. induction pools as [| np pools IH]; intros c.
  - simpl. destruct c. simpl. f_equal; lia.
  - simpl. rewrite IH, count_node_pool_spec. simpl. f_equal; lia.
Qed.

Lemma fold_count_cluster (clusters : list cluster) (c : Z * Z) :
  fold_left count_cluster clusters c
  = (fst c + sumZ (map pool_nodes (autopilot_pools clusters)),
     snd c + sumZ (map pool_pods (autopilot_pools clusters))).
Proof.
  revert c. induction clusters as [| cl clusters IH]; intros c.
  - simpl. destruct c. simpl. f_equal; lia.
  - simpl. rewrite IH. unfold autopilot_pools. cbn [map concat].
    rewrite !map_app, !sumZ_app. unfold count_cluster.
    destruct (autopilot cl) as [[[|] |] |]; simpl;
      try (f_equal; lia).
    rewrite fold_count_node_pool. simpl. f_equal; lia.
Qed.

Lemma autopilot_pools_app (clusters clusters' : list cluster) :
  autopilot_pools (clusters ++ clusters')
  = autopilot_pools clusters ++ autopilot_pools clusters'.
Proof. unfold autopilot_pools. rewrite map_app, concat_app. reflexivity. Qed.

Lemma fold_cluster_pages (rs : list (response cluster)) (c : Z * Z) :
  fold_left (fun c response => fold_left count_cluster (entries_of response) c) rs c
  = (fst c + sumZ (map pool_nodes (autopilot_pools (all_entries rs))),
     snd c + sumZ (map pool_pods (autopilot_pools (all_entries rs)))).
Proof.
  revert c. induction rs as [| r rs IH]; intros c.
  - simpl. destruct c. simpl. f_equal; lia.
  - simpl. rewrite IH, fold_count_cluster. simpl.
    change (all_entries (r :: rs)) with (entries_of r ++ all_entries rs).
    rewrite autopilot_pools_app, !map_app, !sumZ_app. f_equal; lia.
Qed.

Lemma sumZ_nonneg {A} (f : A -> Z) (l : list A) :
  (forall x, In x l -> 0 <= f x) -> 0 <= sumZ (map f l).
Proof.
  induction l as [| x l IH]; intros H; simpl; [lia |].
  assert (0 <= f x) by (apply H; left; reflexivity).
  assert (0 <= sumZ (map f l)) by (apply IH; intros y Hy; apply H; right; exact Hy).
  lia.
Qed.

(** [get_gcp_gke_clusters] on a listing with the pages [rs], whose node
    and pod counts are not negative, returns after one request per page.
    Only the clusters with [autopilot.enabled] true count: over their node
    pools it adds the nodes ([currentNodeCount], else [initialNodeCount],
    else 0) to [totals['Kubernetes Sensors']] and the nodes times
    [config.maxPodsPerNode] (0 when absent) to
    [totals['Serverless Containers']], and changes no other total. *)
Theorem autopilot_clusters_counted :
  forall (fuel : nat) (args : Args) (api : project_apis) (project_id project_name : string)
         (rs : list (response cluster)) (st : state),
    construct (container_clusters api) = Constructed ->
    walks (container_clusters api) 0 rs ->
    (length rs <= fuel)%nat ->
    (forall np, In np (autopilot_pools (all_entries rs)) ->
                0 <= pool_nodes np /\ 0 <= pool_pods np) ->
    exists st',
      get_gcp_gke_clusters fuel args api project_id project_name st = (Val tt, st') /\
      total (totals st') "Kubernetes Sensors"
      = total (totals st) "Kubernetes Sensors"
        + sumZ (map pool_nodes (autopilot_pools (all_entries rs))) /\
      total (totals st') "Serverless Containers"
      = total (totals st) "Serverless Containers"
        + sumZ (map pool_pods (autopilot_pools (all_entries rs))) /\
      (forall r, r <> "Kubernetes Sensors" -> r <> "Serverless Containers" ->
                 total (totals st') r = total (totals st) r) /\
      errors_log st' = errors_log st.
Proof.
  intros fuel args api project_id project_name rs st Hconstruct Hwalk Hfuel Hnonneg.
  set (nodes := sumZ (map pool_nodes (autopilot_pools (all_entries rs)))).
  set (pods := sumZ (map pool_pods (autopilot_pools (all_entries rs)))).
  assert (Hnodes : 0 <= nodes)
    by (apply sumZ_nonneg; intros np Hnp; apply (Hnonneg np Hnp)).
  assert (Hpods : 0 <= pods)
    by (apply sumZ_nonneg; intros np Hnp; apply (Hnonneg np Hnp)).
  exists (emitted ((0 <? pods) || verbose_mode args) pods
            "Serverless Containers [GKE Autopilot]" "Serverless Containers" project_name ""
            (counted "get_gcp_gke_clusters" (length rs)
               ((0 <? nodes) || verbose_mode args) nodes
               "Kubernetes Sensors [GKE Autopilot]" "Kubernetes Sensors" project_name ""
               st)).
  split.
  - unfold get_gcp_gke_clusters. rewrite Hconstruct.
    unfold bind at 1. unfold enter, modify. unfold bind at 1. unfold uncaught, bind at 1.
    rewrite (while_request_pure (container_clusters api)
               (fun response c => fold_left count_cluster (entries_of response) c)
               rs fuel 0 (0, 0) _ Hwalk Hfuel).
    cbn [snd fst]. rewrite fold_cluster_pages. cbn [fst snd]. rewrite !Z.add_0_l.
    fold nodes. fold pods. unfold ret. cbn [fst snd].
    destruct ((0 <? nodes) || verbose_mode args);
      destruct ((0 <? pods) || verbose_mode args); reflexivity.
  - destruct (counted_fields "get_gcp_gke_clusters" (length rs)
                ((0 <? nodes) || verbose_mode args) nodes
                "Kubernetes Sensors [GKE Autopilot]" "Kubernetes Sensors" project_name ""
                st (emit_false_zero nodes _ Hnodes)) as (Ht1 & Hframe1 & _ & Herr & _).
    destruct (emitted_fields ((0 <? pods) || verbose_mode args) pods
                "Serverless Containers [GKE Autopilot]" "Serverless Containers"
                project_name ""
                (counted "get_gcp_gke_clusters" (length rs)
                   ((0 <? nodes) || verbose_mode args) nodes
                   "Kubernetes Sensors [GKE Autopilot]" "Kubernetes Sensors"
                   project_name "" st)
                (emit_false_zero pods _ Hpods)) as (Ht2 & Hframe2 & _).
    split; [| split; [| split]].
    + rewrite Hframe2 by discriminate. exact Ht1.
    + rewrite Ht2, Hframe1 by discriminate. reflexivity.
    + intros r Hr1 Hr2. rewrite Hframe2 by exact Hr2. apply Hframe1. exact Hr1.
    + exact Herr.
Qed.

Lemma autopilot_clusters_counted_witness :
  (construct (container_clusters Mock.clusters_project) = Constructed /\
   walks (container_clusters Mock.clusters_project) 0 Mock.clusters_pages /\
   (length Mock.clusters_pages <= 1)%nat /\
   (forall np, In np (autopilot_pools (all_entries Mock.clusters_pages)) ->
               0 <= pool_nodes np /\ 0 <= pool_pods np)) /\
  exists st',
    get_gcp_gke_clusters 1 Mock.args Mock.clusters_project "p" "P" state0 = (Val tt, st') /\
    total (totals st') "Kubernetes Sensors" = 0 + 5 /\
    total (totals st') "Serverless Containers" = 0 + 96.
Proof.
  assert (Hwalk : walks (container_clusters Mock.clusters_project) 0 Mock.clusters_pages)
    by (split; reflexivity).
  assert (Hnonneg : forall np, In np (autopilot_pools (all_entries Mock.clusters_pages)) ->
                               0 <= pool_nodes np /\ 0 <= pool_pods np).
  { intros np Hnp. simpl in Hnp. destruct Hnp as [<- | [<- | []]]; vm_compute; split; discriminate. }
  split; [split; [reflexivity | split; [exact Hwalk | split; [simpl; lia | exact Hnonneg]]] |].
  destruct (autopilot_clusters_counted 1 Mock.args Mock.clusters_project "p" "P"
              Mock.clusters_pages state0 eq_refl Hwalk) as (st' & E & Hks & Hsc & _).
  - simpl. lia.
  - exact Hnonneg.
  - exists st'. split; [exact E |]. split; [exact Hks | exact Hsc].
Defined.

(** ** Spanner *)

(** The databases of one instance: counted page by page, or 0 with one
    error record when the listing cannot be requested. *)
Lemma wp_get_gcp_spanner_databases fuel api instance
    (pages : option (list (response string))) (T : gmap string Z) (E : nat) st :
  match pages with
  | Some pages =>
      construct (spanner_databases api instance) = Constructed /\
      walks (spanner_databases api instance) 0 pages /\ (length pages <= fuel)%nat
  | None => construct_error (construct (spanner_databases api instance)) <> None
  end ->
  totals st = T -> length (errors_log st) = E ->
  wp (get_gcp_spanner_databases fuel api instance)
     (fun n st' =>
        n = databases_in pages /\ totals st' = T
        /\ length (errors_log st') = (E + unlistable pages)%nat) st.
Proof.
  intros Hpages HT HE. unfold get_gcp_spanner_databases.
  destruct pages as [pages |].
  - destruct Hpages as (Hconstruct & Hwalk & Hfuel). rewrite Hconstruct.
    unfold wp. rewrite (count_loop_done _ pages fuel st Hwalk Hfuel).
    simpl. repeat split; [exact HT | lia].
  - destruct (construct (spanner_databases api instance)) as [| ex | ex];
      [exfalso; apply Hpages; reflexivity | |];
      (apply wp_bind; apply wp_modify; apply wp_ret; simpl;
       repeat split; [exact HT | rewrite length_app; simpl; lia]).
Qed.

(** [get_gcp_spanner_instances] on an instance listing with the pages [rs]
    returns and adds to [totals['PaaS Databases']], and to no other total,
    the number of databases of all listed instances.  An instance whose
    database listing cannot be requested counts for 0 databases and leaves
    one error record; the other instances are still counted. *)
Theorem spanner_databases_counted :
  forall (fuel : nat) (args : Args) (api : project_apis) (project_id project_name : string)
         (rs : list (response string))
         (databases : string -> option (list (response string))) (st : state),
    construct (spanner_instances api) = Constructed ->
    walks (spanner_instances api) 0 rs ->
    (length rs <= fuel)%nat ->
    (forall instance,
        In instance (all_entries rs) ->
        match databases instance with
        | Some pages =>
            construct (spanner_databases api instance) = Constructed /\
            walks (spanner_databases api instance) 0 pages /\ (length pages <= fuel)%nat
        | None => construct_error (construct (spanner_databases api instance)) <> None
        end) ->
    exists st',
      get_gcp_spanner_instances fuel args api project_id project_name st = (Val tt, st') /\
      total (totals st') "PaaS Databases"
      = total (totals st) "PaaS Databases"
        + sumZ (map (fun instance => databases_in (databases instance)) (all_entries rs)) /\
      (forall r, r <> "PaaS Databases" -> total (totals st') r = total (totals st) r) /\
      length (errors_log st')
      = (length (errors_log st)
         + list_sum (map (fun instance => unlistable (databases instance))
                         (all_entries rs)))%nat.
Proof.
  intros fuel args api project_id project_name rs databases st
         Hconstruct Hwalk Hfuel Hdatabases.
  set (count := fun instances : list string =>
                  sumZ (map (fun instance => databases_in (databases instance)) instances)).
  set (failures := fun instances : list string =>
                     list_sum (map (fun instance => unlistable (databases instance))
                                   instances)).
  assert (Hcount_app : forall l l', count (l ++ l') = count l + count l')
    by (intros; unfold count; rewrite map_app, sumZ_app; reflexivity).
  assert (Hfailures_app : forall l l', failures (l ++ l') = (failures l + failures l')%nat)
    by (intros; unfold failures; rewrite map_app, list_sum_app; reflexivity).
  assert (Hcount_nonneg : forall l, 0 <= count l).
  { intros l. unfold count. apply sumZ_nonneg. intros x _. unfold databases_in.
    destruct (databases x); lia. }
  assert (H : wp (get_gcp_spanner_instances fuel args api project_id project_name)
                 (fun _ st' =>
                    total (totals st') "PaaS Databases"
                    = total (totals st) "PaaS Databases" + count (all_entries rs)
                    /\ (forall r, r <> "PaaS Databases" ->
                                  total (totals st') r = total (totals st) r)
                    /\ length (errors_log st')
                       = (length (errors_log st) + failures (all_entries rs))%nat) st).
  { unfold get_gcp_spanner_instances. apply wp_bind. apply wp_modify.
    rewrite Hconstruct. apply wp_bind. apply wp_uncaught.
    eapply wp_mono.
    - apply (wp_while_request _ _
               (fun pre n st' =>
                  n = count (all_entries pre) /\ totals st' = totals st
                  /\ length (errors_log st')
                     = (length (errors_log st) + failures (all_entries pre))%nat) rs)
        with (pre := []);
        [| exact Hwalk | exact Hfuel
         | change (failures (all_entries [])) with 0%nat; cbn [errors_log];
           repeat split; lia].
      intros pre r n st0 Hin (Hn & Hst0 & Herr0).
      eapply wp_mono.
      + apply (wp_for_each _
                 (fun done v st' =>
                    v = n + count done /\ totals st' = totals st
                    /\ length (errors_log st')
                       = (length (errors_log st) + failures (all_entries pre)
                          + failures done)%nat) (entries_of r)) with (pre := []).
        * intros done instance v st1 Hinstance (Hv & Hst1 & Herr1).
          apply wp_bind. eapply wp_mono.
          -- eapply (wp_get_gcp_spanner_databases fuel api instance (databases instance)
                       (totals st)); [| exact Hst1 | exact Herr1].
             apply Hdatabases. unfold all_entries. apply in_concat.
             exists (entries_of r). split; [apply in_map; exact Hin | exact Hinstance].
          -- intros k st2 (Hk & Hst2 & Herr2). apply wp_ret.
             rewrite Hcount_app, Hfailures_app. unfold count at 2, failures at 3. simpl.
             repeat split; [lia | exact Hst2 | lia].
        * change (count []) with 0. change (failures []) with 0%nat.
          unfold tick. cbn [totals errors_log].
          repeat split; [lia | exact Hst0 | lia].
      + intros v st1 (Hv & Hst1 & Herr1). simpl app in *.
        rewrite all_entries_snoc, Hcount_app, Hfailures_app.
        repeat split; [lia | exact Hst1 | lia].
    - intros [n o] st1 [Ho (Hn & Hst1 & Herr1)]. simpl in Ho, Hn, Hst1, Herr1 |- *.
      split; [exact Ho |]. apply wp_when.
      + intros _. apply wp_bind. apply wp_modify. apply wp_modify. cbn [totals errors_log].
        split; [| split; [| exact Herr1]].
        * simpl. rewrite total_add_total, Hst1, Hn. simpl. reflexivity.
        * intros r Hr. simpl. rewrite total_add_total, Hst1.
          destruct (String.eqb_spec "PaaS Databases" r) as [E | _]; [congruence | lia].
      + intros Hcond. rewrite Hst1.
        pose proof (emit_false_zero n _ ltac:(rewrite Hn; apply Hcount_nonneg) Hcond).
        split; [lia |]. split; [reflexivity | exact Herr1]. }
  apply wp_elim in H. destruct H as ([] & st' & E & Ht & Hframe & Herr).
  exists st'. split; [exact E |]. split; [exact Ht |]. split; [exact Hframe | exact Herr].
Qed.

Lemma spanner_databases_counted_witness :
  (construct (spanner_instances Mock.spanner_project) = Constructed /\
   walks (spanner_instances Mock.spanner_project) 0 Mock.spanner_pages /\
   (length Mock.spanner_pages <= 2)%nat /\
   all_entries Mock.spanner_pages = ["i1"; "i2"] /\
   walks (spanner_databases Mock.spanner_project "i1") 0 Mock.i1_databases /\
   construct (spanner_databases Mock.spanner_project "i2") = ListRaises "permission denied") /\
  exists st',
    get_gcp_spanner_instances 2 Mock.args Mock.spanner_project "p" "P" state0
    = (Val tt, st') /\
    total (totals st') "PaaS Databases" = 0 + 2 /\
    length (errors_log st') = 1%nat.
Proof.
  assert (Hwalk : walks (spanner_instances Mock.spanner_project) 0 Mock.spanner_pages)
    by (split; reflexivity).
  assert (Hwalk1 : walks (spanner_databases Mock.spanner_project "i1") 0 Mock.i1_databases)
    by (simpl; repeat split; discriminate).
  split.
  { split; [reflexivity |]. split; [exact Hwalk |]. split; [simpl; lia |].
    split; [reflexivity |]. split; [exact Hwalk1 | reflexivity]. }
  destruct (spanner_databases_counted 2 Mock.args Mock.spanner_project "p" "P"
              Mock.spanner_pages Mock.spanner_databases_pages state0 eq_refl Hwalk)
    as (st' & E & Ht & _ & Herr).
  - simpl. lia.
  - intros instance Hin. simpl in Hin. destruct Hin as [<- | [<- | []]].
    + split; [reflexivity |]. split; [exact Hwalk1 | simpl; lia].
    + discriminate.
  - exists st'. split; [exact E |]. split; [exact Ht | exact Herr].
Defined.

(** ** Instances: GKE nodes and boot disks *)

(** An instance with the label [goog-gke-node] that is not a Databricks
    one is counted as an instance and as a GKE node, and that is all: its
    disks are not looked at, so it adds nothing to the Non-OS disks nor to
    the Linux sensors, issues no request and changes no state. *)
Theorem gke_node_disks_not_counted :
  forall (api : project_apis) (project_id : string) (i : instance) (c : gce_counts)
         (st : state),
    is_databricks i = false ->
    is_gke_node i = true ->
    count_instance api project_id i c st
    = (Val (GceCounts (instances_count c + 1) (gke_instances_count c + 1)
                      (non_os_disks_count c) (linux_instances_count c)), st).
Proof.
  intros api project_id i c st Hdb Hgke. unfold count_instance.
  rewrite <- (skip_tests_decide_databricks i) in Hdb.
  apply orb_false_iff in Hdb. destruct Hdb as [Htag Hlabel].
  rewrite Htag, Hlabel. unfold is_gke_node in Hgke.
  destruct (inst_labels i) as [labels |]; [| discriminate Hgke].
  rewrite has_gke_label_mem, Hgke. reflexivity.
Qed.

Lemma gke_node_disks_not_counted_witness :
  (is_databricks Mock.gke_node = false /\ is_gke_node Mock.gke_node = true) /\
  count_instance (Mock.project []) "p" Mock.gke_node (GceCounts 0 0 0 0) state0
  = (Val (GceCounts 1 1 0 0), state0).
Proof.
  split; [split; reflexivity |].
  apply (gke_node_disks_not_counted (Mock.project []) "p" Mock.gke_node
           (GceCounts 0 0 0 0) state0); reflexivity.
Defined.

(** A boot disk whose [disks().get(...)] lookup raises is counted as a
    Linux sensor all the same: [get_disk_image_details] records the error
    and returns an empty dictionary, and the defaults [UNKNOWN] for
    description and family do not contain [win].  One request was issued
    and one error recorded; the other counters and [totals] are as before. *)
Theorem failed_image_lookup_counts_as_linux :
  forall (api : project_apis) (project_id : string) (d : disk) (c : gce_counts)
         (st : state) (disk_zone disk_name ex : string),
    boot d = true ->
    PyStr.index_from_end 3 (PyStr.split "/" (source d)) = Some disk_zone ->
    PyStr.index_from_end 1 (PyStr.split "/" (source d)) = Some disk_name ->
    compute_disks_get api disk_zone disk_name = Raises ex ->
    exists text st',
      count_disk api project_id d c st
      = (Val (GceCounts (instances_count c) (gke_instances_count c)
                        (non_os_disks_count c) (linux_instances_count c + 1)), st') /\
      errors_log st' = errors_log st ++ [text] /\
      requests st' = S (requests st) /\
      totals st' = totals st /\
      totals_log st' = totals_log st.
Proof.
  intros api project_id d c st disk_zone disk_name ex Hboot Hzone Hname Hget.
  unfold count_disk. rewrite Hboot.
  unfold get_disk_image_details. rewrite Hzone, Hname.
  unfold bind at 1. unfold try_except. unfold bind at 1. unfold get_execute.
  rewrite Hget. unfold bind at 1. unfold modify, raise. cbn iota beta.
  unfold bind at 1. unfold error_print, modify, ret. cbn iota beta.
  eexists. eexists. split; [reflexivity |]. repeat split.
Qed.

Lemma failed_image_lookup_counts_as_linux_witness :
  (boot Mock.boot_disk = true /\
   PyStr.index_from_end 3 (PyStr.split "/" (source Mock.boot_disk)) = Some "z" /\
   PyStr.index_from_end 1 (PyStr.split "/" (source Mock.boot_disk)) = Some "boot" /\
   compute_disks_get (Mock.project []) "z" "boot" = Raises "404") /\
  exists text st',
    count_disk (Mock.project []) "p" Mock.boot_disk (GceCounts 1 0 0 0) state0
    = (Val (GceCounts 1 0 0 1), st') /\
    errors_log st' = [] ++ [text].
Proof.
  split; [repeat split |].
  destruct (failed_image_lookup_counts_as_linux (Mock.project []) "p" Mock.boot_disk
              (GceCounts 1 0 0 0) state0 "z" "boot" "404"
              eq_refl eq_refl eq_refl eq_refl) as (text & st' & E & Herr & _).
  exists text, st'. split; [exact E | exact Herr].
Defined.

(** ** Which probes are selected *)

Lemma in_gate (p : probe) (on : bool) (service : string) (service_list : list string)
    (probes : list probe) :
  In p (gate on service service_list probes)
  <-> on = true /\ PyStr.mem service service_list = true /\ In p probes.
Proof.
  unfold gate. destruct on; simpl.
  - destruct (PyStr.mem service service_list); simpl; intuition discriminate.
  - intuition discriminate.
Qed.

Lemma in_map_GcrImages (region : string) (regions_list : list string) :
  In (GcrImages region) (map GcrImages regions_list) <-> In region regions_list.
Proof.
  rewrite in_map_iff. split.
  - intros (x & E & Hx). inversion E. subst. exact Hx.
  - intros H. exists region. split; [reflexivity | exact H].
Qed.

(** From the membership [H] of a probe in a dispatch list to the gate that
    let it through. *)
Ltac gate_cases H :=
  repeat (apply in_app_or in H; destruct H as [H | H]);
  apply in_gate in H;
  let Hon := fresh "Hon" in
  let Hm := fresh "Hm" in
  let Hin := fresh "Hin" in
  destruct H as (Hon & Hm & Hin);
  first
    [ apply in_map_GcrImages in Hin;
      split; [exact Hon | split; [exact Hm | exact Hin]]
    | apply in_map_iff in Hin; destruct Hin as (? & Hin & _); discriminate Hin
    | cbn [In] in Hin; destruct Hin as [Hin | []];
      first [discriminate Hin | exact Hm] ].

(** The gate of a dispatch list that lets the probe of the goal through. *)
Ltac open_gate :=
  apply in_gate;
  split; [first [reflexivity | eassumption] |];
  split; [eassumption |];
  first [left; reflexivity | apply in_map_GcrImages; eassumption].

Ltac choose_gate :=
  lazymatch goal with
  | |- In ?p (gate _ _ _ [?p] ++ _) => apply in_or_app; left; open_gate
  | |- In ?p (gate _ _ _ [?p]) => open_gate
  | |- In (GcrImages _) (gate _ _ _ (map GcrImages _)) => open_gate
  | |- In _ (gate _ _ _ _ ++ _) => apply in_or_app; right; choose_gate
  end.

(** The probes the parallel branch of [get_gcp_resources] submits, by the
    enabled services: each probe but the registry one is submitted exactly
    when its service is enabled for the project (the bucket probe under
    the name [storage-api.googleapis.com]); the registry probe is submitted
    for a region exactly when the script runs with [--images], the service
    [artifactregistry.googleapis.com] is enabled and the region is one of
    the project's regions. *)
Theorem parallel_selection_by_service :
  forall (args : Args) (service_list regions_list : list string) (region : string),
    (In GceInstancesAndGkeInstances (parallel_submits args service_list regions_list)
     <-> PyStr.mem "compute.googleapis.com" service_list = true) /\
    (In GkeClusters (parallel_submits args service_list regions_list)
     <-> PyStr.mem "container.googleapis.com" service_list = true) /\
    (In CloudFunctions (parallel_submits args service_list regions_list)
     <-> PyStr.mem "cloudfunctions.googleapis.com" service_list = true) /\
    (In CloudrunRevisions (parallel_submits args service_list regions_list)
     <-> PyStr.mem "run.googleapis.com" service_list = true) /\
    (In Buckets (parallel_submits args service_list regions_list)
     <-> PyStr.mem "storage-api.googleapis.com" service_list = true) /\
    (In CloudsqlInstances (parallel_submits args service_list regions_list)
     <-> PyStr.mem "sqladmin.googleapis.com" service_list = true) /\
    (In SpannerInstances (parallel_submits args service_list regions_list)
     <-> PyStr.mem "spanner.googleapis.com" service_list = true) /\
    (In BigqueryDatasets (parallel_submits args service_list regions_list)
     <-> PyStr.mem "bigquery.googleapis.com" service_list = true) /\
    (In (GcrImages region) (parallel_submits args service_list regions_list)
     <-> images_mode args = true
         /\ PyStr.mem "artifactregistry.googleapis.com" service_list = true
         /\ In region regions_list).
Proof.
  intros args service_list regions_list region.
  unfold parallel_submits.
  repeat match goal with |- _ /\ _ => split end;
    (split; intros H; [gate_cases H | try destruct H as (? & ? & ?); choose_gate]).
Qed.

(** The registry probe needs the regions of the project, and the regions
    are only asked for when the compute service is enabled: for a project
    without [compute.googleapis.com] the list of regions is empty and
    neither branch of [get_gcp_resources] selects the registry probe,
    whatever else is enabled and even with [--images]. *)
Theorem registry_needs_compute_service :
  forall (fuel : nat) (args : Args) (api : project_apis) (project_id : string)
         (st st1 : state) (service_list regions_list : list string),
    services_and_regions fuel api project_id st = (Val (service_list, regions_list), st1) ->
    PyStr.mem "compute.googleapis.com" service_list = false ->
    regions_list = [] /\
    (forall region, ~ In (GcrImages region) (parallel_submits args service_list regions_list))
    /\ (forall region, ~ In (GcrImages region) (debug_calls args service_list regions_list)).
Proof.
  intros fuel args api project_id st st1 service_list regions_list Hprelude Hcompute.
  assert (Hregions : regions_list = []).
  { unfold services_and_regions in Hprelude.
    apply bind_val_inv in Hprelude. destruct Hprelude as (u & st2 & _ & H).
    apply bind_val_inv in H. destruct H as (services & st3 & _ & H).
    apply bind_val_inv in H. destruct H as (regions & st4 & Hregions & H).
    inversion H. subst. rewrite Hcompute in Hregions. inversion Hregions. reflexivity. }
  subst regions_list. split; [reflexivity |].
  split; intros region H;
    [unfold parallel_submits in H | unfold debug_calls in H];
    repeat (apply in_app_or in H; destruct H as [H | H]);
    apply in_gate in H; destruct H as (_ & _ & Hin); cbn [In map] in Hin;
    try (destruct Hin as [Hin | []]; discriminate Hin); exact Hin.
Qed.

Lemma registry_needs_compute_service_witness :
  (fst (services_and_regions 1 Mock.registry "p" state0)
   = Val (["artifactregistry.googleapis.com"], []) /\
   PyStr.mem "compute.googleapis.com" ["artifactregistry.googleapis.com"] = false) /\
  (forall region,
      ~ In (GcrImages region)
           (parallel_submits Mock.images_args ["artifactregistry.googleapis.com"] [])).
Proof.
  assert (H1 : services_and_regions 1 Mock.registry "p" state0
               = (Val (["artifactregistry.googleapis.com"], []),
                  snd (services_and_regions 1 Mock.registry "p" state0)))
    by (apply injective_projections; [vm_compute; reflexivity | reflexivity]).
  split; [split; [vm_compute; reflexivity | reflexivity] |].
  apply (registry_needs_compute_service 1 Mock.images_args Mock.registry "p" state0 _ _ _
           H1 eq_refl).
Defined.

(** ** The enabled services *)

Lemma error_print_text caller details project st :
  error_print caller details project st
  = (Val tt, with_error (error_text caller details project) st).
Proof. reflexivity. Qed.

Lemma fold_collect_names {A} (rs : list (response A)) (names : list A) :
  fold_left (fun names response => names ++ entries_of response) rs names
  = names ++ all_entries rs.
Proof.
  revert names. induction rs as [| r rs IH]; intros names.
  - simpl. rewrite app_nil_r. reflexivity.
  - simpl. rewrite IH, <- app_assoc. reflexivity.
Qed.

(** When the list of enabled services cannot be requested,
    [get_gcp_resources] records the error and returns without invoking a
    probe, as for a project without enabled services.  When the client of
    the service usage API cannot even be built, it records the error and
    then raises, since [client.close()] follows the [try] statement and
    [client] was never assigned.  In both cases [totals] is untouched and
    no request was issued. *)
Theorem enabled_services_unavailable :
  forall (fuel : nat) (args : Args) (api : project_apis) (project_id project_name : string)
         (st : state) (ex : string),
    (construct (serviceusage_services api) = ListRaises ex ->
     get_gcp_resources fuel args api project_id project_name st
     = (Val 0,
        with_error (error_text "get_gcp_enabled_services" ex project_id)
                   (entered "get_gcp_resources" 0 st))) /\
    (construct (serviceusage_services api) = BuildRaises ex ->
     get_gcp_resources fuel args api project_id project_name st
     = (Exn "cannot access local variable 'client' where it is not associated with a value",
        with_error (error_text "get_gcp_enabled_services" ex project_id)
                   (entered "get_gcp_resources" 0 st))).
Proof.
  intros fuel args api project_id project_name st ex.
  split; intros Hconstruct; unfold get_gcp_resources, get_gcp_enabled_services;
    rewrite Hconstruct; reflexivity.
Qed.

Lemma enabled_services_unavailable_witness :
  construct (serviceusage_services Mock.unlistable_services) = ListRaises "bad parent" /\
  get_gcp_resources 1 Mock.args Mock.unlistable_services "p" "P" state0
  = (Val 0,
     with_error "ERROR: Project: p get_gcp_enabled_services() bad parent"
                (entered "get_gcp_resources" 0 state0)).
Proof.
  split; [reflexivity |].
  apply (proj1 (enabled_services_unavailable 1 Mock.args Mock.unlistable_services
                  "p" "P" state0 "bad parent")).
  reflexivity.
Defined.

(** When the listing of the enabled services fails on some page, after the
    pages [rs], [get_gcp_enabled_services] does not raise: it records the
    error and returns the services of the pages before the failure, sorted;
    the dispatch then goes on with this shorter list. *)
Theorem enabled_services_kept_on_failure :
  forall (fuel : nat) (api : project_apis) (project_id : string)
         (rs : list (response string)) (ex : string) (st : state),
    construct (serviceusage_services api) = Constructed ->
    fails_after (serviceusage_services api) 0 rs ex ->
    (length rs < fuel)%nat ->
    get_gcp_enabled_services fuel api project_id st
    = (Val (PyStr.sort (all_entries rs)),
       with_error (error_text "get_gcp_enabled_services" ex project_id)
                  (after_requests (S (length rs)) st)).
Proof.
  intros fuel api project_id rs ex st Hconstruct Hfail Hfuel.
  unfold get_gcp_enabled_services. rewrite Hconstruct.
  unfold bind at 1. unfold bind at 1.
  rewrite (while_request_pure_fails (serviceusage_services api)
             (fun response names => names ++ entries_of response)
             rs ex fuel 0%nat [] st Hfail Hfuel).
  cbn [snd fst]. rewrite fold_collect_names. reflexivity.
Qed.

Lemma enabled_services_kept_on_failure_witness :
  (construct (serviceusage_services Mock.flaky_services) = Constructed /\
   fails_after (serviceusage_services Mock.flaky_services) 0 Mock.services_first_page
               "quota" /\
   (length Mock.services_first_page < 2)%nat) /\
  get_gcp_enabled_services 2 Mock.flaky_services "p" state0
  = (Val ["run.googleapis.com"; "storage-api.googleapis.com"],
     with_error "ERROR: Project: p get_gcp_enabled_services() quota"
                (after_requests 2 state0)).
Proof.
  assert (Hfail : fails_after (serviceusage_services Mock.flaky_services) 0
                    Mock.services_first_page "quota")
    by (split; [reflexivity | split; [discriminate | reflexivity]]).
  split; [split; [reflexivity | split; [exact Hfail | simpl; lia]] |].
  apply (enabled_services_kept_on_failure 2 Mock.flaky_services "p"
           Mock.services_first_page "quota" state0 eq_refl Hfail).
  simpl. lia.
Defined.

(** ** Exceptions of probes and of account tasks *)





(** The loop of [main] over the completed futures changes neither [totals]
    nor [totals_log], and it appends to [errors_log] exactly one line
    [Exception scanning <project>: <exception>] for each future whose task
    raised, in the order in which the futures are handled, and nothing for
    the others. *)
Theorem failed_accounts_recorded :
  forall (world : cloud) (len_projects : Z)
         (project_futures : list (string * string * option string))
         (handled : nat) (completed_count : Z) (st : state),
    exists st',
      as_completed_loop world len_projects handled project_futures completed_count st
      = (Val (completed_count + Z.of_nat (length project_futures)), st') /\
      totals st' = totals st /\
      totals_log st' = totals_log st /\
      errors_log st' = errors_log st ++ scan_errors project_futures /\
      invoked st' = invoked st /\
      requests st' = requests st.
Proof.
  intros world len_projects project_futures.
  induction project_futures as [| [[project_id project_name] exception] futures IH];
    intros handled completed_count st.
  - exists st. split; [simpl; unfold ret; do 2 f_equal; lia |].
    unfold scan_errors. simpl. rewrite app_nil_r. repeat split.
  - cbn [as_completed_loop]. unfold bind at 1.
    destruct exception as [ex |].
    + cbn [on_completed]. unfold bind at 1. rewrite error_print_text. cbn iota beta.
      unfold ret at 1.
      destruct (IH (S handled) (completed_count + 1)
                   (with_error (error_text "main"
                                  ("Exception scanning " +:+ project_id +:+ ": " +:+ ex) "")
                               st)) as (st' & E & Ht & Hl & He & Hi & Hr).
      exists st'. split; [rewrite E; do 2 f_equal; simpl length; lia |].
      split; [exact Ht |]. split; [exact Hl |].
      split; [| split; [exact Hi | exact Hr]].
      rewrite He. unfold scan_errors. cbn [map concat with_error errors_log].
      rewrite <- app_assoc. reflexivity.
    + cbn [on_completed]. unfold bind at 1. unfold print, modify. cbn iota beta.
      unfold ret at 1.
      match goal with
      | |- context [as_completed_loop _ _ _ _ _ ?s] =>
          destruct (IH (S handled) (completed_count + 1) s)
            as (st' & E & Ht & Hl & He & Hi & Hr)
      end.
      exists st'. split; [rewrite E; do 2 f_equal; simpl length; lia |].
      split; [exact Ht |]. split; [exact Hl |].
      split; [| split; [exact Hi | exact Hr]].
      rewrite He. reflexivity.
Qed.

(** Submitting account tasks never raises: the exception of a task stays
    in its future. *)
Lemma submit_projects_no_raise fuel args world projects :
  forall st,
    match submit_projects fuel args world projects st with
    | (Exn _, _) => False
    | _ => True
    end.
Proof.
  induction projects as [| [project_id project_name] projects IH]; intros st.
  - exact I.
  - cbn [submit_projects]. unfold bind at 1. unfold try_except. unfold bind at 1.
    destruct (get_gcp_resources fuel args (apis world project_id) project_id project_name st)
      as [[n | ex | c |] st1]; cbn iota beta; try exact I.
    + unfold ret at 1. unfold bind at 1. specialize (IH st1).
      destruct (submit_projects fuel args world projects st1)
        as [[futures | ex | c |] st2]; exact IH.
    + unfold ret at 1. unfold bind at 1. specialize (IH st1).
      destruct (submit_projects fuel args world projects st1)
        as [[futures | ex' | c |] st2]; exact IH.
Qed.

Lemma keeps_dispatched_of_invoked {A} (m : prog A) :
  keeps_invoked m -> keeps_dispatched m.
Proof. intros H st. unfold dispatched. rewrite (H st). reflexivity. Qed.

Lemma keeps_dispatched_bind {A B} (m : prog A) (k : A -> prog B) :
  keeps_dispatched m -> (forall a, keeps_dispatched (k a)) -> keeps_dispatched (bind m k).
Proof.
  intros Hm Hk st. unfold bind. specialize (Hm st).
  destruct (m st) as [[a | ex | c |] st']; cbn [snd] in *; try exact Hm.
  rewrite (Hk a st'). exact Hm.
Qed.

Lemma keeps_dispatched_try_except {A} (body : prog A) (handler : string -> prog A) :
  keeps_dispatched body -> (forall ex, keeps_dispatched (handler ex)) ->
  keeps_dispatched (try_except body handler).
Proof.
  intros Hb Hh st. unfold try_except. specialize (Hb st).
  destruct (body st) as [[a | ex | c |] st']; cbn [snd] in *; try exact Hb.
  rewrite (Hh ex st'). exact Hb.
Qed.

(** A probe is no dispatch. *)
Lemma keeps_dispatched_run_probe fuel args api project_id project_name p :
  keeps_dispatched (run_probe fuel args api project_id project_name p).
Proof.
  intros st. unfold dispatched. rewrite run_probe_invoked, List.filter_app, length_app.
  destruct p; cbn [probe_name List.filter]; eval_eqb; simpl; lia.
Qed.

Lemma keeps_dispatched_call_all fuel args api project_id project_name probes :
  keeps_dispatched (call_all fuel args api project_id project_name probes).
Proof.
  induction probes as [| p probes IH]; cbn [call_all].
  - apply keeps_dispatched_of_invoked, keeps_ret.
  - apply keeps_dispatched_bind; [apply keeps_dispatched_run_probe | intros; exact IH].
Qed.

Lemma keeps_dispatched_submit_all fuel args api project_id project_name probes :
  keeps_dispatched (submit_all fuel args api project_id project_name probes).
Proof.
  induction probes as [| p probes IH]; cbn [submit_all].
  - apply keeps_dispatched_of_invoked, keeps_ret.
  - apply keeps_dispatched_bind.
    + apply keeps_dispatched_try_except.
      * apply keeps_dispatched_bind; [apply keeps_dispatched_run_probe |].
        intros. apply keeps_dispatched_of_invoked, keeps_ret.
      * intros. apply keeps_dispatched_of_invoked, keeps_ret.
    + intros exception. apply keeps_dispatched_bind; [exact IH |].
      intros. apply keeps_dispatched_of_invoked, keeps_ret.
Qed.

(** However it ends, [get_gcp_resources] has been entered once more and
    has entered no other dispatch. *)
Lemma get_gcp_resources_dispatched fuel args api project_id project_name st :
  dispatched (snd (get_gcp_resources fuel args api project_id project_name st))
  = S (dispatched st).
Proof.
  assert (Hrest : forall m : prog Z, keeps_dispatched m ->
            dispatched (snd ((enter "get_gcp_resources" ;; m) st)) = S (dispatched st)).
  { intros m Hm. unfold bind, enter, modify. rewrite (Hm _).
    unfold dispatched. cbn [invoked]. rewrite List.filter_app, length_app.
    cbn [List.filter]. eval_eqb. simpl. lia. }
  unfold get_gcp_resources. apply Hrest.
  apply keeps_dispatched_bind;
    [apply keeps_dispatched_of_invoked, keeps_get_gcp_enabled_services |].
  intros service_list. apply keeps_dispatched_bind.
  - apply keeps_dispatched_of_invoked.
    destruct (PyStr.mem "compute.googleapis.com" service_list);
      [apply keeps_get_gcp_regions | apply keeps_ret].
  - intros regions_list. destruct service_list as [| service services].
    + apply keeps_dispatched_of_invoked, keeps_ret.
    + destruct (debug_mode args).
      * apply keeps_dispatched_bind; [apply keeps_dispatched_call_all |].
        intros. apply keeps_dispatched_of_invoked, keeps_ret.
      * apply keeps_dispatched_bind; [apply keeps_dispatched_submit_all |].
        intros. apply keeps_dispatched_of_invoked, keeps_ret.
Qed.

(** When all tasks have been submitted and have ended, every project has
    been dispatched. *)
Lemma submit_projects_dispatches fuel args world projects :
  forall st futures st1,
    submit_projects fuel args world projects st = (Val futures, st1) ->
    dispatched st1 = (dispatched st + length projects)%nat.
Proof.
  induction projects as [| [project_id project_name] projects IH];
    intros st futures st1 H.
  - inversion H. subst. simpl. lia.
  - cbn [submit_projects] in H. unfold bind at 1 in H. unfold try_except in H.
    unfold bind at 1 in H.
    pose proof (get_gcp_resources_dispatched fuel args (apis world project_id)
                  project_id project_name st) as Hone.
    destruct (get_gcp_resources fuel args (apis world project_id) project_id project_name st)
      as [[n | ex | c |] st0]; cbn iota beta in H; cbn [snd] in Hone;
      try discriminate H;
      unfold ret at 1 in H; unfold bind at 1 in H;
      (destruct (submit_projects fuel args world projects st0)
         as [[futures0 | ex0 | c0 |] st2] eqn:Hrest; try discriminate H;
       inversion H; subst;
       rewrite (IH _ _ _ Hrest), Hone; simpl; lia).
Qed.

Lemma keeps_as_completed_loop world len_projects project_futures :
  forall handled completed_count,
    keeps_invoked (as_completed_loop world len_projects handled project_futures
                                     completed_count).
Proof.
  induction project_futures as [| [[project_id project_name] exception] futures IH];
    intros handled completed_count; cbn [as_completed_loop].
  - apply keeps_ret.
  - apply keeps_bind; [| intros; apply IH].
    cbn [on_completed]. destruct exception as [ex |].
    + apply keeps_bind; [apply keeps_error_print | intros; apply keeps_ret].
    + apply keeps_bind; [intros st; reflexivity | intros; apply keeps_ret].
Qed.

(** In the parallel mode the scan of [main] does not raise, whatever the
    account tasks do: an exception of [get_gcp_resources] for one project
    is caught when its future is handled and the other projects are still
    scanned.  When the scan returns, [get_gcp_resources] has been entered
    once for every project and [completed_count] is the number of
    projects. *)
Theorem parallel_scan_never_raises :
  forall (fuel : nat) (args : Args) (world : cloud) (projects : list (string * string))
         (st : state),
    debug_mode args = false ->
    match scan fuel args world projects st with
    | (Val completed_count, st') =>
        completed_count = Z.of_nat (length projects) /\
        dispatched st' = (dispatched st + length projects)%nat
    | (Exn _, _) => False
    | _ => True
    end.
Proof.
  intros fuel args world projects st Hmode. unfold scan. rewrite Hmode. unfold bind.
  pose proof (submit_projects_no_raise fuel args world projects st) as Hno.
  destruct (submit_projects fuel args world projects st)
    as [[futures | ex | c |] st1] eqn:Hsubmit; try exact Hno.
  destruct (as_completed_loop_counts world (Z.of_nat (length projects)) futures 0%nat 0 st1)
    as [st2 E].
  pose proof (keeps_as_completed_loop world (Z.of_nat (length projects)) futures 0%nat 0 st1)
    as Hkeeps.
  rewrite E in Hkeeps |- *. cbn [snd] in Hkeeps. split.
  - rewrite (submit_projects_length _ _ _ _ _ _ _ Hsubmit). lia.
  - unfold dispatched at 1. rewrite Hkeeps.
    exact (submit_projects_dispatches _ _ _ _ _ _ _ Hsubmit).
Qed.

Lemma parallel_scan_never_raises_witness :
  debug_mode Mock.args = false /\
  fst (get_gcp_resources 3 Mock.args (apis Mock.busy_world "q") "q" "Q" state0)
  = Exn "cannot access local variable 'client' where it is not associated with a value" /\
  fst (scan 3 Mock.args Mock.busy_world [("q", "Q"); ("p", "P")] state0) = Val 2 /\
  invoked (snd (scan 3 Mock.args Mock.busy_world [("q", "Q"); ("p", "P")] state0))
  = ["get_gcp_resources"; "get_gcp_resources"; "get_gcp_buckets";
     "get_gcp_cloudsql_instances"] /\
  total (totals (snd (scan 3 Mock.args Mock.busy_world [("q", "Q"); ("p", "P")] state0)))
        "PaaS Databases" = 3 /\
  match scan 3 Mock.args Mock.busy_world [("q", "Q"); ("p", "P")] state0 with
  | (Val completed_count, st') =>
      completed_count = Z.of_nat (length [("q", "Q"); ("p", "P")]) /\
      dispatched st' = (dispatched state0 + length [("q", "Q"); ("p", "P")])%nat
  | (Exn _, _) => False
  | _ => True
  end.
Proof.
  split; [reflexivity |]. split; [vm_compute; reflexivity |].
  split; [vm_compute; reflexivity |]. split; [vm_compute; reflexivity |].
  split; [vm_compute; reflexivity |].
  exact (parallel_scan_never_raises 3 Mock.args Mock.busy_world
           [("q", "Q"); ("p", "P")] state0 eq_refl).
Defined.

Lemma scan_sequentially_app fuel args world pre post st :
  scan_sequentially fuel args world (pre ++ post) st
  = (scan_sequentially fuel args world pre ;; scan_sequentially fuel args world post) st.
Proof.
  revert st. induction pre as [| [project_id project_name] pre IH]; intros st.
  - reflexivity.
  - cbn [app scan_sequentially]. unfold bind.
    destruct (get_gcp_resources fuel args (apis world project_id) project_id project_name st)
      as [[n | ex | c |] st1]; try reflexivity.
    rewrite IH. unfold bind. reflexivity.
Qed.

(** In debug mode the scan of [main] stops at the first project whose
    [get_gcp_resources] raises: the exception leaves the scan, in the state
    that project left, and the projects after it are not scanned. *)
Theorem debug_scan_stops_at_first_failure :
  forall (fuel : nat) (args : Args) (world : cloud)
         (pre rest : list (string * string)) (project_id project_name ex : string)
         (st st1 st2 : state),
    debug_mode args = true ->
    scan_sequentially fuel args world pre st = (Val tt, st1) ->
    get_gcp_resources fuel args (apis world project_id) project_id project_name st1
    = (Exn ex, st2) ->
    scan fuel args world (pre ++ (project_id, project_name) :: rest) st = (Exn ex, st2).
Proof.
  intros fuel args world pre rest project_id project_name ex st st1 st2
         Hmode Hpre Hraise.
  unfold scan. rewrite Hmode. unfold bind at 1. rewrite scan_sequentially_app.
  unfold bind at 1. rewrite Hpre. cbn [scan_sequentially]. unfold bind at 1.
  rewrite Hraise. reflexivity.
Qed.

Lemma debug_scan_stops_at_first_failure_witness :
  (debug_mode Mock.debug_args = true /\
   scan_sequentially 2 Mock.debug_args Mock.mixed_world [("p", "P")] state0
   = (Val tt, snd (scan_sequentially 2 Mock.debug_args Mock.mixed_world [("p", "P")] state0))
   /\
   fst (get_gcp_resources 2 Mock.debug_args (apis Mock.mixed_world "q") "q" "Q"
          (snd (scan_sequentially 2 Mock.debug_args Mock.mixed_world [("p", "P")] state0)))
   = Exn "cannot access local variable 'client' where it is not associated with a value")
  /\
  fst (scan 2 Mock.debug_args Mock.mixed_world [("p", "P"); ("q", "Q"); ("r", "R")] state0)
  = Exn "cannot access local variable 'client' where it is not associated with a value"
  /\
  invoked (snd (scan 2 Mock.debug_args Mock.mixed_world
                  [("p", "P"); ("q", "Q"); ("r", "R")] state0))
  = ["get_gcp_resources"; "get_gcp_resources"].
Proof.
  assert (H1 : scan_sequentially 2 Mock.debug_args Mock.mixed_world [("p", "P")] state0
               = (Val tt,
                  snd (scan_sequentially 2 Mock.debug_args Mock.mixed_world [("p", "P")]
                         state0)))
    by (apply injective_projections; [vm_compute; reflexivity | reflexivity]).
  assert (H2 : get_gcp_resources 2 Mock.debug_args (apis Mock.mixed_world "q") "q" "Q"
                 (snd (scan_sequentially 2 Mock.debug_args Mock.mixed_world [("p", "P")]
                         state0))
               = (Exn "cannot access local variable 'client' where it is not associated with a value",
                  snd (get_gcp_resources 2 Mock.debug_args (apis Mock.mixed_world "q")
                         "q" "Q"
                         (snd (scan_sequentially 2 Mock.debug_args Mock.mixed_world
                                 [("p", "P")] state0)))))
    by (apply injective_projections; [vm_compute; reflexivity | reflexivity]).
  split; [split; [reflexivity | split; [exact H1 | vm_compute; reflexivity]] |].
  pose proof (debug_scan_stops_at_first_failure 2 Mock.debug_args Mock.mixed_world
                [("p", "P")] [("r", "R")] "q" "Q" _ state0 _ _ eq_refl H1 H2) as H.
  cbn [app] in H. rewrite H. split; [reflexivity | vm_compute; reflexivity].
Defined.

(** ** The list of projects *)

Lemma insert_by_permutation {A} (key : A -> string) (x : A) (l : list A) :
  Permutation (PyStr.insert_by key x l) (x :: l).
Proof.
  induction l as [| y l IH]; simpl.
  - reflexivity.
  - destruct (String.leb (key y) (key x)).
    + rewrite IH. apply perm_swap.
    + reflexivity.
Qed.

Lemma sort_by_permutation {A} (key : A -> string) (l : list A) :
  Permutation (PyStr.sort_by key l) l.
Proof.
  unfold PyStr.sort_by.
  assert (H : forall acc, Permutation (fold_left (fun acc x => PyStr.insert_by key x acc) l acc)
                                      (acc ++ l)).
  { induction l as [| x l IH]; intros acc; simpl.
    - rewrite app_nil_r. reflexivity.
    - rewrite IH, insert_by_permutation. apply Permutation_middle. }
  apply (H []).
Qed.

Lemma insert_by_hd {A} (key : A -> string) (R : A -> A -> Prop) (y x : A) (l : list A) :
  R y x -> HdRel R y l -> HdRel R y (PyStr.insert_by key x l).
Proof.
  intros Hyx Hhd. destruct l as [| z l]; simpl.
  - constructor. exact Hyx.
  - destruct (String.leb (key z) (key x)).
    + constructor. inversion Hhd. assumption.
    + constructor. exact Hyx.
Qed.

Lemma insert_by_sorted {A} (key : A -> string) (x : A) (l : list A) :
  Sorted (fun a b => String.leb (key a) (key b) = true) l ->
  Sorted (fun a b => String.leb (key a) (key b) = true) (PyStr.insert_by key x l).
Proof.
  induction l as [| y l IH]; intros Hs; simpl.
  - repeat constructor.
  - inversion Hs as [| y' l' Hsl Hhd]. subst.
    destruct (String.leb (key y) (key x)) eqn:Hyx.
    + constructor; [apply IH; exact Hsl |].
      apply insert_by_hd; assumption.
    + constructor; [exact Hs |]. constructor.
      destruct (String.leb_total (key x) (key y)) as [H | H]; [exact H | congruence].
Qed.

Lemma sort_by_sorted {A} (key : A -> string) (l : list A) :
  Sorted (fun a b => String.leb (key a) (key b) = true) (PyStr.sort_by key l).
Proof.
  unfold PyStr.sort_by.
  assert (H : forall acc,
             Sorted (fun a b => String.leb (key a) (key b) = true) acc ->
             Sorted (fun a b => String.leb (key a) (key b) = true)
                    (fold_left (fun acc x => PyStr.insert_by key x acc) l acc)).
  { induction l as [| x l IH]; intros acc Hacc; simpl.
    - exact Hacc.
    - apply IH, insert_by_sorted, Hacc. }
  apply H. constructor.
Qed.

Lemma fold_collect_project excluded_folders (items : list gcp_project)
    (gcp_projects : list (string * string)) :
  fold_left (collect_project excluded_folders) items gcp_projects
  = gcp_projects ++ map project_row (List.filter (kept excluded_folders) items).
Proof.
  revert gcp_projects. induction items as [| project items IH]; intros gcp_projects.
  - simpl. rewrite app_nil_r. reflexivity.
  - simpl. rewrite IH. unfold collect_project, kept.
    destruct (String.eqb (lifecycleState project) "ACTIVE"); simpl; [| reflexivity].
    destruct (parent project) as [parent_folder |]; simpl.
    + destruct (PyStr.mem parent_folder excluded_folders); simpl;
        [reflexivity | rewrite <- app_assoc; reflexivity].
    + rewrite <- app_assoc. reflexivity.
Qed.

Lemma fold_project_pages excluded_folders (rs : list (response gcp_project))
    (gcp_projects : list (string * string)) :
  fold_left (fun gcp_projects response =>
               fold_left (collect_project excluded_folders) (entries_of response)
                         gcp_projects) rs gcp_projects
  = gcp_projects
    ++ map project_row (List.filter (kept excluded_folders) (all_entries rs)).
Proof.
  revert gcp_projects. induction rs as [| r rs IH]; intros gcp_projects.
  - simpl. rewrite app_nil_r. reflexivity.
  - simpl. rewrite IH, fold_collect_project.
    change (all_entries (r :: rs)) with (entries_of r ++ all_entries rs).
    rewrite List.filter_app, map_app, <- app_assoc. reflexivity.
Qed.

Lemma get_gcp_projects_returns fuel world excluded_folders
    (rs : list (response gcp_project)) st :
  construct (resourcemanager_projects world) = Constructed ->
  walks (resourcemanager_projects world) 0 rs ->
  (length rs <= fuel)%nat ->
  get_gcp_projects fuel world excluded_folders st
  = (Val (PyStr.sort_by fst
            (map project_row (List.filter (kept excluded_folders) (all_entries rs)))),
     after_requests (length rs) st).
Proof.
  intros Hconstruct Hwalk Hfuel.
  unfold get_gcp_projects. rewrite Hconstruct. unfold bind at 1. unfold uncaught, bind at 1.
  rewrite (while_request_pure (resourcemanager_projects world)
             (fun response gcp_projects =>
                fold_left (collect_project excluded_folders) (entries_of response)
                          gcp_projects)
             rs fuel 0 [] st Hwalk Hfuel).
  cbn [snd fst]. rewrite fold_project_pages. reflexivity.
Qed.

Lemma sorted_rows excluded_folders (projects : list gcp_project) (row : string * string) :
  In row (PyStr.sort_by fst (map project_row (List.filter (kept excluded_folders) projects)))
  <-> exists project, In project projects /\
                      kept excluded_folders project = true /\
                      row = project_row project.
Proof.
  assert (Hperm : Permutation
                    (PyStr.sort_by fst
                       (map project_row (List.filter (kept excluded_folders) projects)))
                    (map project_row (List.filter (kept excluded_folders) projects)))
    by apply sort_by_permutation.
  split.
  - intros Hin. apply (Permutation_in _ Hperm) in Hin.
    apply in_map_iff in Hin. destruct Hin as (project & Hrow & Hin).
    apply List.filter_In in Hin. destruct Hin as [Hin Hkept].
    exists project. split; [exact Hin |]. split; [exact Hkept | symmetry; exact Hrow].
  - intros (project & Hin & Hkept & ->).
    apply (Permutation_in _ (Permutation_sym Hperm)).
    apply in_map. apply List.filter_In. split; assumption.
Qed.

(** [get_gcp_projects] on a project listing with the pages [rs] returns,
    after one request per page, the pairs of id and name ([UNNAMED] for a
    project without name) of exactly the listed projects that are [ACTIVE]
    and whose parent is not an excluded folder, sorted by project id.  The
    counts and the logs are not touched. *)
Theorem active_projects_listed :
  forall (fuel : nat) (world : cloud) (excluded_folders : list string)
         (rs : list (response gcp_project)) (st : state),
    construct (resourcemanager_projects world) = Constructed ->
    walks (resourcemanager_projects world) 0 rs ->
    (length rs <= fuel)%nat ->
    exists gcp_projects,
      get_gcp_projects fuel world excluded_folders st
      = (Val gcp_projects, after_requests (length rs) st) /\
      Permutation gcp_projects
                  (map project_row (List.filter (kept excluded_folders) (all_entries rs))) /\
      Sorted by_id gcp_projects /\
      (forall row, In row gcp_projects <->
                   exists project, In project (all_entries rs) /\
                                   kept excluded_folders project = true /\
                                   row = project_row project).
Proof.
  intros fuel world excluded_folders rs st Hconstruct Hwalk Hfuel.
  exists (PyStr.sort_by fst
            (map project_row (List.filter (kept excluded_folders) (all_entries rs)))).
  split; [apply get_gcp_projects_returns; assumption |].
  split; [apply sort_by_permutation |].
  split; [apply sort_by_sorted |].
  intros row. apply sorted_rows.
Qed.

Lemma active_projects_listed_witness :
  (construct (resourcemanager_projects (Mock.organisation Mock.no_files)) = Constructed /\
   walks (resourcemanager_projects (Mock.organisation Mock.no_files)) 0 Mock.listed_projects /\
   (length Mock.listed_projects <= 2)%nat) /\
  get_gcp_projects 2 (Mock.organisation Mock.no_files) ["f1"] state0
  = (Val [("b", "B"); ("c", "UNNAMED")], after_requests 2 state0) /\
  exists gcp_projects,
    get_gcp_projects 2 (Mock.organisation Mock.no_files) ["f1"] state0
    = (Val gcp_projects, after_requests (length Mock.listed_projects) state0) /\
    Sorted by_id gcp_projects.
Proof.
  assert (Hwalk : walks (resourcemanager_projects (Mock.organisation Mock.no_files)) 0 Mock.listed_projects)
    by (split; [reflexivity | split; [discriminate | split; reflexivity]]).
  split; [split; [reflexivity | split; [exact Hwalk | simpl; lia]] |].
  split; [vm_compute; reflexivity |].
  destruct (active_projects_listed 2 (Mock.organisation Mock.no_files) ["f1"] Mock.listed_projects state0
              eq_refl Hwalk) as (gcp_projects & E & _ & Hsorted & _).
  - simpl. lia.
  - exists gcp_projects. split; [exact E | exact Hsorted].
Defined.

(** ** The projects of [projects.txt] *)

Lemma name_project_builds world project_id gcp_projects client_bound st :
  builds world project_id = true ->
  name_project world project_id (gcp_projects, client_bound) st
  = (Val (gcp_projects ++ resolved world [project_id], true),
     after_lookup world st project_id).
Proof.
  unfold builds, name_project, resolved, after_lookup. cbn [map concat]. unfold looked_up.
  destruct (resourcemanager_projects_get world project_id) as [[| ex | ex] [response | ex']];
    cbn [fst snd]; intros Hb; try discriminate Hb; unfold bind at 1.
  - unfold try_except, get_execute, bind, modify, ret. cbn [fst snd app].
    rewrite ?app_nil_r. reflexivity.
  - unfold try_except, get_execute, bind at 2, bind at 2, modify, raise.
    unfold bind at 1. rewrite error_print_text. cbn [snd app].
    rewrite ?app_nil_r. reflexivity.
  - unfold bind at 1. rewrite error_print_text. cbn [snd app].
    rewrite ?app_nil_r. reflexivity.
  - unfold bind at 1. rewrite error_print_text. cbn [snd app].
    rewrite ?app_nil_r. reflexivity.
Qed.

Lemma name_project_bound world project_id gcp_projects st :
  name_project world project_id (gcp_projects, true) st
  = (Val (gcp_projects ++ resolved world [project_id], true),
     after_lookup world st project_id).
Proof.
  destruct (builds world project_id) eqn:Hb.
  - apply name_project_builds, Hb.
  - revert Hb. unfold builds, name_project, resolved, after_lookup. cbn [map concat].
    unfold looked_up.
    destruct (resourcemanager_projects_get world project_id) as [[| ex | ex] answer];
      cbn [fst snd]; intros Hb; try discriminate Hb.
    unfold bind at 1. unfold bind at 1. rewrite error_print_text. cbn [snd app].
    rewrite ?app_nil_r. reflexivity.
Qed.

Lemma resolved_cons world project_id projects_ids :
  resolved world (project_id :: projects_ids)
  = resolved world [project_id] ++ resolved world projects_ids.
Proof. unfold resolved. cbn [map concat]. rewrite app_nil_r. reflexivity. Qed.

Lemma lookup_errors_cons world project_id projects_ids :
  lookup_errors world (project_id :: projects_ids)
  = lookup_errors world [project_id] ++ lookup_errors world projects_ids.
Proof. unfold lookup_errors. cbn [map concat]. rewrite app_nil_r. reflexivity. Qed.

Lemma name_projects_bound world projects_ids gcp_projects st :
  for_each projects_ids (name_project world) (gcp_projects, true) st
  = (Val (gcp_projects ++ resolved world projects_ids, true),
     fold_left (after_lookup world) projects_ids st).
Proof.
  revert gcp_projects st.
  induction projects_ids as [| project_id projects_ids IH]; intros gcp_projects st.
  - cbn [for_each fold_left]. unfold resolved. cbn [map concat].
    rewrite app_nil_r. reflexivity.
  - cbn [for_each fold_left]. unfold bind. rewrite name_project_bound, IH.
    rewrite (resolved_cons world project_id projects_ids), app_assoc. reflexivity.
Qed.

Lemma after_lookup_fields world project_id st :
  totals (after_lookup world st project_id) = totals st /\
  totals_log (after_lookup world st project_id) = totals_log st /\
  invoked (after_lookup world st project_id) = invoked st /\
  errors_log (after_lookup world st project_id)
  = errors_log st ++ lookup_errors world [project_id].
Proof.
  unfold after_lookup, lookup_errors. cbn [map concat]. unfold looked_up.
  destruct (resourcemanager_projects_get world project_id) as [[| ex | ex] [response | ex']];
    cbn [totals totals_log invoked errors_log tick with_error app];
    rewrite ?app_nil_r; repeat split; reflexivity.
Qed.

Lemma after_lookups_fields world projects_ids st :
  totals (fold_left (after_lookup world) projects_ids st) = totals st /\
  totals_log (fold_left (after_lookup world) projects_ids st) = totals_log st /\
  invoked (fold_left (after_lookup world) projects_ids st) = invoked st /\
  errors_log (fold_left (after_lookup world) projects_ids st)
  = errors_log st ++ lookup_errors world projects_ids.
Proof.
  revert st. induction projects_ids as [| project_id projects_ids IH]; intros st.
  - cbn [fold_left]. unfold lookup_errors. cbn [map concat]. rewrite app_nil_r.
    repeat split; reflexivity.
  - cbn [fold_left].
    destruct (IH (after_lookup world st project_id)) as (E1 & E2 & E3 & E4).
    destruct (after_lookup_fields world project_id st) as (F1 & F2 & F3 & F4).
    rewrite E1, E2, E3, E4, F1, F2, F3, F4.
    rewrite (lookup_errors_cons world project_id projects_ids), app_assoc.
    repeat split; reflexivity.
Qed.

(** [get_gcp_projects_from_file] with a file [projects.txt] whose first id
    has a client: the result holds, sorted by id, exactly the stripped,
    non-empty lines of the file whose lookup returns, each with the name
    the lookup gives or [UNNAMED]; every id whose lookup raises adds one
    error line and is left out; the counts are not touched. *)
Theorem projects_file_resolved :
  forall (world : cloud) (lines : list string) (st : state),
    files world input_file = Some lines ->
    match listed_ids lines with
    | [] => True
    | project_id :: _ => builds world project_id = true
    end ->
    exists gcp_projects st',
      get_gcp_projects_from_file world st = (Val gcp_projects, st') /\
      Permutation gcp_projects (resolved world (listed_ids lines)) /\
      Sorted by_id gcp_projects /\
      errors_log st' = errors_log st ++ lookup_errors world (listed_ids lines) /\
      totals st' = totals st /\
      totals_log st' = totals_log st /\
      invoked st' = invoked st.
Proof.
  intros world lines st Hfile Hfirst.
  exists (PyStr.sort_by fst (resolved world (listed_ids lines))),
         (fold_left (after_lookup world) (listed_ids lines) st).
  destruct (after_lookups_fields world (listed_ids lines) st) as (E1 & E2 & E3 & E4).
  split; [| split; [apply sort_by_permutation | split; [apply sort_by_sorted |]]].
  - unfold get_gcp_projects_from_file. rewrite Hfile.
    fold (listed_ids lines).
    destruct (listed_ids lines) as [| project_id projects_ids].
    + reflexivity.
    + cbn [for_each fold_left]. unfold bind.
      rewrite (name_project_builds world project_id [] false st Hfirst).
      rewrite name_projects_bound. cbn [fst].
      rewrite (resolved_cons world project_id projects_ids). reflexivity.
  - repeat split; assumption.
Qed.

Lemma projects_file_resolved_witness :
  (files Mock.named_projects input_file = Some Mock.spaced_lines /\
   listed_ids Mock.spaced_lines = ["b"; "a"; "gone"] /\
   match listed_ids Mock.spaced_lines with
   | [] => True
   | project_id :: _ => builds Mock.named_projects project_id = true
   end) /\
  fst (get_gcp_projects_from_file Mock.named_projects state0)
  = Val [("a", "A"); ("b", "UNNAMED")] /\
  errors_log (snd (get_gcp_projects_from_file Mock.named_projects state0))
  = ["ERROR: Project: gone get_gcp_projects_from_file() 403"] /\
  exists gcp_projects st',
    get_gcp_projects_from_file Mock.named_projects state0 = (Val gcp_projects, st') /\
    Sorted by_id gcp_projects /\
    errors_log st'
    = errors_log state0 ++ lookup_errors Mock.named_projects (listed_ids Mock.spaced_lines).
Proof.
  split; [split; [| split]; vm_compute; reflexivity |].
  split; [vm_compute; reflexivity |].
  split; [vm_compute; reflexivity |].
  destruct (projects_file_resolved Mock.named_projects Mock.spaced_lines state0)
    as (gcp_projects & st' & E & _ & Hsorted & Herrors & _).
  - vm_compute; reflexivity.
  - vm_compute; reflexivity.
  - exists gcp_projects, st'. split; [exact E | split; [exact Hsorted | exact Herrors]].
Defined.

(** [get_gcp_projects_from_file] when no client can be built for the first
    id of [projects.txt]: the error is recorded and [client.close()] after
    the [try] statement then raises for the unbound [client]; no other id
    is looked up. *)
Theorem unbuildable_first_project_raises :
  forall (world : cloud) (lines : list string) (project_id : string)
         (projects_ids : list string) (ex : string) (st : state),
    files world input_file = Some lines ->
    listed_ids lines = project_id :: projects_ids ->
    fst (resourcemanager_projects_get world project_id) = BuildRaises ex ->
    get_gcp_projects_from_file world st
    = (Exn "cannot access local variable 'client' where it is not associated with a value",
       with_error (error_text "get_gcp_projects_from_file" ex project_id) st).
Proof.
  intros world lines project_id projects_ids ex st Hfile Hids Hbuild.
  unfold get_gcp_projects_from_file. rewrite Hfile.
  fold (listed_ids lines). rewrite Hids.
  cbn [for_each]. unfold bind at 1. unfold bind at 1. unfold name_project.
  destruct (resourcemanager_projects_get world project_id) as [c answer].
  cbn [fst] in Hbuild. subst c.
  unfold bind at 1. unfold bind at 1. rewrite error_print_text. reflexivity.
Qed.

Lemma unbuildable_first_project_raises_witness :
  (files Mock.no_client input_file = Some [" b "; "   "; "a"; "gone"] /\
   listed_ids [" b "; "   "; "a"; "gone"] = ["b"; "a"; "gone"] /\
   fst (resourcemanager_projects_get Mock.no_client "b") = BuildRaises "credentials") /\
  get_gcp_projects_from_file Mock.no_client state0
  = (Exn "cannot access local variable 'client' where it is not associated with a value",
     with_error (error_text "get_gcp_projects_from_file" "credentials" "b") state0).
Proof.
  split; [split; [| split]; vm_compute; reflexivity |].
  apply (unbuildable_first_project_raises Mock.no_client [" b "; "   "; "a"; "gone"]
           "b" ["a"; "gone"] "credentials" state0); vm_compute; reflexivity.
Defined.

(** ** The projects that [main] scans *)

Lemma mem_In (x : string) (l : list string) : PyStr.mem x l = true <-> In x l.
Proof.
  unfold PyStr.mem. rewrite existsb_exists. split.
  - intros (y & Hin & E). apply String.eqb_eq in E. subst y. exact Hin.
  - intros Hin. exists x. split; [exact Hin | apply String.eqb_refl].
Qed.

Lemma mem_sort (x : string) (l : list string) : PyStr.mem x (PyStr.sort l) = PyStr.mem x l.
Proof.
  assert (Hperm : Permutation (PyStr.sort l) l) by apply sort_by_permutation.
  destruct (PyStr.mem x l) eqn:E.
  - apply mem_In. apply mem_In in E.
    apply (Permutation_in _ (Permutation_sym Hperm)), E.
  - destruct (PyStr.mem x (PyStr.sort l)) eqn:E'; [| reflexivity].
    apply mem_In in E'. apply (Permutation_in _ Hperm) in E'. apply mem_In in E'.
    congruence.
Qed.

Lemma kept_sort (lines : list string) (project : gcp_project) :
  kept (PyStr.sort lines) project = kept lines project.
Proof.
  unfold kept. destruct (parent project) as [parent_folder |]; [| reflexivity].
  rewrite mem_sort. reflexivity.
Qed.

Lemma kept_spec (excluded_folders : list string) (project : gcp_project) :
  kept excluded_folders project = true <->
  lifecycleState project = "ACTIVE" /\
  (forall folder, parent project = Some folder -> ~ In folder excluded_folders).
Proof.
  unfold kept. rewrite andb_true_iff, negb_true_iff, String.eqb_eq.
  destruct (parent project) as [parent_folder |].
  - split.
    + intros [Hactive Hmem]. split; [exact Hactive |].
      intros folder Hfolder Hin. injection Hfolder as <-.
      apply mem_In in Hin. congruence.
    + intros [Hactive Hout]. split; [exact Hactive |].
      destruct (PyStr.mem parent_folder excluded_folders) eqn:E; [| reflexivity].
      apply mem_In in E. destruct (Hout parent_folder eq_refl E).
  - split.
    + intros [Hactive _]. split; [exact Hactive | discriminate].
    + intros [Hactive _]. split; [exact Hactive | reflexivity].
Qed.

(** [main] with [--all] and [--exclude]: the projects that are scanned are,
    sorted by id, exactly the listed projects that are [ACTIVE] and whose
    parent folder is not a line of [excluded-folders.txt]; a project in an
    excluded folder is never dispatched. *)
Theorem excluded_folders_not_scanned :
  forall (fuel : nat) (args : Args) (world : cloud) (lines : list string)
         (rs : list (response gcp_project)) (st : state),
    input_excluded_folders args = true ->
    all args = true ->
    files world excluded_folders_file = Some lines ->
    construct (resourcemanager_projects world) = Constructed ->
    walks (resourcemanager_projects world) 0 rs ->
    (length rs <= fuel)%nat ->
    exists projects,
      main fuel args world st
      = scan fuel args world projects (after_requests (length rs) st) /\
      Sorted by_id projects /\
      (forall row, In row projects <->
                   exists project, In project (all_entries rs) /\
                                   lifecycleState project = "ACTIVE" /\
                                   (forall folder, parent project = Some folder ->
                                                   ~ In folder lines) /\
                                   row = project_row project).
Proof.
  intros fuel args world lines rs st Hexclude Hall Hfile Hconstruct Hwalk Hfuel.
  exists (PyStr.sort_by fst
            (map project_row (List.filter (kept (PyStr.sort lines)) (all_entries rs)))).
  split; [| split; [apply sort_by_sorted |]].
  - unfold main. rewrite Hexclude, Hall.
    unfold get_excluded_folders_from_file. rewrite Hfile.
    unfold bind at 1. unfold ret at 1. unfold bind at 1.
    rewrite (get_gcp_projects_returns fuel world (PyStr.sort lines) rs st
               Hconstruct Hwalk Hfuel).
    reflexivity.
  - intros row. rewrite sorted_rows. split.
    + intros (project & Hin & Hkept & Hrow). rewrite kept_sort in Hkept.
      apply kept_spec in Hkept. destruct Hkept as [Hactive Hout].
      exists project. repeat split; assumption.
    + intros (project & Hin & Hactive & Hout & Hrow).
      exists project. split; [exact Hin |]. split; [| exact Hrow].
      rewrite kept_sort. apply kept_spec. split; assumption.
Qed.

Lemma excluded_folders_not_scanned_witness :
  (input_excluded_folders Mock.all_args = true /\
   all Mock.all_args = true /\
   files (Mock.organisation Mock.excluded_file) excluded_folders_file = Some ["f1"] /\
   construct (resourcemanager_projects (Mock.organisation Mock.excluded_file)) = Constructed /\
   walks (resourcemanager_projects (Mock.organisation Mock.excluded_file)) 0
         Mock.listed_projects /\
   (length Mock.listed_projects <= 2)%nat) /\
  fst (main 2 Mock.all_args (Mock.organisation Mock.excluded_file) state0) = Val 2 /\
  invoked (snd (main 2 Mock.all_args (Mock.organisation Mock.excluded_file) state0))
  = ["get_gcp_resources"; "get_gcp_resources"] /\
  exists projects,
    main 2 Mock.all_args (Mock.organisation Mock.excluded_file) state0
    = scan 2 Mock.all_args (Mock.organisation Mock.excluded_file) projects
           (after_requests (length Mock.listed_projects) state0) /\
    Sorted by_id projects.
Proof.
  assert (Hwalk : walks (resourcemanager_projects (Mock.organisation Mock.excluded_file)) 0
                        Mock.listed_projects)
    by (split; [reflexivity | split; [discriminate | split; reflexivity]]).
  split; [split; [reflexivity | split; [reflexivity | split; [reflexivity |
          split; [reflexivity | split; [exact Hwalk | simpl; lia]]]]] |].
  split; [vm_compute; reflexivity |].
  split; [vm_compute; reflexivity |].
  destruct (excluded_folders_not_scanned 2 Mock.all_args
              (Mock.organisation Mock.excluded_file) ["f1"] Mock.listed_projects state0
              eq_refl eq_refl eq_refl eq_refl Hwalk)
    as (projects & E & Hsorted & _).
  - simpl. lia.
  - exists projects. split; [exact E | exact Hsorted].
Defined.

(** [main] with [--all] when the client of the resource manager or its
    first request cannot be built: two error lines are recorded, the list
    of projects is empty and the scan dispatches nothing. *)
Theorem unavailable_projects_scan_nothing :
  forall (fuel : nat) (args : Args) (world : cloud) (ex : string) (st : state),
    input_excluded_folders args = false ->
    all args = true ->
    construct_error (construct (resourcemanager_projects world)) = Some ex ->
    main fuel args world st
    = (Val 0,
       with_error (error_text "get_gcp_projects" "Error getting GCP Projects." "")
                  (with_error (error_text "get_gcp_projects" ex "") st)).
Proof.
  intros fuel args world ex st Hexclude Hall Hconstruct.
  assert (E : get_gcp_projects fuel world [] st
              = (Val [],
                 with_error (error_text "get_gcp_projects" "Error getting GCP Projects." "")
                            (with_error (error_text "get_gcp_projects" ex "") st))).
  { unfold get_gcp_projects.
    destruct (construct (resourcemanager_projects world)) as [| ex' | ex'];
      cbn [construct_error] in Hconstruct; [discriminate Hconstruct | |];
      injection Hconstruct as ->;
      unfold bind at 1; rewrite error_print_text;
      unfold bind at 1; rewrite error_print_text; reflexivity. }
  unfold main. rewrite Hexclude, Hall.
  unfold bind at 1. unfold ret at 1. unfold bind at 1. rewrite E.
  unfold scan. destruct (debug_mode args); reflexivity.
Qed.

Lemma unavailable_projects_scan_nothing_witness :
  (input_excluded_folders Mock.every_project_args = false /\
   all Mock.every_project_args = true /\
   construct_error (construct (resourcemanager_projects Mock.no_resource_manager))
   = Some "credentials") /\
  main 1 Mock.every_project_args Mock.no_resource_manager state0
  = (Val 0,
     with_error (error_text "get_gcp_projects" "Error getting GCP Projects." "")
                (with_error (error_text "get_gcp_projects" "credentials" "") state0)).
Proof.
  split; [split; [| split]; reflexivity |].
  apply (unavailable_projects_scan_nothing 1 Mock.every_project_args
           Mock.no_resource_manager "credentials" state0); reflexivity.
Defined.

(** [main] with [--all] when a page of the project listing fails: the
    loop of [get_gcp_projects] stands outside its [try], so the exception
    leaves [main]; the projects of the pages before are dropped, nothing is
    scanned and nothing is logged. *)
Theorem project_listing_failure_aborts :
  forall (fuel : nat) (args : Args) (world : cloud)
         (rs : list (response gcp_project)) (ex : string) (st : state),
    input_excluded_folders args = false ->
    all args = true ->
    construct (resourcemanager_projects world) = Constructed ->
    fails_after (resourcemanager_projects world) 0 rs ex ->
    (length rs < fuel)%nat ->
    main fuel args world st = (Exn ex, after_requests (S (length rs)) st).
Proof.
  intros fuel args world rs ex st Hexclude Hall Hconstruct Hfail Hfuel.
  unfold main. rewrite Hexclude, Hall.
  unfold bind at 1. unfold ret at 1. unfold bind at 1.
  unfold get_gcp_projects. rewrite Hconstruct.
  unfold bind at 1. unfold uncaught, bind at 1.
  rewrite (while_request_pure_fails (resourcemanager_projects world)
             (fun response gcp_projects =>
                fold_left (collect_project []) (entries_of response) gcp_projects)
             rs ex fuel 0 [] st Hfail Hfuel).
  reflexivity.
Qed.

Lemma project_listing_failure_aborts_witness :
  (input_excluded_folders Mock.every_project_args = false /\
   all Mock.every_project_args = true /\
   construct (resourcemanager_projects Mock.flaky_resource_manager) = Constructed /\
   fails_after (resourcemanager_projects Mock.flaky_resource_manager) 0
               Mock.projects_first_page "quota" /\
   (length Mock.projects_first_page < 2)%nat) /\
  main 2 Mock.every_project_args Mock.flaky_resource_manager state0
  = (Exn "quota", after_requests 2 state0).
Proof.
  assert (Hfail : fails_after (resourcemanager_projects Mock.flaky_resource_manager) 0
                              Mock.projects_first_page "quota")
    by (split; [reflexivity | split; [discriminate | reflexivity]]).
  split; [split; [reflexivity | split; [reflexivity | split; [reflexivity |
          split; [exact Hfail | simpl; lia]]]] |].
  apply (project_listing_failure_aborts 2 Mock.every_project_args
           Mock.flaky_resource_manager Mock.projects_first_page "quota" state0
           eq_refl eq_refl eq_refl Hfail).
  simpl. lia.
Defined.

(** ** Start-up, at concrete command lines *)

Lemma out_of_range_exits_1_witness :
  (max_image_tags Mock.no_workers_args < 1 \/ 1000 < max_image_tags Mock.no_workers_args \/
   max_workers Mock.no_workers_args < 1 \/ 1000 < max_workers Mock.no_workers_args) /\
  exists text,
    script 1 Mock.no_workers_args (Mock.world Mock.no_files (Mock.project [])) state0
    = (Exit 1, State (totals state0) (totals_log state0) (errors_log state0)
                     (stdout state0 ++ [Line text]) (invoked state0) (requests state0)).
Proof.
  assert (H : max_image_tags Mock.no_workers_args < 1 \/
              1000 < max_image_tags Mock.no_workers_args \/
              max_workers Mock.no_workers_args < 1 \/
              1000 < max_workers Mock.no_workers_args)
    by (right; right; left; simpl; lia).
  split; [exact H |].
  exact (out_of_range_exits_1 1 Mock.no_workers_args
           (Mock.world Mock.no_files (Mock.project [])) state0 H).
Defined.

Lemma missing_excluded_folders_file_exits_0_witness :
  (1 <= max_image_tags Mock.all_args <= 1000 /\
   1 <= max_workers Mock.all_args <= 1000 /\
   input_excluded_folders Mock.all_args = true /\
   files (Mock.organisation Mock.no_files) excluded_folders_file = None) /\
  exists e1 e2 e3,
    script 2 Mock.all_args (Mock.organisation Mock.no_files) state0
    = (Exit 0, State (totals state0) (totals_log state0) (errors_log state0 ++ [e1; e2; e3])
                     (stdout state0 ++ [Line e1; Line e2; Line e3])
                     (invoked state0) (requests state0)).
Proof.
  assert (Htags : 1 <= max_image_tags Mock.all_args <= 1000) by (simpl; lia).
  assert (Hworkers : 1 <= max_workers Mock.all_args <= 1000) by (simpl; lia).
  split; [split; [exact Htags | split; [exact Hworkers | split; reflexivity]] |].
  exact (missing_excluded_folders_file_exits_0 2 Mock.all_args
           (Mock.organisation Mock.no_files) state0 Htags Hworkers eq_refl eq_refl).
Defined.

Lemma selection_agrees_but_for_buckets_witness :
  PyStr.mem "storage.googleapis.com"
            ["storage.googleapis.com"; "storage-api.googleapis.com"; "run.googleapis.com"]
  = PyStr.mem "storage-api.googleapis.com"
              ["storage.googleapis.com"; "storage-api.googleapis.com"; "run.googleapis.com"] /\
  debug_calls Mock.args
    ["storage.googleapis.com"; "storage-api.googleapis.com"; "run.googleapis.com"] []
  = parallel_submits Mock.args
      ["storage.googleapis.com"; "storage-api.googleapis.com"; "run.googleapis.com"] [].
Proof.
  assert (H : PyStr.mem "storage.googleapis.com"
                ["storage.googleapis.com"; "storage-api.googleapis.com"; "run.googleapis.com"]
              = PyStr.mem "storage-api.googleapis.com"
                  ["storage.googleapis.com"; "storage-api.googleapis.com";
                   "run.googleapis.com"])
    by (vm_compute; reflexivity).
  split; [exact H |].
  exact (selection_agrees_but_for_buckets Mock.args
           ["storage.googleapis.com"; "storage-api.googleapis.com"; "run.googleapis.com"] []
           H).
Defined.

(** ** Repositories whose images cannot be listed *)

Lemma wp_count_repository_any fuel args api project_id region repository n
    (pages : option (list (response docker_image))) (T : gmap string Z) (e : nat) st :
  match pages with
  | Some pages =>
      construct (artifactregistry_dockerImages api region repository) = Constructed /\
      walks (artifactregistry_dockerImages api region repository) 0 pages /\
      (length pages <= fuel)%nat
  | None =>
      construct_error (construct (artifactregistry_dockerImages api region repository))
      <> None
  end ->
  totals st = T -> length (errors_log st) = e ->
  wp (count_repository fuel args api project_id region repository n)
     (fun n' st' =>
        n' = n + images_in (max_image_tags args) pages
        /\ totals st' = T
        /\ length (errors_log st') = (e + unlistable_images pages)%nat) st.
Proof.
  intros Hpages HT He. unfold count_repository.
  destruct pages as [pages |].
  - destruct Hpages as (Hconstruct & Hwalk & Hfuel). rewrite Hconstruct.
    apply wp_bind. apply wp_uncaught.
    eapply wp_mono.
    + apply (wp_while_request _ _
               (fun pre v st' =>
                  v = sumZ (map (image_contribution (max_image_tags args)) (all_entries pre))
                  /\ totals st' = T /\ length (errors_log st') = e) pages) with (pre := []);
        [| exact Hwalk | exact Hfuel | split; [reflexivity | split; [exact HT | exact He]]].
      intros pre r v st0 _ (Hv & Hst & Herr). apply wp_ret.
      split; [| split; [exact Hst | exact Herr]].
      rewrite fold_count_image, Hv, all_entries_snoc, map_app, sumZ_app. reflexivity.
    + intros [v o] st' (Ho & Hv & Hst & Herr). simpl in *. split; [exact Ho |].
      apply wp_ret. split; [| split; [exact Hst | lia]].
      unfold repository_contribution. rewrite Hv. reflexivity.
  - destruct (construct (artifactregistry_dockerImages api region repository))
      as [| ex | ex]; [exfalso; apply Hpages; reflexivity | |];
      (apply wp_bind; apply wp_modify; apply wp_ret; cbn [totals errors_log images_in];
       split; [lia | split; [exact HT | rewrite length_app; simpl; lia]]).
Qed.

(** [get_gcp_gcr_images] when the image listing of some repositories
    cannot be requested: such a repository leaves one error record and
    counts for nothing, the other DOCKER repositories are still counted,
    each capped at 10000, so that [totals['Registry Container Images']]
    grows by at most 10000 for each DOCKER repository. *)
Theorem unlistable_repositories_skipped :
  forall (fuel : nat) (args : Args) (api : project_apis)
         (project_id project_name region : string) (st : state)
         (rs : list (response repository))
         (images : string -> option (list (response docker_image))),
    1 <= max_image_tags args <= 1000 ->
    construct (artifactregistry_repositories api region) = Constructed ->
    walks (artifactregistry_repositories api region) 0 rs ->
    (length rs <= fuel)%nat ->
    (forall repository,
        In repository (docker_repositories (all_entries rs)) ->
        match images repository with
        | Some pages =>
            construct (artifactregistry_dockerImages api region repository) = Constructed /\
            walks (artifactregistry_dockerImages api region repository) 0 pages /\
            (length pages <= fuel)%nat
        | None =>
            construct_error (construct (artifactregistry_dockerImages api region repository))
            <> None
        end) ->
    exists st',
      get_gcp_gcr_images fuel args api project_id project_name region st = (Val tt, st') /\
      total (totals st') "Registry Container Images"
      = total (totals st) "Registry Container Images"
        + sumZ (map (fun repository => images_in (max_image_tags args) (images repository))
                    (docker_repositories (all_entries rs))) /\
      total (totals st') "Registry Container Images"
      <= total (totals st) "Registry Container Images"
         + 10000 * Z.of_nat (length (docker_repositories (all_entries rs))) /\
      (forall r, r <> "Registry Container Images" ->
                 total (totals st') r = total (totals st) r) /\
      length (errors_log st')
      = (length (errors_log st)
         + list_sum (map (fun repository => unlistable_images (images repository))
                         (docker_repositories (all_entries rs))))%nat.
Proof.
  intros fuel args api project_id project_name region st rs images
         Htags Hconstruct Hwalk Hfuel Himages.
  set (count := fun repositories : list string =>
                  sumZ (map (fun repository =>
                               images_in (max_image_tags args) (images repository))
                            repositories)).
  set (failures := fun repositories : list string =>
                     list_sum (map (fun repository => unlistable_images (images repository))
                                   repositories)).
  assert (Hcount_app : forall l l', count (l ++ l') = count l + count l')
    by (intros; unfold count; rewrite map_app, sumZ_app; reflexivity).
  assert (Hfailures_app : forall l l', failures (l ++ l') = (failures l + failures l')%nat)
    by (intros; unfold failures; rewrite map_app, list_sum_app; reflexivity).
  assert (Hbounds : forall l, 0 <= count l <= 10000 * Z.of_nat (length l)).
  { intros l. unfold count. induction l as [| x l IH]; [simpl; lia |].
    cbn [map sumZ length]. 
    assert (0 <= images_in (max_image_tags args) (images x) <= 10000).
    { unfold images_in. destruct (images x) as [pages |]; [| lia].
      pose proof (repository_contribution_nonneg (max_image_tags args) (all_entries pages)).
      unfold repository_contribution in *. lia. }
    change (sumZ (images_in (max_image_tags args) (images x)
                  :: map (fun repository =>
                            images_in (max_image_tags args) (images repository)) l))
      with (images_in (max_image_tags args) (images x)
            + sumZ (map (fun repository =>
                           images_in (max_image_tags args) (images repository)) l)).
    lia. }
  assert (H : wp (get_gcp_gcr_images fuel args api project_id project_name region)
                 (fun _ st' =>
                    total (totals st') "Registry Container Images"
                    = total (totals st) "Registry Container Images"
                      + count (docker_repositories (all_entries rs))
                    /\ (forall r, r <> "Registry Container Images" ->
                                  total (totals st') r = total (totals st) r)
                    /\ length (errors_log st')
                       = (length (errors_log st)
                          + failures (docker_repositories (all_entries rs)))%nat) st).
  { unfold get_gcp_gcr_images. apply wp_bind. apply wp_modify.
    rewrite Hconstruct. apply wp_bind. apply wp_uncaught.
    eapply wp_mono.
    - apply (wp_while_request _ _
               (fun pre v st' =>
                  v = docker_repositories (all_entries pre) /\ totals st' = totals st
                  /\ length (errors_log st') = length (errors_log st)) rs)
        with (pre := []); [| exact Hwalk | exact Hfuel | repeat split; reflexivity].
      intros pre r v st0 _ (Hv & Hst & Herr). apply wp_ret.
      split; [| split; [exact Hst | exact Herr]].
      rewrite fold_collect_repository, Hv, all_entries_snoc, docker_repositories_app.
      reflexivity.
    - intros [repositories o] st1 (Ho & Hv & Hst1 & Herr1). simpl in *. split; [exact Ho |].
      subst repositories. apply wp_bind.
      eapply wp_mono.
      + apply (wp_for_each _
                 (fun pre v st' =>
                    v = count pre /\ totals st' = totals st
                    /\ length (errors_log st')
                       = (length (errors_log st) + failures pre)%nat)
                 (docker_repositories (all_entries rs))) with (pre := []);
          [| split; [reflexivity | split; [exact Hst1 |]]].
        * intros pre repository v st0 Hin (Hv & Hst0 & Herr0).
          eapply wp_mono;
            [apply (wp_count_repository_any fuel args api project_id region repository v
                      (images repository) (totals st)
                      (length (errors_log st) + failures pre)%nat st0
                      (Himages repository Hin) Hst0 Herr0) |].
          intros v' st' (Hv' & Hst' & Herr'). split; [| split; [exact Hst' |]].
          -- assert (Hone : count [repository]
                            = images_in (max_image_tags args) (images repository))
               by (unfold count; simpl; lia).
             rewrite Hcount_app, Hone, Hv', Hv. reflexivity.
          -- assert (Hone : failures [repository] = unlistable_images (images repository))
               by (unfold failures; simpl; lia).
             rewrite Hfailures_app, Hone, Herr'. lia.
        * change (failures []) with 0%nat. lia.
      + intros n st2 (Hn & Hst2 & Herr2). simpl in Hn. cbv beta.
        change ([] ++ docker_repositories (all_entries rs))
          with (docker_repositories (all_entries rs)) in Herr2.
        pose proof (Hbounds (docker_repositories (all_entries rs))) as Hnonneg.
        rewrite <- Hn in Hnonneg.
        apply wp_when.
        * intros _. split; [| split].
          -- simpl. rewrite total_add_total, Hst2, <- Hn. simpl. reflexivity.
          -- intros r Hr. simpl. rewrite total_add_total, Hst2.
             destruct (String.eqb_spec "Registry Container Images" r) as [E | _];
               [congruence | lia].
          -- exact Herr2.
        * intros Hcond. apply orb_false_iff in Hcond. destruct Hcond as [Hpos _].
          apply Z.ltb_ge in Hpos. split; [| split].
          -- rewrite Hst2, <- Hn. lia.
          -- intros r _. rewrite Hst2. reflexivity.
          -- exact Herr2. }
  apply wp_elim in H. destruct H as ([] & st' & E & Ht & Hframe & Herr).
  exists st'. split; [exact E |]. split; [exact Ht |].
  split; [| split; [exact Hframe | exact Herr]].
  rewrite Ht. pose proof (Hbounds (docker_repositories (all_entries rs))). lia.
Qed.

Lemma unlistable_repositories_skipped_witness :
  (1 <= max_image_tags Mock.args <= 1000 /\
   construct (artifactregistry_repositories Mock.locked_registry "us") = Constructed /\
   walks (artifactregistry_repositories Mock.locked_registry "us") 0 Mock.two_repositories /\
   (length Mock.two_repositories <= 1)%nat /\
   docker_repositories (all_entries Mock.two_repositories) = ["locked"; "app"] /\
   construct_error (construct (artifactregistry_dockerImages Mock.locked_registry "us" "locked"))
   = Some "403" /\
   walks (artifactregistry_dockerImages Mock.locked_registry "us" "app") 0
         Mock.registry_images) /\
  exists st',
    get_gcp_gcr_images 1 Mock.args Mock.locked_registry "p" "P" "us" state0 = (Val tt, st') /\
    total (totals st') "Registry Container Images" = 0 + 6 /\
    length (errors_log st') = 1%nat.
Proof.
  split.
  - split; [simpl; lia |]. split; [reflexivity |]. split; [simpl; auto |].
    split; [simpl; lia |]. split; [reflexivity |]. split; [reflexivity | simpl; auto].
  - destruct (unlistable_repositories_skipped 1 Mock.args Mock.locked_registry "p" "P" "us"
                state0 Mock.two_repositories Mock.locked_images)
      as (st' & E & Ht & _ & _ & Herr).
    + simpl. lia.
    + reflexivity.
    + simpl. auto.
    + simpl. lia.
    + intros repository Hin.
      change (docker_repositories (all_entries Mock.two_repositories))
        with ["locked"; "app"] in Hin.
      destruct Hin as [<- | [<- | []]].
      * vm_compute. discriminate.
      * split; [reflexivity |]. split; [simpl; auto | simpl; lia].
    + exists st'. split; [exact E |]. split; [exact Ht | exact Herr].
Defined.

(** ** The flag [--data] *)

(** Whether [--data] is given changes nothing in what the script scans and
    counts: buckets, databases and warehouses are enabled in either case,
    and the result, the totals, both logs, the functions entered and the
    requests issued are the same.  The flag only shows in the messages
    that [main] and [output_results] print. *)
Theorem data_flag_changes_no_count :
  forall (fuel : nat) (args : Args) (world : cloud) (given : bool) (st : state),
    script fuel (with_data_mode given args) world st = script fuel args world st /\
    enabled (with_data_mode given args) "Data Buckets" = true /\
    enabled (with_data_mode given args) "PaaS Databases" = true /\
    enabled (with_data_mode given args) "Data Warehouses" = true.
Proof.
  intros fuel args world given st. repeat split; reflexivity.
Qed.
